(** * CoverLetterGPT: relevance-scored memory selection

    A shallow embedding of the memory core, the temporal manager and the two
    relevance engines of [src/cover_letter_generator], with the properties
    stated for them in the specification.

    Modelling conventions.
    - Python [str] is modelled by [string] (8-bit characters); [lower],
      [strip], [replace] and the [in] operator act on ASCII.  Where a text
      is encoded, the argument is a list of code points that can also hold
      lone surrogates, which no encoding accepts.
    - Python [float] scores are modelled by exact rationals [Q]; every
      constant of the source (0.1, 0.7, 0.9, ...) is the rational it denotes.
      A sum of doubles can differ from the exact sum in its last digit
      (0.1 + 0.7 is 0.7999999999999999), which matters only where two scores,
      or a score and a threshold, are that close; the bounds proved of the
      scores do not depend on it.
    - A [dict] is an insertion-ordered association list with unique keys,
      which is what iteration over [.items()] observes.
    - A naive [datetime] is the number of microseconds since [datetime.min];
      it lies between 0 and [datetime_max], and arithmetic that leaves this
      range raises [OverflowError].  A [timedelta] is a difference of such
      numbers.
    - An exception is an explicit outcome ([Raises]) of the operation. *)

From Stdlib Require Import List String Ascii Bool Arith ZArith QArith Qminmax Lia.
From Stdlib Require Import Sorted Permutation Lqa.
Import ListNotations.

Set Warnings "-register-all".
Close Scope Q_scope.
Local Open Scope nat_scope.
Local Open Scope string_scope.
Local Open Scope list_scope.

(* ================================================================== *)
(** ** Python built-ins used by the source *)
(* ================================================================== *)

Module Py.

(** Exceptions the modelled code can meet. *)
Inductive exn : Type :=
| JSONDecodeError
| FileNotFoundError
| PermissionError
| IsADirectoryError
| UnicodeDecodeError
| UnicodeEncodeError
| OverflowError
| KeyError (key : string).

Inductive result (A : Type) : Type :=
| Returns (a : A)
| Raises (e : exn).
Arguments Returns {A} a.
Arguments Raises {A} e.

Definition bind {A B : Type} (m : result A) (k : A -> result B) : result B :=
  match m with
  | Returns a => k a
  | Raises e => Raises e
  end.

(** *** Characters *)

Definition is_upper (c : ascii) : bool :=
  let n := nat_of_ascii c in (65 <=? n)%nat && (n <=? 90)%nat.

Definition lower_char (c : ascii) : ascii :=
  if is_upper c then ascii_of_nat (nat_of_ascii c + 32) else c.

(** [str.isspace] on the ASCII range: TAB..CR, FS..US and the blank. *)
Definition is_space (c : ascii) : bool :=
  let n := nat_of_ascii c in
  ((9 <=? n)%nat && (n <=? 13)%nat)
  || ((28 <=? n)%nat && (n <=? 31)%nat)
  || (n =? 32)%nat.

(** [\w] on the ASCII range: letters, digits and the underscore. *)
Definition is_word (c : ascii) : bool :=
  let n := nat_of_ascii c in
  ((48 <=? n)%nat && (n <=? 57)%nat)
  || ((65 <=? n)%nat && (n <=? 90)%nat)
  || ((97 <=? n)%nat && (n <=? 122)%nat)
  || (n =? 95)%nat.

(** *** Strings *)

(** [s.lower()] *)
Fixpoint lower (s : string) : string :=
  match s with
  | EmptyString => EmptyString
  | String c r => String (lower_char c) (lower r)
  end.

(** [s.lstrip()] *)
Fixpoint lstrip (s : string) : string :=
  match s with
  | EmptyString => EmptyString
  | String c r => if is_space c then lstrip r else s
  end.

Fixpoint rev_string (s acc : string) : string :=
  match s with
  | EmptyString => acc
  | String c r => rev_string r (String c acc)
  end.

(** [s.strip()] *)
Definition strip (s : string) : string :=
  rev_string (lstrip (rev_string (lstrip s) "")) "".

(** [s.replace(a, b)] for a one-character [a] and [b]. *)
Fixpoint replace_char (a b : ascii) (s : string) : string :=
  match s with
  | EmptyString => EmptyString
  | String c r => String (if Ascii.eqb c a then b else c) (replace_char a b r)
  end.

(** [s.replace(a, "")] for a one-character [a]. *)
Fixpoint remove_char (a : ascii) (s : string) : string :=
  match s with
  | EmptyString => EmptyString
  | String c r =>
      if Ascii.eqb c a then remove_char a r else String c (remove_char a r)
  end.

(** [needle in hay] *)
Fixpoint contains (needle hay : string) : bool :=
  String.prefix needle hay
  || match hay with
     | EmptyString => false
     | String _ r => contains needle r
     end.

(** [s[:n]] for [n >= 0] *)
Fixpoint take (n : nat) (s : string) : string :=
  match n, s with
  | O, _ => EmptyString
  | _, EmptyString => EmptyString
  | S k, String c r => String c (take k r)
  end.

(** [any(p(x) for x in l)] and [sum(1 for x in l if p(x))] *)
Definition any {A : Type} (p : A -> bool) (l : list A) : bool := existsb p l.
Definition count_if {A : Type} (p : A -> bool) (l : list A) : nat :=
  List.length (filter p l).

(** [x in l] for a list of strings *)
Definition mem (x : string) (l : list string) : bool :=
  existsb (String.eqb x) l.

(** [list(set(l))]: the distinct elements of [l].  Python leaves the order
    of a set unspecified; the model keeps one occurrence of each element in
    the order of the list, and nothing below depends on that order. *)
Fixpoint distinct (l : list string) : list string :=
  match l with
  | [] => []
  | x :: r => if mem x r then distinct r else x :: distinct r
  end.

(** [l[:n]] for an arbitrary integer [n]: a negative bound counts from the
    end of the list. *)
Definition slice_to {A : Type} (n : Z) (l : list A) : list A :=
  if (0 <=? n)%Z then firstn (Z.to_nat n) l
  else firstn (List.length l - Z.to_nat (- n)) l.

(** *** Text as a caller passes it *)

(** A code point of a [str]: a character of the modelled alphabet, or a lone
    surrogate (U+D800 to U+DFFF, by its number). *)
Inductive code_point : Type :=
| Char (c : ascii)
| Surrogate (n : N).

Definition str : Type := list code_point.

(** The [str] that holds the characters of a text. *)
Definition text (s : string) : str := map Char (list_ascii_of_string s).

(** [s.encode()]: the encoded text; [UnicodeEncodeError] ("surrogates not
    allowed") at the first lone surrogate. *)
Fixpoint encode (s : str) : result string :=
  match s with
  | [] => Returns EmptyString
  | Char c :: r => bind (encode r) (fun t => Returns (String c t))
  | Surrogate _ :: _ => Raises UnicodeEncodeError
  end.

Definition str_eq_dec (a b : str) : {a = b} + {a <> b}.
Proof.
  apply list_eq_dec. decide equality; auto using ascii_dec, N.eq_dec.
Defined.

(** *** Dictionaries *)

Definition dict (V : Type) : Type := list (string * V).

Fixpoint dict_get {V : Type} (k : string) (d : dict V) : option V :=
  match d with
  | [] => None
  | (k', v) :: r => if String.eqb k' k then Some v else dict_get k r
  end.

(** [d[k] = v]: an existing key keeps its position. *)
Fixpoint dict_set {V : Type} (k : string) (v : V) (d : dict V) : dict V :=
  match d with
  | [] => [(k, v)]
  | (k', v') :: r =>
      if String.eqb k' k then (k', v) :: r else (k', v') :: dict_set k v r
  end.

(** [d[k] += n] for a key that is present. *)
Fixpoint dict_incr (k : string) (n : nat) (d : dict nat) : dict nat :=
  match d with
  | [] => []
  | (k', v) :: r =>
      if String.eqb k' k then (k', v + n) :: r else (k', v) :: dict_incr k n r
  end.

(** [d[k].append(x)] on a [defaultdict(list)] *)
Definition dict_append {V : Type} (k : string) (x : V) (d : dict (list V))
  : dict (list V) :=
  match dict_get k d with
  | Some l => dict_set k (l ++ [x]) d
  | None => dict_set k [x] d
  end.

Definition keys {V : Type} (d : dict V) : list string := map fst d.
Definition values {V : Type} (d : dict V) : list V := map snd d.

(** [max(d, key=d.get)]: the first key whose value is maximal. *)
Fixpoint argmax (d : dict nat) (best : string) (best_v : nat) : string :=
  match d with
  | [] => best
  | (k, v) :: r => if (best_v <? v)%nat then argmax r k v else argmax r best best_v
  end.

Definition max_key (d : dict nat) : option string :=
  match d with
  | [] => None
  | (k, v) :: r => Some (argmax r k v)
  end.

Definition max_value (d : dict nat) : nat :=
  fold_right Nat.max 0%nat (values d).

(** *** Floats, as rationals *)

Definition qlt (a b : Q) : bool := negb (Qle_bool b a).

(** [min(a, b)] and [max(a, b)]: the first argument unless the second is
    strictly smaller (larger). *)
Definition py_min (a b : Q) : Q := if qlt b a then b else a.
Definition py_max (a b : Q) : Q := if qlt a b then b else a.

(** [l.sort(key=..., reverse=True)]: stable, so elements with equal keys
    keep their original relative order. *)
Section Sort.
Context {A : Type} (key : A -> Q).

Fixpoint insert_desc (x : A) (l : list A) : list A :=
  match l with
  | [] => [x]
  | y :: r => if Qle_bool (key y) (key x)
              then x :: l
              else y :: insert_desc x r
  end.

Definition sort_desc (l : list A) : list A :=
  fold_right insert_desc [] l.
End Sort.

End Py.

Import Py.


(* ================================================================== *)
(** ** The fragment of Python's [re] used by the source *)
(* ================================================================== *)

(** The engines call [re.findall] and [re.search] with patterns built from
    literal text, [.], [\b], [\s*], [\w+], an optional character [c?], the
    possessive [c++] (Python 3.11 and later; it arises from the keyword
    [c++] of the domain tables), a capturing group made of a starred negated
    character set, and a non-capturing alternation of words.  Patterns are
    kept as the strings of the source and compiled to a list of atoms;
    matching is leftmost, greedy and backtracking as in [re].  No pattern of
    the source matches the empty string, so the treatment of empty matches
    does not matter. *)

Module Re.

Inductive cclass : Type :=
| Chr (c : ascii)
| Dot
| Space
| Word
| NotOf (cs : string).

Inductive atom : Type :=
| One (k : cclass)
| Opt (k : cclass)
| Star (k : cclass)
| Plus (k : cclass)
| PossPlus (k : cclass)
| Boundary
| Group (k : cclass)
| OneOf (ws : list string).

Fixpoint char_in (x : ascii) (cs : string) : bool :=
  match cs with
  | EmptyString => false
  | String c r => Ascii.eqb x c || char_in x r
  end.

Definition in_class (k : cclass) (x : ascii) : bool :=
  match k with
  | Chr c => Ascii.eqb x c
  | Dot => negb (Ascii.eqb x "010"%char)
  | Space => is_space x
  | Word => is_word x
  | NotOf cs => negb (char_in x cs)
  end.

(** *** Compilation of a pattern string *)

Fixpoint split_at (d : ascii) (s : string) : option (string * string) :=
  match s with
  | EmptyString => None
  | String c r =>
      if Ascii.eqb c d then Some (EmptyString, r)
      else match split_at d r with
           | Some (a, b) => Some (String c a, b)
           | None => None
           end
  end.

Fixpoint split_all (d : ascii) (s : string) : list string :=
  match s with
  | EmptyString => [EmptyString]
  | String c r =>
      if Ascii.eqb c d then EmptyString :: split_all d r
      else match split_all d r with
           | w :: ws => String c w :: ws
           | [] => [String c EmptyString]
           end
  end.

Definition quantified (k : cclass) (s : string) : atom * string :=
  match s with
  | String "?" r => (Opt k, r)
  | String "*" r => (Star k, r)
  | String "+" (String "+" r) => (PossPlus k, r)
  | String "+" r => (Plus k, r)
  | _ => (One k, s)
  end.

Fixpoint compile_fuel (fuel : nat) (s : string) : list atom :=
  match fuel with
  | O => []
  | S fuel' =>
      match s with
      | EmptyString => []
      | String "\" (String "b" r) => Boundary :: compile_fuel fuel' r
      | String "\" (String "s" r) =>
          let (a, r') := quantified Space r in a :: compile_fuel fuel' r'
      | String "\" (String "w" r) =>
          let (a, r') := quantified Word r in a :: compile_fuel fuel' r'
      | String "(" (String "?" (String ":" r)) =>
          match split_at ")" r with
          | Some (alts, r') => OneOf (split_all "|" alts) :: compile_fuel fuel' r'
          | None => []
          end
      | String "(" (String "[" (String "^" r)) =>
          match split_at "]" r with
          | Some (cs, String "*" (String ")" r')) =>
              Group (NotOf cs) :: compile_fuel fuel' r'
          | _ => []
          end
      | String "." r =>
          let (a, r') := quantified Dot r in a :: compile_fuel fuel' r'
      | String c r =>
          let (a, r') := quantified (Chr c) r in a :: compile_fuel fuel' r'
      end
  end.

Definition compile (pattern : string) : list atom :=
  compile_fuel (S (String.length pattern)) pattern.

Definition has_group (p : list atom) : bool :=
  existsb (fun a => match a with Group _ => true | _ => false end) p.

(** *** Matching at one position *)

(** [\b]: a word character on exactly one side. *)
Definition boundary (prev : option ascii) (s : string) : bool :=
  xorb (match prev with Some c => is_word c | None => false end)
       (match s with String c _ => is_word c | EmptyString => false end).

Section Greedy.
Context {R : Type} (k : cclass).

(** [k*] followed by [cont]: the longest run first, then shorter ones. *)
Fixpoint greedy (cont : option ascii -> string -> option R)
         (prev : option ascii) (s : string) : option R :=
  match s with
  | String x s' =>
      if in_class k x then
        match greedy cont (Some x) s' with
        | Some r => Some r
        | None => cont prev s
        end
      else cont prev s
  | EmptyString => cont prev s
  end.

(** [(k* )] followed by [cont], which receives the captured text. *)
Fixpoint greedy_group (cont : string -> option ascii -> string -> option R)
         (acc : string) (prev : option ascii) (s : string) : option R :=
  match s with
  | String x s' =>
      if in_class k x then
        match greedy_group cont (acc ++ String x EmptyString) (Some x) s' with
        | Some r => Some r
        | None => cont acc prev s
        end
      else cont acc prev s
  | EmptyString => cont acc prev s
  end.

(** [k++]: the whole run, never given back. *)
Fixpoint skip_run (prev : option ascii) (s : string) : option ascii * string :=
  match s with
  | String x s' => if in_class k x then skip_run (Some x) s' else (prev, s)
  | EmptyString => (prev, s)
  end.
End Greedy.

Fixpoint drop_word (w : string) (prev : option ascii) (s : string)
  : option (option ascii * string) :=
  match w with
  | EmptyString => Some (prev, s)
  | String c w' =>
      match s with
      | String x s' => if Ascii.eqb x c then drop_word w' (Some x) s' else None
      | EmptyString => None
      end
  end.

(** [rmatch p prev s cap]: match the atoms [p] at the start of [s], [prev]
    being the character before it; the result is the captured group and the
    text left after the match. *)
Fixpoint rmatch (p : list atom) (prev : option ascii) (s : string) (cap : string)
  : option (string * string) :=
  match p with
  | [] => Some (cap, s)
  | a :: p' =>
      match a with
      | One k =>
          match s with
          | String x s' => if in_class k x then rmatch p' (Some x) s' cap else None
          | EmptyString => None
          end
      | Opt k =>
          match s with
          | String x s' =>
              if in_class k x then
                match rmatch p' (Some x) s' cap with
                | Some r => Some r
                | None => rmatch p' prev s cap
                end
              else rmatch p' prev s cap
          | EmptyString => rmatch p' prev s cap
          end
      | Star k => greedy k (fun pv t => rmatch p' pv t cap) prev s
      | Plus k =>
          match s with
          | String x s' =>
              if in_class k x
              then greedy k (fun pv t => rmatch p' pv t cap) (Some x) s'
              else None
          | EmptyString => None
          end
      | PossPlus k =>
          match s with
          | String x s' =>
              if in_class k x
              then let (pv, t) := skip_run k (Some x) s' in rmatch p' pv t cap
              else None
          | EmptyString => None
          end
      | Boundary => if boundary prev s then rmatch p' prev s cap else None
      | Group k => greedy_group k (fun c pv t => rmatch p' pv t c) EmptyString prev s
      | OneOf ws =>
          (fix alt (ws : list string) : option (string * string) :=
             match ws with
             | [] => None
             | w :: r =>
                 match drop_word w prev s with
                 | Some (pv, t) =>
                     match rmatch p' pv t cap with
                     | Some res => Some res
                     | None => alt r
                     end
                 | None => alt r
                 end
             end) ws
      end
  end.

(** *** Scanning a text *)

(** Every match, left to right and without overlap, as the pair of the
    matched text and of the captured group. *)
Fixpoint scan (p : list atom) (prev : option ascii) (s : string) (skip : nat)
  {struct s} : list (string * string) :=
  match skip with
  | S k =>
      match s with
      | String x s' => scan p (Some x) s' k
      | EmptyString => []
      end
  | O =>
      match rmatch p prev s EmptyString with
      | Some (cap, rest) =>
          let n := String.length s - String.length rest in
          (take n s, cap)
            :: match s with
               | String x s' => scan p (Some x) s' (n - 1)
               | EmptyString => []
               end
      | None =>
          match s with
          | String x s' => scan p (Some x) s' 0
          | EmptyString => []
          end
      end
  end.

(** [re.findall(pattern, text)]: the groups if the pattern has one, the
    matched texts otherwise. *)
Definition findall (pattern text : string) : list string :=
  let p := compile pattern in
  map (fun m => if has_group p then snd m else fst m) (scan p None text 0).

(** [re.search(pattern, text)] as a truth value. *)
Definition search (pattern text : string) : bool :=
  match findall pattern text with
  | [] => false
  | _ :: _ => true
  end.

(** [len(re.findall(r'\b' + keyword + r'\b', text))] *)
Definition count_word (keyword text : string) : nat :=
  List.length (findall ("\b" ++ keyword ++ "\b") text).

End Re.


(* ================================================================== *)
(** ** memory_core.py *)
(* ================================================================== *)

Module MemoryCore.

(** A JSON document, as [json.load] returns it. *)
Inductive json : Type :=
| JNull
| JBool (b : bool)
| JNumber (q : Q)
| JString (s : string)
| JArray (items : list json)
| JObject (members : list (string * json)).

Record SkillMemory : Type := {
  skill_name : string;
  proficiency_level : string;
  context : string;
  examples : list string;
  last_updated : string
}.

Record StyleMemory : Type := {
  preference_type : string;
  rule : string;
  style_examples : list string;
  success_rate : Q;
  last_applied : string;
  style_context : string
}.

Record TemporalMemory : Type := {
  event_type : string;
  description : string;
  start_date : option string;
  end_date : option string;
  status : string;
  auto_update_rules : dict json
}.

Record FeedbackMemory : Type := {
  feedback_text : string;
  cover_letter_context : string;
  outcome : string;
  extracted_insights : list string;
  applied_changes : list string;
  effectiveness_score : Q
}.

Record Metadata : Type := {
  created : string;
  metadata_last_updated : string;
  total_interactions : Z;
  successful_generations : Z
}.

(** [self.memory_data], restricted to the sections the core reads. *)
Record MemoryData : Type := {
  skills : dict SkillMemory;
  style_preferences : dict (list StyleMemory);
  temporal_events : list TemporalMemory;
  feedback_history : list FeedbackMemory;
  metadata : Metadata
}.

(** *** Loading *)

(** The structure [_load_memory] builds when it does not return the file's
    document; [t1] and [t2] are the two readings of the clock. *)
Definition new_memory_structure (t1 t2 : string) : json :=
  JObject [
    ("user_profile", JObject [
       ("personal_info", JObject []);
       ("education", JArray []);
       ("skills", JObject []);
       ("experiences", JObject []);
       ("preferences", JObject []) ]);
    ("style_preferences", JObject [
       ("avoid_phrases", JArray []);
       ("prefer_phrases", JArray []);
       ("tone_preferences", JArray []);
       ("structure_preferences", JArray []) ]);
    ("temporal_events", JArray []);
    ("feedback_history", JArray []);
    ("learning_patterns", JObject [
       ("successful_approaches", JArray []);
       ("failed_approaches", JArray []);
       ("preference_trends", JObject []) ]);
    ("metadata", JObject [
       ("created", JString t1);
       ("last_updated", JString t2);
       ("total_interactions", JNumber (0 # 1));
       ("successful_generations", JNumber (0 # 1)) ])
  ].

(** [_load_memory].  [file_exists] is the answer of [os.path.exists] and
    [read] the outcome of opening the file as UTF-8 text and running
    [json.load] on it: the parsed document or the exception raised.  The
    handler names [JSONDecodeError] and [FileNotFoundError] only. *)
Definition _load_memory (file_exists : bool) (read : result json)
           (t1 t2 : string) : result json :=
  if file_exists then
    match read with
    | Returns document => Returns document
    | Raises JSONDecodeError => Returns (new_memory_structure t1 t2)
    | Raises FileNotFoundError => Returns (new_memory_structure t1 t2)
    | Raises e => Raises e
    end
  else Returns (new_memory_structure t1 t2).

(** The typed view of the new structure. *)
Definition empty_memory (t1 t2 : string) : MemoryData := {|
  skills := [];
  style_preferences :=
    [("avoid_phrases", []); ("prefer_phrases", []);
     ("tone_preferences", []); ("structure_preferences", [])];
  temporal_events := [];
  feedback_history := [];
  metadata := {| created := t1; metadata_last_updated := t2;
                 total_interactions := 0; successful_generations := 0 |}
|}.

(** *** Saving and adding *)

(** [save_memory]: stamps the metadata; the document written to the file is
    the memory itself. *)
Definition save_memory (now : string) (m : MemoryData) : MemoryData := {|
  skills := skills m;
  style_preferences := style_preferences m;
  temporal_events := temporal_events m;
  feedback_history := feedback_history m;
  metadata := {| created := created (metadata m);
                 metadata_last_updated := now;
                 total_interactions := total_interactions (metadata m);
                 successful_generations := successful_generations (metadata m) |}
|}.

(** [skill.skill_name.lower().replace(" ", "_")] *)
Definition skill_key (name : string) : string :=
  replace_char " " "_" (lower name).

(** [add_skill_memory] *)
Definition add_skill_memory (now : string) (skill : SkillMemory) (m : MemoryData)
  : MemoryData :=
  save_memory now {|
    skills := dict_set (skill_key (skill_name skill)) skill (skills m);
    style_preferences := style_preferences m;
    temporal_events := temporal_events m;
    feedback_history := feedback_history m;
    metadata := metadata m
  |}.

(** [add_temporal_event] *)
Definition add_temporal_event (now : string) (event : TemporalMemory)
           (m : MemoryData) : MemoryData :=
  save_memory now {|
    skills := skills m;
    style_preferences := style_preferences m;
    temporal_events := temporal_events m ++ [event];
    feedback_history := feedback_history m;
    metadata := metadata m
  |}.

(** *** Queries *)

Definition get_current_skills (m : MemoryData) : dict SkillMemory := skills m.

Definition get_style_preferences (m : MemoryData) : dict (list StyleMemory) :=
  style_preferences m.

(** [get_current_temporal_events]: the events whose status is in
    [["current", "upcoming"]]. *)
Definition get_current_temporal_events (m : MemoryData) : list TemporalMemory :=
  filter (fun event => mem (status event) ["current"; "upcoming"])
         (temporal_events m).

End MemoryCore.


(* ================================================================== *)
(** ** temporal_manager.py *)
(* ================================================================== *)

Module TemporalManager.
Import MemoryCore.

Local Open Scope Z_scope.

(** A naive [datetime]: the microseconds since [datetime.min], which is
    0001-01-01 00:00:00. *)
Definition datetime : Type := Z.

(** [datetime.max], 9999-12-31 23:59:59.999999: the last microsecond of the
    3652059 days of the calendar. *)
Definition datetime_max : datetime := 3652059 * 86400000000 - 1.

(** [timedelta(days=d)] *)
Definition timedelta_days (d : Z) : Z := d * 86400000000.

(** [date + delta]: [OverflowError] ("date value out of range") when the
    sum is not a [datetime]. *)
Definition add (date : datetime) (delta : Z) : result datetime :=
  if (0 <=? date + delta) && (date + delta <=? datetime_max)
  then Returns (date + delta)
  else Raises OverflowError.

(** [date - delta] *)
Definition sub (date : datetime) (delta : Z) : result datetime :=
  add date (- delta).

(** [_calculate_event_status]; the two sums are evaluated where the source
    evaluates them: [start_date - pre_start_buffer] in the first test,
    [end_date + post_end_buffer] once the start is reached and an end date
    is given. *)
Definition _calculate_event_status (event : TemporalMemory)
           (start_date end_date : option datetime) (current_date : datetime)
  : result string :=
  match start_date with
  | None => Returns (status event)
  | Some start =>
      let pre_start_buffer := timedelta_days 7 in
      let post_end_buffer := timedelta_days 30 in
      bind (sub start pre_start_buffer)
           (fun soon =>
              if current_date <? soon then Returns "upcoming"
              else if current_date <? start then Returns "starting_soon"
              else
                match end_date with
                | Some finish =>
                    bind (add finish post_end_buffer)
                         (fun over =>
                            if over <? current_date then Returns "completed"
                            else if finish <? current_date
                                 then Returns "recently_completed"
                                 else Returns "current")
                | None => Returns "current"
                end)
  end.

(** The statuses [get_temporal_context_for_generation] renders a block for,
    out of the events [get_current_temporal_events] hands it. *)
Definition rendered_statuses : list string :=
  ["current"; "starting_soon"; "upcoming"; "recently_completed"].

End TemporalManager.


(* ================================================================== *)
(** ** file_monitor.py *)
(* ================================================================== *)

Module FileMonitor.

(** [_normalize_skill_key], the key under which [process_skillset_changes]
    looks a listed skill up in the skills map. *)
Definition _normalize_skill_key (skill_name : string) : string :=
  remove_char "."
    (remove_char ","
       (remove_char ")"
          (remove_char "(" (replace_char " " "_" (lower skill_name))))).

End FileMonitor.


(* ================================================================== *)
(** ** relevance_engine.py *)
(* ================================================================== *)

(** The dictionary [analysis] built by [analyze_job_requirements]. *)
Module JobAnalysis.
Record t : Type := {
  required_skills : list string;
  preferred_skills : list string;
  tech_domains : dict Q;
  business_domains : dict Q;
  experience_level : string;
  key_responsibilities : list string;
  company_focus : string;
  explicit_technologies : list string;
  job_role_type : string;
  primary_focus : string
}.
End JobAnalysis.

(** The dictionary returned by [get_relevant_memories]. *)
Module Selection.
Record t : Type := {
  relevant_skills : list MemoryCore.SkillMemory;
  skill_scores : dict Q;
  relevant_styles : dict (list MemoryCore.StyleMemory);
  temporal_events : list MemoryCore.TemporalMemory;
  job_analysis : JobAnalysis.t
}.
End Selection.

Module RelevanceEngine.
Import MemoryCore.

Local Open Scope Q_scope.

(** *** The tables of [__init__] *)

Definition tech_domains : dict (list string) := [
  ("databases", ["sql"; "mysql"; "postgresql"; "oracle"; "mongodb"; "nosql"; "database"; "db"; "data"; "query"]);
  ("programming", ["python"; "java"; "c++"; "javascript"; "nodejs"; "php"; "ruby"; "go"; "rust"; ".net"]);
  ("web", ["html"; "css"; "react"; "angular"; "vue"; "frontend"; "backend"; "web"; "http"; "api"; "rest"]);
  ("cloud", ["aws"; "azure"; "gcp"; "cloud"; "docker"; "kubernetes"; "serverless"; "microservices"]);
  ("networking", ["network"; "tcp"; "ip"; "dns"; "firewall"; "vpn"; "router"; "switch"; "security"]);
  ("systems", ["linux"; "windows"; "unix"; "server"; "admin"; "infrastructure"; "deployment"]);
  ("data", ["analytics"; "visualization"; "reporting"; "bi"; "etl"; "data mining"; "statistics"]);
  ("security", ["security"; "cybersecurity"; "encryption"; "authentication"; "authorization"; "compliance"]);
  ("automation", ["automation"; "scripting"; "powershell"; "bash"; "workflow"; "ci/cd"; "devops"]);
  ("support", ["helpdesk"; "support"; "troubleshooting"; "customer service"; "technical support"])
]%string.

Definition business_domains : dict (list string) := [
  ("business_analysis", ["business analyst"; "process analyst"; "systems analyst"; "business analysis"; "requirements"; "process improvement"; "workflow"; "documentation"]);
  ("finance", ["finance"; "financial"; "accounting"; "order to cash"; "otc"; "cash application"; "collections"; "credit"; "deductions"; "ap"; "ar"; "gl"; "revenue"]);
  ("process_improvement", ["process improvement"; "lean"; "six sigma"; "process optimization"; "efficiency"; "streamline"; "process redesign"; "continuous improvement"]);
  ("project_management", ["project management"; "project manager"; "project coordination"; "stakeholder management"; "timeline"; "deliverables"; "milestones"]);
  ("business_intelligence", ["business intelligence"; "bi"; "power bi"; "tableau"; "data visualization"; "dashboard"; "reporting"; "analytics"; "insights"]);
  ("erp_systems", ["sap"; "oracle"; "erp"; "enterprise systems"; "crm"; "salesforce"; "workday"; "peoplesoft"]);
  ("rpa_automation", ["rpa"; "robotic process automation"; "uipath"; "automation anywhere"; "blue prism"; "process automation"]);
  ("change_management", ["change management"; "training"; "user adoption"; "stakeholder engagement"; "communication"; "transformation"]);
  ("data_analysis", ["data analysis"; "excel"; "pivot tables"; "vlookup"; "data modeling"; "statistical analysis"; "metrics"])
]%string.

Definition role_types : dict (list string) := [
  ("technical_it", ["technician"; "engineer"; "developer"; "administrator"; "support specialist"; "network"; "system admin"; "it specialist";
                    "security analyst"; "identity analyst"; "access analyst"; "iam analyst"; "technical analyst"; "it analyst"; "systems analyst"]);
  ("business_analyst", ["business analyst"; "process analyst"; "functional analyst"; "process development analyst"; "business systems analyst"]);
  ("finance", ["accountant"; "financial analyst"; "controller"; "finance manager"; "accounts payable"; "accounts receivable"]);
  ("project_management", ["project manager"; "program manager"; "scrum master"; "project coordinator"]);
  ("management", ["manager"; "director"; "supervisor"; "team lead"; "department head"])
]%string.

(** *** Classification of the role *)

Definition technical_context_indicators : list string := [
  "active directory"; "powershell"; "server"; "network"; "windows"; "linux";
  "infrastructure"; "security"; "authentication"; "user accounts"; "provisioning";
  "system administration"; "it professional"; "technical"; "hardware"; "software"
]%string.

Definition business_context_indicators : list string := [
  "process improvement"; "business requirements"; "stakeholder"; "workflow";
  "order to cash"; "otc"; "collections"; "finance"; "accounting"; "rpa";
  "business intelligence"; "transformation"; "change management"; "business case"
]%string.

(** The score of one role: whole-word occurrences of each pattern, and 3
    more for a pattern found in the first 200 characters. *)
Definition role_score (patterns : list string) (job_lower : string) : nat :=
  fold_left
    (fun score pattern =>
       let score := (score + Re.count_word pattern job_lower)%nat in
       if contains pattern (take 200 job_lower) then (score + 3)%nat else score)
    patterns 0%nat.

(** [_classify_job_role] *)
Definition _classify_job_role (job_lower : string) : string :=
  let role_scores : dict nat :=
    map (fun '(role_type, patterns) => (role_type, role_score patterns job_lower))
        role_types in
  let technical_context_count :=
    count_if (fun indicator => contains indicator job_lower)
             technical_context_indicators in
  let business_context_count :=
    count_if (fun indicator => contains indicator job_lower)
             business_context_indicators in
  let role_scores :=
    if (business_context_count + 2 <? technical_context_count)%nat
    then dict_incr "technical_it" (technical_context_count * 2) role_scores
    else if (technical_context_count + 2 <? business_context_count)%nat
    then dict_incr "business_analyst" (business_context_count * 2) role_scores
    else role_scores in
  let role_scores :=
    if contains "analyst" job_lower && (3 <=? technical_context_count)%nat
    then dict_incr "technical_it" 5 role_scores
    else role_scores in
  if (0 <? max_value role_scores)%nat then
    match max_key role_scores with
    | Some role_type => role_type
    | None => "unknown"%string
    end
  else "unknown"%string.

(** *** Scoring of the domains *)

(** [_score_business_content] and [_score_technical_content] *)
Definition score_content (domains : dict (list string)) (job_lower : string) : nat :=
  fold_left
    (fun score '(domain, keywords) =>
       fold_left (fun score keyword => (score + Re.count_word keyword job_lower)%nat)
                 keywords score)
    domains 0%nat.

Definition _score_business_content (job_lower : string) : nat :=
  score_content business_domains job_lower.

Definition _score_technical_content (job_lower : string) : nat :=
  score_content tech_domains job_lower.

(** The score of one domain: its keyword occurrences, each times [weight]. *)
Definition domain_score (keywords : list string) (job_lower : string) (weight : Q) : Q :=
  fold_left
    (fun score keyword =>
       score + inject_Z (Z.of_nat (Re.count_word keyword job_lower)) * weight)
    keywords 0.

(** The loop shared by [_analyze_business_requirements] and
    [_analyze_technical_requirements]: a domain is recorded when its score
    is positive. *)
Definition analyze_domains (domains : dict (list string)) (job_lower : string)
           (weight : Q) (scores : dict Q) : dict Q :=
  fold_left
    (fun scores '(domain, keywords) =>
       let s := domain_score keywords job_lower weight in
       if qlt 0 s then dict_set domain s scores else scores)
    domains scores.

Definition _analyze_business_requirements (job_lower : string)
           (analysis : JobAnalysis.t) (weight : Q) : JobAnalysis.t := {|
  JobAnalysis.required_skills := JobAnalysis.required_skills analysis;
  JobAnalysis.preferred_skills := JobAnalysis.preferred_skills analysis;
  JobAnalysis.tech_domains := JobAnalysis.tech_domains analysis;
  JobAnalysis.business_domains :=
    analyze_domains business_domains job_lower weight
                    (JobAnalysis.business_domains analysis);
  JobAnalysis.experience_level := JobAnalysis.experience_level analysis;
  JobAnalysis.key_responsibilities := JobAnalysis.key_responsibilities analysis;
  JobAnalysis.company_focus := JobAnalysis.company_focus analysis;
  JobAnalysis.explicit_technologies := JobAnalysis.explicit_technologies analysis;
  JobAnalysis.job_role_type := JobAnalysis.job_role_type analysis;
  JobAnalysis.primary_focus := JobAnalysis.primary_focus analysis
|}.

Definition _analyze_technical_requirements (job_lower : string)
           (analysis : JobAnalysis.t) (weight : Q) : JobAnalysis.t := {|
  JobAnalysis.required_skills := JobAnalysis.required_skills analysis;
  JobAnalysis.preferred_skills := JobAnalysis.preferred_skills analysis;
  JobAnalysis.tech_domains :=
    analyze_domains tech_domains job_lower weight
                    (JobAnalysis.tech_domains analysis);
  JobAnalysis.business_domains := JobAnalysis.business_domains analysis;
  JobAnalysis.experience_level := JobAnalysis.experience_level analysis;
  JobAnalysis.key_responsibilities := JobAnalysis.key_responsibilities analysis;
  JobAnalysis.company_focus := JobAnalysis.company_focus analysis;
  JobAnalysis.explicit_technologies := JobAnalysis.explicit_technologies analysis;
  JobAnalysis.job_role_type := JobAnalysis.job_role_type analysis;
  JobAnalysis.primary_focus := JobAnalysis.primary_focus analysis
|}.

(** *** Extraction of terms *)

Definition keywords_in (domains : dict (list string)) (text_lower : string)
  : list string :=
  flat_map (fun '(domain, keywords) =>
              filter (fun keyword => contains keyword text_lower) keywords)
           domains.

(** [_extract_all_terms] *)
Definition _extract_all_terms (text : string) : list string :=
  let text_lower := lower text in
  distinct (keywords_in tech_domains text_lower
            ++ keywords_in business_domains text_lower).

Definition required_patterns : list string := [
  "required?:?\s*([^.]*)";
  "must have:?\s*([^.]*)";
  "essential:?\s*([^.]*)";
  "minimum requirements?:?\s*([^.]*)";
  "qualifications?:?\s*([^.]*)"
]%string.

Definition preferred_patterns : list string := [
  "preferred?:?\s*([^.]*)";
  "nice to have:?\s*([^.]*)";
  "bonus:?\s*([^.]*)";
  "plus:?\s*([^.]*)";
  "desired:?\s*([^.]*)"
]%string.

Definition responsibility_patterns : list string := [
  "responsibilities?:?\s*([^.]*)";
  "duties:?\s*([^.]*)";
  "you will:?\s*([^.]*)"
]%string.

(** The terms of every match of every pattern, in order. *)
Definition extract_skills (patterns : list string) (job_lower : string)
  : list string :=
  flat_map (fun pattern =>
              flat_map _extract_all_terms (Re.findall pattern job_lower))
           patterns.

(** *** [analyze_job_requirements] *)

(** The dictionary [analysis] as first built. *)
Definition initial_analysis : JobAnalysis.t := {|
  JobAnalysis.required_skills := [];
  JobAnalysis.preferred_skills := [];
  JobAnalysis.tech_domains := [];
  JobAnalysis.business_domains := [];
  JobAnalysis.experience_level := "mid";
  JobAnalysis.key_responsibilities := [];
  JobAnalysis.company_focus := "";
  JobAnalysis.explicit_technologies := [];
  JobAnalysis.job_role_type := "unknown";
  JobAnalysis.primary_focus := "unknown"
|}.

Definition with_role (role focus : string) (analysis : JobAnalysis.t)
  : JobAnalysis.t := {|
  JobAnalysis.required_skills := JobAnalysis.required_skills analysis;
  JobAnalysis.preferred_skills := JobAnalysis.preferred_skills analysis;
  JobAnalysis.tech_domains := JobAnalysis.tech_domains analysis;
  JobAnalysis.business_domains := JobAnalysis.business_domains analysis;
  JobAnalysis.experience_level := JobAnalysis.experience_level analysis;
  JobAnalysis.key_responsibilities := JobAnalysis.key_responsibilities analysis;
  JobAnalysis.company_focus := JobAnalysis.company_focus analysis;
  JobAnalysis.explicit_technologies := JobAnalysis.explicit_technologies analysis;
  JobAnalysis.job_role_type := role;
  JobAnalysis.primary_focus := focus
|}.

(** Steps 1 and 2: the role, the focus and the domain scores. *)
Definition analyze_role_and_domains (job_lower : string) : JobAnalysis.t :=
  let role := _classify_job_role job_lower in
  if mem role ["business_analyst"; "finance"; "project_management"]%string then
    _analyze_business_requirements job_lower
      (with_role role "business" initial_analysis) 1.0
  else if String.eqb role "technical_it" then
    _analyze_technical_requirements job_lower
      (with_role role "technical" initial_analysis) 1.0
  else
    let business_score := _score_business_content job_lower in
    let technical_score := _score_technical_content job_lower in
    if (technical_score <? business_score)%nat then
      _analyze_technical_requirements job_lower
        (_analyze_business_requirements job_lower
           (with_role role "business" initial_analysis) 1.0) 0.3
    else
      _analyze_business_requirements job_lower
        (_analyze_technical_requirements job_lower
           (with_role role "technical" initial_analysis) 1.0) 0.3.

Definition experience_level_of (job_lower : string) : string :=
  if any (fun term => contains term job_lower)
         ["senior"; "lead"; "principal"; "architect"]%string
  then "senior"
  else if any (fun term => contains term job_lower)
              ["junior"; "entry"; "associate"; "1-2 years"]%string
  then "junior"
  else "mid".

(** The body of [analyze_job_requirements] behind the cache lookup. *)
Definition build_analysis (job_description : string) : JobAnalysis.t :=
  let job_lower := lower job_description in
  let analysis := analyze_role_and_domains job_lower in
  {|
    JobAnalysis.required_skills := extract_skills required_patterns job_lower;
    JobAnalysis.preferred_skills := extract_skills preferred_patterns job_lower;
    JobAnalysis.tech_domains := JobAnalysis.tech_domains analysis;
    JobAnalysis.business_domains := JobAnalysis.business_domains analysis;
    JobAnalysis.experience_level := experience_level_of job_lower;
    JobAnalysis.key_responsibilities :=
      flat_map (fun pattern => Re.findall pattern job_lower) responsibility_patterns;
    JobAnalysis.company_focus := JobAnalysis.company_focus analysis;
    JobAnalysis.explicit_technologies := JobAnalysis.explicit_technologies analysis;
    JobAnalysis.job_role_type := JobAnalysis.job_role_type analysis;
    JobAnalysis.primary_focus := JobAnalysis.primary_focus analysis
  |}.

(** [self.job_analysis_cache].  The source keys it by
    [hash(job_description.lower().strip())]; the model keys it by the hashed
    text, that is, it takes the hash to be free of collisions. *)
Definition cache : Type := dict JobAnalysis.t.

Definition cache_key (job_description : string) : string :=
  strip (lower job_description).

(** [analyze_job_requirements]: the analysis and the cache after the call. *)
Definition analyze_job_requirements (job_analysis_cache : cache)
           (job_description : string) : JobAnalysis.t * cache :=
  match dict_get (cache_key job_description) job_analysis_cache with
  | Some analysis => (analysis, job_analysis_cache)
  | None =>
      let analysis := build_analysis job_description in
      (analysis, dict_set (cache_key job_description) analysis job_analysis_cache)
  end.

(** *** Scoring of a skill *)

(** The domain loop of [_score_business_skill] and [_score_technical_skill]:
    [table[domain]] raises [KeyError] for a domain the table does not have. *)
Fixpoint score_domains (table : dict (list string)) (scores : dict Q)
         (skill_name skill_context : string) (score : Q) : result Q :=
  match scores with
  | [] => Returns score
  | (domain, domain_score) :: rest =>
      match dict_get domain table with
      | None => Raises (KeyError domain)
      | Some domain_keywords =>
          score_domains table rest skill_name skill_context
            (fold_left
               (fun score keyword =>
                  if contains keyword skill_name || contains keyword skill_context
                  then score + py_min (domain_score / 10.0) 0.8
                  else score)
               domain_keywords score)
      end
  end.

(** [_score_business_skill] *)
Definition _score_business_skill (skill_name skill_context : string)
           (job_analysis : JobAnalysis.t) : result Q :=
  bind (score_domains business_domains (JobAnalysis.business_domains job_analysis)
                      skill_name skill_context 0.0)
       (fun score =>
          let technical_only_terms :=
            ["technical support"; "network security"; "windows administration"; "hardware"]%string in
          let business_technical_terms :=
            ["data analysis"; "sql"; "database"; "automation"; "reporting"; "excel"; "power bi"]%string in
          let is_technical_only :=
            any (fun term => contains term skill_name) technical_only_terms in
          let is_business_technical :=
            any (fun term => contains term skill_name) business_technical_terms in
          if is_technical_only && negb is_business_technical
          then Returns (py_max (score - 0.6) 0.1)
          else Returns score).

(** [_score_technical_skill] *)
Definition _score_technical_skill (skill_name skill_context : string)
           (job_analysis : JobAnalysis.t) : result Q :=
  bind (score_domains tech_domains (JobAnalysis.tech_domains job_analysis)
                      skill_name skill_context 0.0)
       (fun score =>
          if String.eqb (JobAnalysis.job_role_type job_analysis) "technical_it" then
            let score :=
              if any (fun term => contains term skill_name)
                     ["network"; "security"; "system"; "server"; "administration"]%string
              then score + 0.7 else score in
            let score :=
              if any (fun term => contains term skill_name)
                     ["active directory"; "powershell"; "windows"; "linux"]%string
              then score + 0.6 else score in
            let score :=
              if contains "technical support" skill_name
              then score + 0.4 else score in
            Returns score
          else Returns score).

(** The two loops over the required and the preferred skills. *)
Definition direct_matches (terms : list string) (skill_name skill_context : string)
           (gain score : Q) : Q :=
  fold_left
    (fun score term =>
       if contains term skill_name || contains term skill_context
       then score + gain else score)
    terms score.

(** [score_skill_relevance] *)
Definition score_skill_relevance (skill_data : SkillMemory)
           (job_analysis : JobAnalysis.t) : result Q :=
  let score := 0.0 in
  let skill_name := lower (skill_name skill_data) in
  let skill_context := lower (context skill_data) in
  let primary_focus := JobAnalysis.primary_focus job_analysis in
  let score :=
    direct_matches (JobAnalysis.required_skills job_analysis)
                   skill_name skill_context 0.8 score in
  let score :=
    direct_matches (JobAnalysis.preferred_skills job_analysis)
                   skill_name skill_context 0.5 score in
  bind
    (if String.eqb primary_focus "business" then
       bind (_score_business_skill skill_name skill_context job_analysis)
            (fun b => Returns (score + b))
     else if String.eqb primary_focus "technical" then
       bind (_score_technical_skill skill_name skill_context job_analysis)
            (fun t => Returns (score + t))
     else
       bind (_score_business_skill skill_name skill_context job_analysis)
            (fun b =>
               bind (_score_technical_skill skill_name skill_context job_analysis)
                    (fun t => Returns (score + b * 0.6 + t * 0.6))))
    (fun score => Returns (py_min score 1.0)).

(** *** Scoring of a style preference *)

(** [score_style_relevance] *)
Definition score_style_relevance (style_data : StyleMemory)
           (job_analysis : JobAnalysis.t) : Q :=
  let base_score := 0.7 in
  let rule := lower (rule style_data) in
  if any (fun term => mem term (JobAnalysis.key_responsibilities job_analysis))
         ["communicate"; "present"; "write"; "document"]%string
  then
    if any (fun term => contains term rule)
           ["tone"; "communication"; "writing"]%string
    then 0.9
    else base_score
  else base_score.

(** *** [get_relevant_memories] *)

(** The first loop: every skill is scored, those above 0.1 are kept. *)
Fixpoint score_skills (skills : dict SkillMemory) (job_analysis : JobAnalysis.t)
  : result (list (SkillMemory * Q)) :=
  match skills with
  | [] => Returns []
  | (skill_key, skill_data) :: rest =>
      bind (score_skill_relevance skill_data job_analysis)
           (fun relevance_score =>
              bind (score_skills rest job_analysis)
                   (fun scored =>
                      if qlt 0.1 relevance_score
                      then Returns ((skill_data, relevance_score) :: scored)
                      else Returns scored))
  end.

(** The inner loop over one category: the preferences above 0.5. *)
Definition score_styles (prefs : list StyleMemory) (job_analysis : JobAnalysis.t)
  : list (StyleMemory * Q) :=
  filter (fun item => qlt 0.5 (snd item))
         (map (fun pref => (pref, score_style_relevance pref job_analysis)) prefs).

Definition collect_styles (style_prefs : dict (list StyleMemory))
           (job_analysis : JobAnalysis.t) : dict (list (StyleMemory * Q)) :=
  fold_left
    (fun relevant_styles '(category, prefs) =>
       fold_left (fun relevant_styles item => dict_append category item relevant_styles)
                 (score_styles prefs job_analysis) relevant_styles)
    style_prefs [].

(** [get_relevant_memories]: the selection, or the exception of a scoring
    step, and the cache after the call. *)
Definition get_relevant_memories (job_analysis_cache : cache)
           (memory_core : MemoryData) (job_description : string)
           (max_skills max_styles : Z) : result Selection.t * cache :=
  let (job_analysis, job_analysis_cache) :=
    analyze_job_requirements job_analysis_cache job_description in
  let skills := get_current_skills memory_core in
  (bind (score_skills skills job_analysis)
        (fun scored_skills =>
           let scored_skills := sort_desc snd scored_skills in
           let top_skills := slice_to max_skills scored_skills in
           let style_prefs := get_style_preferences memory_core in
           let relevant_styles :=
             map (fun '(category, items) =>
                    (category, map fst (slice_to max_styles (sort_desc snd items))))
                 (collect_styles style_prefs job_analysis) in
           let temporal_events := get_current_temporal_events memory_core in
           Returns {|
             Selection.relevant_skills := map fst top_skills;
             Selection.skill_scores :=
               fold_left (fun d skill => dict_set (skill_name (fst skill)) (snd skill) d)
                         top_skills [];
             Selection.relevant_styles := relevant_styles;
             Selection.temporal_events := temporal_events;
             Selection.job_analysis := job_analysis
           |}),
   job_analysis_cache).

End RelevanceEngine.


(* ================================================================== *)
(** ** advanced_relevance_engine.py *)
(* ================================================================== *)

(** The dictionary returned by [classify_industry]. *)
Module IndustryAnalysis.
Record t : Type := {
  industry : string;
  confidence : Q;
  all_scores : dict nat;
  indicators : list string
}.
End IndustryAnalysis.

(** The dataclass [JobAnalysisResult]. *)
Module JobAnalysisResult.
Record compensation : Type := {
  compensation_count : nat;
  likely_competitive : bool
}.

Record t : Type := {
  job_role_type : string;
  primary_focus : string;
  confidence_score : Q;
  required_skills : list string;
  preferred_skills : list string;
  tech_domains : dict Q;
  business_domains : dict Q;
  industry_context : IndustryAnalysis.t;
  experience_level : string;
  company_size : string;
  role_complexity : Q;
  explicit_technologies : list string;
  soft_skills : list string;
  key_responsibilities : list string;
  compensation_indicators : compensation;
  growth_potential : Q;
  remote_work_indicators : list string
}.
End JobAnalysisResult.

(** The dataclass [SkillRelevanceScore]. *)
Module SkillRelevanceScore.
Record t : Type := {
  skill_name : string;
  base_score : Q;
  domain_boost : Q;
  experience_alignment : Q;
  industry_relevance : Q;
  semantic_similarity : Q;
  final_score : Q;
  explanation : string;
  confidence : Q
}.
End SkillRelevanceScore.

(** *** [IndustryClassifier] *)

Module IndustryClassifier.

Record patterns : Type := {
  keywords : list string;
  context_indicators : list string;
  tech_stack : list string
}.

Definition industry_patterns : dict patterns := [
  ("healthcare", {|
     keywords := ["healthcare"; "medical"; "hospital"; "clinic"; "patient"; "hipaa"; "epic"; "cerner"];
     context_indicators := ["patient care"; "medical records"; "clinical"; "pharmaceutical"];
     tech_stack := ["epic"; "cerner"; "meditech"; "allscripts"] |});
  ("finance", {|
     keywords := ["finance"; "banking"; "financial"; "investment"; "trading"; "risk"; "compliance"];
     context_indicators := ["financial analysis"; "risk management"; "regulatory"; "trading systems"];
     tech_stack := ["bloomberg"; "reuters"; "murex"; "calypso"; "sap"; "oracle financials"] |});
  ("technology", {|
     keywords := ["software"; "development"; "engineering"; "tech"; "startup"; "saas"; "platform"];
     context_indicators := ["software development"; "cloud"; "agile"; "devops"; "microservices"];
     tech_stack := ["aws"; "azure"; "kubernetes"; "docker"; "react"; "python"] |});
  ("manufacturing", {|
     keywords := ["manufacturing"; "production"; "factory"; "industrial"; "supply chain"; "quality"];
     context_indicators := ["production line"; "inventory"; "lean manufacturing"; "six sigma"];
     tech_stack := ["sap"; "oracle"; "mes"; "scada"; "plm"] |});
  ("education", {|
     keywords := ["education"; "university"; "school"; "academic"; "research"; "student"];
     context_indicators := ["curriculum"; "learning"; "research"; "academic"];
     tech_stack := ["canvas"; "blackboard"; "moodle"; "peoplesoft"] |});
  ("retail", {|
     keywords := ["retail"; "ecommerce"; "customer"; "sales"; "marketing"; "brand"];
     context_indicators := ["customer experience"; "point of sale"; "inventory"; "merchandising"];
     tech_stack := ["salesforce"; "shopify"; "sap retail"; "oracle retail"] |})
]%string.

Definition industry_score (p : patterns) (job_lower : string) : nat :=
  let score :=
    fold_left (fun score keyword => score + Re.count_word keyword job_lower * 2)
              (keywords p) 0 in
  let score :=
    fold_left (fun score indicator =>
                 if contains indicator job_lower then score + 3 else score)
              (context_indicators p) score in
  fold_left (fun score tech => if contains tech job_lower then score + 4 else score)
            (tech_stack p) score.

(** [_get_matching_indicators] *)
Definition _get_matching_indicators (job_text industry : string) : list string :=
  match dict_get industry industry_patterns with
  | None => []
  | Some p =>
      map (fun keyword => "keyword: " ++ keyword)%string
          (filter (fun keyword => contains keyword job_text) (keywords p))
      ++ map (fun context => "context: " ++ context)%string
             (filter (fun context => contains context job_text) (context_indicators p))
      ++ map (fun tech => "technology: " ++ tech)%string
             (filter (fun tech => contains tech job_text) (tech_stack p))
  end.

Definition sum_values (d : dict nat) : nat := fold_left Nat.add (values d) 0.

(** [classify_industry] *)
Definition classify_industry (job_description : string) : IndustryAnalysis.t :=
  let job_lower := lower job_description in
  let industry_scores : dict nat :=
    fold_left
      (fun scores '(industry, p) =>
         let score := industry_score p job_lower in
         if (0 <? score)%nat then dict_set industry score scores else scores)
      industry_patterns [] in
  match max_key industry_scores with
  | None =>
      {| IndustryAnalysis.industry := "general";
         IndustryAnalysis.confidence := 0.5%Q;
         IndustryAnalysis.all_scores := [];
         IndustryAnalysis.indicators := [] |}
  | Some primary_industry =>
      let max_score := max_value industry_scores in
      let total_score := sum_values industry_scores in
      {| IndustryAnalysis.industry := primary_industry;
         IndustryAnalysis.confidence :=
           if (0 <? total_score)%nat
           then (inject_Z (Z.of_nat max_score) / inject_Z (Z.of_nat total_score))%Q
           else 0.5%Q;
         IndustryAnalysis.all_scores := industry_scores;
         IndustryAnalysis.indicators :=
           _get_matching_indicators job_lower primary_industry |}
  end.

End IndustryClassifier.

(** *** [SemanticMatcher] *)

Module SemanticMatcher.

Local Open Scope Q_scope.

Definition semantic_clusters : dict (list string) := [
  ("database_management", [
     "database"; "sql"; "mysql"; "postgresql"; "oracle"; "mongodb";
     "data management"; "database administration"; "dba"; "query optimization"]);
  ("network_administration", [
     "network"; "networking"; "tcp/ip"; "dns"; "dhcp"; "vpn"; "firewall";
     "network security"; "lan"; "wan"; "routing"; "switching"]);
  ("system_administration", [
     "system admin"; "server management"; "linux"; "windows"; "unix";
     "server administration"; "infrastructure"; "system maintenance"]);
  ("cloud_technologies", [
     "cloud"; "aws"; "azure"; "gcp"; "cloud computing"; "saas"; "paas"; "iaas";
     "cloud architecture"; "cloud migration"; "serverless"]);
  ("business_analysis", [
     "business analyst"; "requirements gathering"; "process improvement";
     "business requirements"; "stakeholder management"; "gap analysis"]);
  ("project_management", [
     "project management"; "project manager"; "scrum"; "agile"; "kanban";
     "project coordination"; "timeline management"; "resource planning"]);
  ("data_analysis", [
     "data analysis"; "analytics"; "reporting"; "business intelligence";
     "data visualization"; "excel"; "pivot tables"; "dashboards"])
]%string.

Definition synonyms : dict string := [
  ("sys admin", "system administrator");
  ("sysadmin", "system administrator");
  ("net admin", "network administrator");
  ("dba", "database administrator");
  ("pm", "project manager");
  ("ba", "business analyst");
  ("dev", "developer");
  ("qa", "quality assurance")
]%string.

(** [self.synonyms.get(term, term)] *)
Definition normalized (term : string) : string :=
  match dict_get term synonyms with
  | Some full => full
  | None => term
  end.

(** [_find_cluster]: the first cluster with a term that contains [term] or
    is contained in it. *)
Fixpoint find_cluster_in (clusters : dict (list string)) (term : string)
  : option string :=
  match clusters with
  | [] => None
  | (cluster_name, terms) :: rest =>
      if existsb (fun cluster_term =>
                    contains cluster_term term || contains term cluster_term)
                 terms
      then Some cluster_name
      else find_cluster_in rest term
  end.

Definition _find_cluster (term : string) : option string :=
  find_cluster_in semantic_clusters term.

(** [set(re.findall(r'\b\w+\b', text))] *)
Definition tokens (text : string) : list string :=
  distinct (Re.findall "\b\w+\b" text).

(** [calculate_semantic_similarity] *)
Definition calculate_semantic_similarity (skill requirement : string) : Q :=
  let skill_lower := strip (lower skill) in
  let requirement_lower := strip (lower requirement) in
  if String.eqb skill_lower requirement_lower then 1.0
  else
    let skill_normalized := normalized skill_lower in
    let requirement_normalized := normalized requirement_lower in
    if String.eqb skill_normalized requirement_normalized then 0.95
    else if contains skill_lower requirement_lower
            || contains requirement_lower skill_lower then 0.8
    else
      let skill_cluster := _find_cluster skill_lower in
      let requirement_cluster := _find_cluster requirement_lower in
      if match skill_cluster, requirement_cluster with
         | Some a, Some b => String.eqb a b
         | _, _ => false
         end
      then 0.7
      else
        let skill_tokens := tokens skill_lower in
        let requirement_tokens := tokens requirement_lower in
        match skill_tokens, requirement_tokens with
        | _ :: _, _ :: _ =>
            let overlap :=
              List.length (filter (fun t => mem t requirement_tokens) skill_tokens) in
            let union :=
              List.length (distinct (skill_tokens ++ requirement_tokens)) in
            let jaccard_similarity :=
              if (0 <? union)%nat
              then inject_Z (Z.of_nat overlap) / inject_Z (Z.of_nat union)
              else 0 in
            if qlt 0.3 jaccard_similarity
            then jaccard_similarity * 0.6
            else 0.0
        | _, _ => 0.0
        end.

End SemanticMatcher.

(** *** [performance_monitor.py]: the cache behind the decorator *)

(** [PerformanceCache] holds, for a key, a value with its expiry time, and
    the time of the last access of each key.  The source builds the key of a
    decorated call from the hash of the printed arguments; the model keys
    the cache by the arguments themselves, that is, it takes the hash to be
    free of collisions.  The clock readings taken within one operation are
    taken to be equal. *)
Module PerformanceCache.

Section Cache.
Context {K V : Type} (K_eq_dec : forall a b : K, {a = b} + {a <> b}).

Record entry : Type := {
  value : V;
  created_at : Z;
  expires_at : Z
}.

Record t : Type := {
  cache : list (K * entry);
  access_times : list (K * Z);
  hit_count : nat;
  miss_count : nat;
  eviction_count : nat;
  max_size : nat;
  default_ttl : Z
}.

Fixpoint lookup {A : Type} (k : K) (l : list (K * A)) : option A :=
  match l with
  | [] => None
  | (k', a) :: r => if K_eq_dec k' k then Some a else lookup k r
  end.

(** [del d[k]] *)
Fixpoint remove {A : Type} (k : K) (l : list (K * A)) : list (K * A) :=
  match l with
  | [] => []
  | (k', a) :: r => if K_eq_dec k' k then r else (k', a) :: remove k r
  end.

(** [d[k] = a] *)
Fixpoint assign {A : Type} (k : K) (a : A) (l : list (K * A)) : list (K * A) :=
  match l with
  | [] => [(k, a)]
  | (k', a') :: r =>
      if K_eq_dec k' k then (k', a) :: r else (k', a') :: assign k a r
  end.

(** [PerformanceCache(max_size, default_ttl)] *)
Definition empty (size : nat) (ttl : Z) : t := {|
  cache := []; access_times := [];
  hit_count := 0; miss_count := 0; eviction_count := 0;
  max_size := size; default_ttl := ttl
|}.

(** [get] *)
Definition get (key : K) (now : Z) (c : t) : option V * t :=
  match lookup key (cache c) with
  | None =>
      (None, {| cache := cache c; access_times := access_times c;
                hit_count := hit_count c; miss_count := miss_count c + 1;
                eviction_count := eviction_count c;
                max_size := max_size c; default_ttl := default_ttl c |})
  | Some e =>
      if (expires_at e <? now)%Z then
        (None, {| cache := remove key (cache c);
                  access_times := remove key (access_times c);
                  hit_count := hit_count c; miss_count := miss_count c + 1;
                  eviction_count := eviction_count c;
                  max_size := max_size c; default_ttl := default_ttl c |})
      else
        (Some (value e),
         {| cache := cache c;
            access_times := assign key now (access_times c);
            hit_count := hit_count c + 1; miss_count := miss_count c;
            eviction_count := eviction_count c;
            max_size := max_size c; default_ttl := default_ttl c |})
  end.

(** [min(self.access_times, key=self.access_times.get)] *)
Fixpoint oldest (l : list (K * Z)) (best : K) (best_t : Z) : K :=
  match l with
  | [] => best
  | (k, time) :: r =>
      if (time <? best_t)%Z then oldest r k time else oldest r best best_t
  end.

(** [_evict_lru] *)
Definition _evict_lru (c : t) : t :=
  match access_times c with
  | [] => c
  | (k, time) :: r =>
      let lru_key := oldest r k time in
      {| cache := remove lru_key (cache c);
         access_times := remove lru_key (access_times c);
         hit_count := hit_count c; miss_count := miss_count c;
         eviction_count := eviction_count c + 1;
         max_size := max_size c; default_ttl := default_ttl c |}
  end.

(** [set]; [ttl] is in seconds, [None] or 0 standing for the default. *)
Definition set (key : K) (v : V) (ttl : option Z) (now : Z) (c : t) : t :=
  let c :=
    if (max_size c <=? List.length (cache c))%nat
    then match lookup key (cache c) with
         | None => _evict_lru c
         | Some _ => c
         end
    else c in
  let ttl :=
    match ttl with
    | Some seconds => if (seconds =? 0)%Z then default_ttl c else seconds
    | None => default_ttl c
    end in
  {| cache := assign key {| value := v; created_at := now;
                            expires_at := (now + ttl * 1000000)%Z |} (cache c);
     access_times := assign key now (access_times c);
     hit_count := hit_count c; miss_count := miss_count c;
     eviction_count := eviction_count c;
     max_size := max_size c; default_ttl := default_ttl c |}.

(** The wrapper installed by [@performance_monitor(..., use_cache=True)]
    around [func]: the cached value if there is a live one, the computed
    value otherwise, which is then stored. *)
Definition performance_monitor (func : K -> V) (cache_ttl : option Z)
           (c : t) (now : Z) (args : K) : V * t :=
  match get args now c with
  | (Some cached_result, c) => (cached_result, c)
  | (None, c) =>
      let result := func args in
      (result, set args result cache_ttl now c)
  end.

End Cache.

Arguments entry : clear implicits.
Arguments t : clear implicits.

End PerformanceCache.

(** *** [error_handler.py]: the decorator [with_error_handling] *)

(** The handler also keeps a log of the errors it has seen; nothing the
    wrapper returns depends on it, and it is left out. *)
Module ErrorHandler.

(** [RecoveryStrategy], as far as the rules for the modelled exceptions use
    it ([RETRY] and [HALT] are the strategies of [ConnectionError],
    [TimeoutError] and [MemoryError]). *)
Inductive strategy : Type :=
| FALLBACK
| SKIP
| USER_INPUT.

(** [_get_error_rule]: the strategy and the fallback action of the rule for
    the class of the exception or, when it has none, of the first rule of
    [error_rules] for a class above it.  [JSONDecodeError],
    [UnicodeDecodeError] and [UnicodeEncodeError] are [ValueError]s; above
    [IsADirectoryError] and [OverflowError] there is only the rule of
    [Exception]. *)
Definition _get_error_rule (e : exn) : strategy * option string :=
  match e with
  | FileNotFoundError => (FALLBACK, Some "use_defaults")
  | PermissionError => (USER_INPUT, None)
  | JSONDecodeError | UnicodeDecodeError | UnicodeEncodeError =>
      (SKIP, Some "sanitize_data")
  | KeyError _ => (FALLBACK, Some "use_default_value")
  | IsADirectoryError | OverflowError => (FALLBACK, Some "graceful_degradation")
  end.

(** The values a fallback action puts in the place of a result. *)
Inductive fallback_value : Type :=
| DefaultConfiguration (component : string)
| EmptyList
| EmptyText
| Zero
| FalseValue
| SanitizedData
| DegradedMode (operation : string).

(** [_get_default_value] *)
Definition _get_default_value (operation : string) : option fallback_value :=
  let operation := lower operation in
  if contains "skills" operation then Some EmptyList
  else if contains "text" operation || contains "content" operation
  then Some EmptyText
  else if contains "count" operation || contains "score" operation
  then Some Zero
  else if contains "enabled" operation || contains "active" operation
  then Some FalseValue
  else None.

(** [_fallback_recovery]: its [fallback_data]. *)
Definition _fallback_recovery (fallback_action : option string)
           (component operation : string) : option fallback_value :=
  match fallback_action with
  | None => None
  | Some action =>
      if String.eqb action "use_defaults"
      then Some (DefaultConfiguration component)
      else if String.eqb action "use_default_value"
      then _get_default_value operation
      else if String.eqb action "sanitize_data" then Some SanitizedData
      else if String.eqb action "graceful_degradation"
      then Some (DegradedMode operation)
      else None
  end.

(** The dictionary [handle_error] returns, by the keys the wrapper reads.
    [_skip_recovery] sets a key [operation_skipped], but [handle_error]
    copies only [recovery_successful], [continue_execution] and
    [fallback_data] into its result, so the wrapper's
    [result.get("operation_skipped")] is always [None]. *)
Record report : Type := {
  continue_execution : bool;
  fallback_data : option fallback_value;
  operation_skipped : option bool
}.

(** [handle_error] *)
Definition handle_error (component operation : string) (e : exn) : report :=
  match _get_error_rule e with
  | (FALLBACK, action) =>
      {| continue_execution := true;
         fallback_data := _fallback_recovery action component operation;
         operation_skipped := None |}
  | (SKIP, _) =>
      {| continue_execution := true;
         fallback_data := None;
         operation_skipped := None |}
  | (USER_INPUT, _) =>
      {| continue_execution := false;
         fallback_data := None;
         operation_skipped := None |}
  end.

(** What a function wrapped by [with_error_handling] returns: the value of
    the function, the fallback data of the handler, or [None]. *)
Inductive returned (A : Type) : Type :=
| Value (a : A)
| Fallback (data : fallback_value)
| NoneValue.
Arguments Value {A} a.
Arguments Fallback {A} data.
Arguments NoneValue {A}.

(** The wrapper of [with_error_handling(handler, component, operation)]
    around a call of the function with outcome [call]. *)
Definition with_error_handling {A : Type} (component operation : string)
           (call : result A) : result (returned A) :=
  match call with
  | Returns a => Returns (Value a)
  | Raises e =>
      let result := handle_error component operation e in
      if negb (continue_execution result) then Raises e
      else
        match fallback_data result with
        | Some data => Returns (Fallback data)
        | None =>
            match operation_skipped result with
            | Some true => Returns NoneValue
            | _ => Raises e
            end
        end
  end.

End ErrorHandler.

(** *** [AdvancedRelevanceEngine] *)

Module AdvancedRelevanceEngine.
Import MemoryCore.

Local Open Scope Q_scope.

Record domain_config : Type := {
  keywords : list string;
  weight : Q;
  industry_boost : dict Q
}.

Definition tech_domains : dict domain_config := [
  ("databases", {|
     keywords := ["sql"; "mysql"; "postgresql"; "oracle"; "mongodb"; "nosql"; "database"; "db"; "data"; "query"];
     weight := 1.0;
     industry_boost := [("finance", 1.5); ("healthcare", 1.3); ("retail", 1.2)] |});
  ("programming", {|
     keywords := ["python"; "java"; "c++"; "javascript"; "nodejs"; "php"; "ruby"; "go"; "rust"; ".net"];
     weight := 1.2;
     industry_boost := [("technology", 1.8); ("finance", 1.3)] |});
  ("web", {|
     keywords := ["html"; "css"; "react"; "angular"; "vue"; "frontend"; "backend"; "web"; "http"; "api"; "rest"];
     weight := 1.1;
     industry_boost := [("technology", 1.6); ("retail", 1.4)] |});
  ("cloud", {|
     keywords := ["aws"; "azure"; "gcp"; "cloud"; "docker"; "kubernetes"; "serverless"; "microservices"];
     weight := 1.3;
     industry_boost := [("technology", 1.7); ("finance", 1.4)] |});
  ("networking", {|
     keywords := ["network"; "tcp"; "ip"; "dns"; "firewall"; "vpn"; "router"; "switch"; "security"];
     weight := 1.2;
     industry_boost := [("technology", 1.5); ("healthcare", 1.3)] |});
  ("systems", {|
     keywords := ["linux"; "windows"; "unix"; "server"; "admin"; "infrastructure"; "deployment"];
     weight := 1.1;
     industry_boost := [("technology", 1.4); ("manufacturing", 1.3)] |});
  ("security", {|
     keywords := ["security"; "cybersecurity"; "encryption"; "authentication"; "authorization"; "compliance"];
     weight := 1.4;
     industry_boost := [("finance", 1.8); ("healthcare", 1.6)] |});
  ("automation", {|
     keywords := ["automation"; "scripting"; "powershell"; "bash"; "workflow"; "ci/cd"; "devops"];
     weight := 1.2;
     industry_boost := [("technology", 1.6); ("manufacturing", 1.4)] |})
]%string.

Definition business_domains : dict domain_config := [
  ("business_analysis", {|
     keywords := ["business analyst"; "requirements"; "process improvement"; "workflow"; "documentation"];
     weight := 1.0;
     industry_boost := [("finance", 1.4); ("healthcare", 1.3)] |});
  ("finance", {|
     keywords := ["finance"; "financial"; "accounting"; "order to cash"; "collections"; "credit"];
     weight := 1.1;
     industry_boost := [("finance", 1.8); ("manufacturing", 1.2)] |});
  ("project_management", {|
     keywords := ["project management"; "scrum"; "agile"; "stakeholder management"; "timeline"];
     weight := 1.2;
     industry_boost := [("technology", 1.5); ("manufacturing", 1.4)] |});
  ("business_intelligence", {|
     keywords := ["business intelligence"; "bi"; "power bi"; "tableau"; "data visualization"; "dashboard"];
     weight := 1.3;
     industry_boost := [("finance", 1.6); ("retail", 1.4)] |})
]%string.

Record role_config : Type := {
  patterns : list string;
  role_weight : Q;
  complexity_indicators : list string
}.

Definition role_types : dict role_config := [
  ("technical_it", {|
     patterns := ["technician"; "engineer"; "developer"; "administrator"; "support specialist";
                  "network"; "system admin"; "security analyst"; "devops"; "infrastructure"];
     role_weight := 1.0;
     complexity_indicators := ["senior"; "lead"; "principal"; "architect"] |});
  ("business_analyst", {|
     patterns := ["business analyst"; "process analyst"; "functional analyst"; "systems analyst"];
     role_weight := 1.0;
     complexity_indicators := ["senior"; "lead"; "principal"] |});
  ("management", {|
     patterns := ["manager"; "director"; "supervisor"; "team lead"; "department head"];
     role_weight := 1.0;
     complexity_indicators := ["senior"; "executive"; "vice president"; "c-level"] |})
]%string.

(** **** The steps of the analysis *)

Record role_analysis : Type := {
  role_type : string;
  role_confidence : Q;
  role_scores : dict nat
}.

Definition advanced_role_score (config : role_config) (job_text : string) : nat :=
  let score :=
    fold_left
      (fun score pattern =>
         let score := (score + Re.count_word pattern job_text)%nat in
         if contains pattern (take 200 job_text) then (score + 3)%nat else score)
      (patterns config) 0%nat in
  fold_left
    (fun score indicator =>
       if contains indicator job_text then (score + 2)%nat else score)
    (complexity_indicators config) score.

(** [_classify_role_advanced] *)
Definition _classify_role_advanced (job_text : string) : role_analysis :=
  let role_scores : dict nat :=
    fold_left
      (fun scores '(role, config) =>
         let score := advanced_role_score config job_text in
         if (0 <? score)%nat then dict_set role score scores else scores)
      role_types [] in
  match max_key role_scores with
  | None => {| role_type := "unknown"; role_confidence := 0.0; role_scores := [] |}
  | Some best =>
      let max_score := max_value role_scores in
      let total_score := IndustryClassifier.sum_values role_scores in
      {| role_type := best;
         role_confidence :=
           if (0 <? total_score)%nat
           then inject_Z (Z.of_nat max_score) / inject_Z (Z.of_nat total_score)
           else 0.0;
         role_scores := role_scores |}
  end.

Definition required_patterns : list string := [
  "required?:?\s*([^.!?]*)";
  "must have:?\s*([^.!?]*)";
  "essential:?\s*([^.!?]*)";
  "minimum requirements?:?\s*([^.!?]*)";
  "qualifications?:?\s*([^.!?]*)"
]%string.

Definition preferred_patterns : list string := [
  "preferred?:?\s*([^.!?]*)";
  "nice to have:?\s*([^.!?]*)";
  "bonus:?\s*([^.!?]*)";
  "plus:?\s*([^.!?]*)";
  "desired:?\s*([^.!?]*)"
]%string.

Definition tech_patterns : list string := [
  "\b(?:java|python|javascript|sql|aws|azure|linux|windows|oracle|mysql)\b";
  "\b(?:react|angular|vue|docker|kubernetes|git|jenkins)\b"
]%string.

Definition soft_skill_patterns : list string := [
  "communication"; "leadership"; "teamwork"; "problem.solving";
  "analytical"; "detail.oriented"; "time.management"; "adaptability"
]%string.

Definition responsibility_patterns : list string := [
  "responsibilities?:?\s*([^.!?]*)";
  "duties:?\s*([^.!?]*)";
  "you will:?\s*([^.!?]*)";
  "the role involves:?\s*([^.!?]*)"
]%string.

Record skills_analysis : Type := {
  required : list string;
  preferred : list string;
  technologies : list string;
  soft_skills : list string;
  responsibilities : list string
}.

(** The stripped matches of every pattern, in order. *)
Definition stripped_matches (pats : list string) (job_text : string) : list string :=
  flat_map (fun pattern => map strip (Re.findall pattern job_text)) pats.

(** [_extract_skills_advanced] *)
Definition _extract_skills_advanced (job_text : string) : skills_analysis := {|
  required := stripped_matches required_patterns job_text;
  preferred := stripped_matches preferred_patterns job_text;
  technologies :=
    distinct (flat_map (fun pattern => Re.findall pattern job_text) tech_patterns);
  soft_skills :=
    map (replace_char "." " ")
        (filter (fun pattern => Re.search pattern job_text) soft_skill_patterns);
  responsibilities := stripped_matches responsibility_patterns job_text
|}.

(** [_analyze_company_context], its ["size"] entry *)
Definition company_size_of (job_text : string) : string :=
  let large_score :=
    count_if (fun indicator => contains indicator job_text)
             ["enterprise"; "fortune 500"; "global"; "multinational"; "corporation";
              "thousands of employees"; "worldwide"; "international"]%string in
  let small_score :=
    count_if (fun indicator => contains indicator job_text)
             ["startup"; "small business"; "growing company"; "entrepreneurial";
              "close-knit team"; "wear many hats"; "fast-paced"]%string in
  if (small_score <? large_score)%nat then "large"
  else if (large_score <? small_score)%nat then "small"
  else "medium".

(** [_analyze_experience_requirements], its ["level"] and ["complexity"] *)
Definition experience_of (job_text : string) : string * Q :=
  let senior_score :=
    count_if (fun indicator => contains indicator job_text)
             ["senior"; "lead"; "principal"; "architect"; "5+ years"; "7+ years"]%string in
  let junior_score :=
    count_if (fun indicator => contains indicator job_text)
             ["junior"; "entry"; "associate"; "0-2 years"; "recent graduate"]%string in
  let '(experience_level, complexity) :=
    if (junior_score <? senior_score)%nat then ("senior"%string, 0.8)
    else if (senior_score <? junior_score)%nat then ("junior"%string, 0.3)
    else ("mid"%string, 0.5) in
  let complexity_boost :=
    fold_left
      (fun boost resp => if contains resp job_text then boost + 0.1 else boost)
      ["architect"; "design"; "lead"; "mentor"; "strategy"; "planning";
       "cross-functional"; "stakeholder management"]%string 0 in
  (experience_level, py_min 1.0 (complexity + complexity_boost)).

Record career_analysis : Type := {
  compensation : JobAnalysisResult.compensation;
  career_growth_potential : Q;
  remote_indicators : list string
}.

(** [_analyze_career_indicators] *)
Definition _analyze_career_indicators (job_text : string) : career_analysis :=
  let comp_score :=
    count_if (fun indicator => contains indicator job_text)
             ["competitive salary"; "excellent benefits"; "equity"; "stock options";
              "bonus"; "401k"; "health insurance"; "remote work"]%string in
  let growth_score :=
    count_if (fun indicator => contains indicator job_text)
             ["career growth"; "advancement"; "mentorship"; "learning"; "development";
              "training"; "certification"; "conference"; "education"]%string in
  {| compensation :=
       {| JobAnalysisResult.compensation_count := comp_score;
          JobAnalysisResult.likely_competitive := (3 <=? comp_score)%nat |};
     career_growth_potential :=
       py_min 1.0 (inject_Z (Z.of_nat growth_score) / 5);
     remote_indicators :=
       filter (fun indicator => contains indicator job_text)
              ["remote"; "work from home"; "distributed team"; "flexible location";
               "telecommute"; "virtual"; "anywhere"]%string |}.

(** [_score_domains_advanced] *)
Definition _score_domains_advanced (job_text : string) (domains : dict domain_config)
           (industry_analysis : IndustryAnalysis.t) : dict Q :=
  let industry := IndustryAnalysis.industry industry_analysis in
  fold_left
    (fun domain_scores '(domain, config) =>
       let score :=
         fold_left
           (fun score keyword =>
              score + inject_Z (Z.of_nat (Re.count_word keyword job_text))
                      * weight config)
           (keywords config) 0 in
       let score :=
         match dict_get industry (industry_boost config) with
         | Some boost => score * boost
         | None => score
         end in
       if qlt 0 score then dict_set domain score domain_scores else domain_scores)
    domains [].

Definition sum_scores (d : dict Q) : Q := fold_left Qplus (values d) 0.

(** The body of [analyze_job_comprehensive] behind its two caches. *)
Definition build_analysis (job_description : string) : JobAnalysisResult.t :=
  let job_lower := lower job_description in
  let industry_analysis := IndustryClassifier.classify_industry job_description in
  let role := _classify_role_advanced job_lower in
  let skills := _extract_skills_advanced job_lower in
  let company_size := company_size_of job_lower in
  let experience := experience_of job_lower in
  let career := _analyze_career_indicators job_lower in
  let tech := _score_domains_advanced job_lower tech_domains industry_analysis in
  let business := _score_domains_advanced job_lower business_domains industry_analysis in
  let tech_score := sum_scores tech in
  let business_score := sum_scores business in
  let primary_focus :=
    if mem (role_type role) ["business_analyst"; "management"]%string then "business"
    else if String.eqb (role_type role) "technical_it" then "technical"
    else if qlt tech_score business_score then "business" else "technical" in
  {| JobAnalysisResult.job_role_type := role_type role;
     JobAnalysisResult.primary_focus := primary_focus;
     JobAnalysisResult.confidence_score := role_confidence role;
     JobAnalysisResult.required_skills := required skills;
     JobAnalysisResult.preferred_skills := preferred skills;
     JobAnalysisResult.tech_domains := tech;
     JobAnalysisResult.business_domains := business;
     JobAnalysisResult.industry_context := industry_analysis;
     JobAnalysisResult.experience_level := fst experience;
     JobAnalysisResult.company_size := company_size;
     JobAnalysisResult.role_complexity := snd experience;
     JobAnalysisResult.explicit_technologies := technologies skills;
     JobAnalysisResult.soft_skills := soft_skills skills;
     JobAnalysisResult.key_responsibilities := responsibilities skills;
     JobAnalysisResult.compensation_indicators := compensation career;
     JobAnalysisResult.growth_potential := career_growth_potential career;
     JobAnalysisResult.remote_work_indicators := remote_indicators career |}.

(** **** The scoring of a skill *)

(** The best similarity with one of [terms], times [factor]. *)
Definition best_similarity (skill_name : string) (terms : list string)
           (factor best : Q) : Q :=
  fold_left
    (fun best term =>
       py_max best
              (SemanticMatcher.calculate_semantic_similarity skill_name term * factor))
    terms best.

(** The domain loop: [self.tech_domains.get(domain, {})] has no keywords for
    an unknown domain. *)
Definition domain_boost_of (table : dict domain_config) (scores : dict Q)
           (divisor : Q) (skill_name skill_context : string) : Q :=
  fold_left
    (fun boost '(domain, score) =>
       match dict_get domain table with
       | None => boost
       | Some config =>
           fold_left
             (fun boost keyword =>
                if contains keyword skill_name || contains keyword skill_context
                then boost + py_min (score / divisor) 0.8 * weight config
                else boost)
             (keywords config) boost
       end)
    scores 0.0.

(** The industry loop: the last domain that boosts the industry and has a
    keyword in the skill name decides. *)
Definition industry_relevance_of (table : dict domain_config)
           (industry skill_name : string) : Q :=
  fold_left
    (fun relevance '(domain, config) =>
       match dict_get industry (industry_boost config) with
       | Some boost =>
           if existsb (fun keyword => contains keyword skill_name) (keywords config)
           then 0.15 * (boost - 1.0)
           else relevance
       | None => relevance
       end)
    table 0.0.

(** [_generate_score_explanation] *)
Definition _generate_score_explanation (base_score domain_boost industry_relevance
           semantic_similarity penalty : Q) (job_analysis : JobAnalysisResult.t)
  : string :=
  let focus := JobAnalysisResult.primary_focus job_analysis in
  let explanations : list string :=
    ((if qlt 0.7 base_score then ["Strong match with job requirements"%string]
      else if qlt 0.4 base_score then ["Moderate match with job requirements"%string]
      else if qlt 0.1 base_score then ["Weak match with job requirements"%string]
      else [])
     ++ (if qlt 0.5 domain_boost
         then [("High relevance to " ++ focus ++ " role")%string]
         else if qlt 0.2 domain_boost
         then [("Moderate relevance to " ++ focus ++ " role")%string]
         else [])
     ++ (if qlt 0.1 industry_relevance
         then [("Valuable for "
                  ++ IndustryAnalysis.industry
                       (JobAnalysisResult.industry_context job_analysis)
                  ++ " industry")%string]
         else [])
     ++ (if qlt 0.2 semantic_similarity
         then ["Semantic similarity with mentioned technologies"%string] else [])
     ++ (if qlt 0 penalty then ["Some mismatch with role focus"%string] else []))%list in
  match explanations with
  | [] => "Basic relevance assessment"%string
  | _ :: _ => String.concat "; " explanations
  end.

(** [_calculate_confidence] *)
Definition _calculate_confidence (base_score domain_boost semantic_similarity : Q) : Q :=
  if qlt 0.8 base_score then 0.95
  else if qlt 0.5 base_score || qlt 0.6 domain_boost then 0.8
  else if qlt 0.2 base_score || qlt 0.3 domain_boost || qlt 0.3 semantic_similarity
  then 0.6
  else 0.4.

(** [score_skill_comprehensive], without its decorator. *)
Definition score_skill (skill_data : SkillMemory)
           (job_analysis : JobAnalysisResult.t) : SkillRelevanceScore.t :=
  let skill_name := lower (skill_name skill_data) in
  let skill_context := lower (context skill_data) in
  let focus := JobAnalysisResult.primary_focus job_analysis in
  let level := JobAnalysisResult.experience_level job_analysis in
  let base_score :=
    best_similarity skill_name
      (map lower (JobAnalysisResult.required_skills job_analysis)) 0.9 0.0 in
  let base_score :=
    best_similarity skill_name
      (map lower (JobAnalysisResult.preferred_skills job_analysis)) 0.6 base_score in
  let domain_boost :=
    if String.eqb focus "technical" then
      domain_boost_of tech_domains (JobAnalysisResult.tech_domains job_analysis)
                      15.0 skill_name skill_context
    else if String.eqb focus "business" then
      domain_boost_of business_domains
                      (JobAnalysisResult.business_domains job_analysis)
                      10.0 skill_name skill_context
    else 0.0 in
  let experience_alignment :=
    if String.eqb level "senior" && contains "senior" skill_context then 0.2
    else if String.eqb level "junior"
            && any (fun term => contains term skill_context)
                   ["basic"; "entry"; "beginner"]%string then 0.1
    else if String.eqb level "mid" then 0.1
    else 0.0 in
  let industry :=
    IndustryAnalysis.industry (JobAnalysisResult.industry_context job_analysis) in
  let industry_relevance :=
    if String.eqb industry "general" then 0.0
    else if String.eqb focus "technical"
    then industry_relevance_of tech_domains industry skill_name
    else industry_relevance_of business_domains industry skill_name in
  let semantic_similarity :=
    best_similarity skill_name
      (JobAnalysisResult.explicit_technologies job_analysis) 0.3 0.0 in
  let penalty :=
    if String.eqb focus "business"
       && any (fun term => contains term skill_name)
              ["network security"; "server administration";
               "hardware troubleshooting"]%string
    then 0.4 else 0.0 in
  let final_score :=
    (base_score + domain_boost + experience_alignment
     + industry_relevance + semantic_similarity) - penalty in
  let final_score := py_max 0.0 (py_min 1.0 final_score) in
  {| SkillRelevanceScore.skill_name := MemoryCore.skill_name skill_data;
     SkillRelevanceScore.base_score := base_score;
     SkillRelevanceScore.domain_boost := domain_boost;
     SkillRelevanceScore.experience_alignment := experience_alignment;
     SkillRelevanceScore.industry_relevance := industry_relevance;
     SkillRelevanceScore.semantic_similarity := semantic_similarity;
     SkillRelevanceScore.final_score := final_score;
     SkillRelevanceScore.explanation :=
       _generate_score_explanation base_score domain_boost industry_relevance
                                   semantic_similarity penalty job_analysis;
     SkillRelevanceScore.confidence :=
       _calculate_confidence base_score domain_boost semantic_similarity |}.

(** **** The decorated entry points *)

Definition strings_eq_dec (a b : list string) : {a = b} + {a <> b}.
Proof. apply list_eq_dec, string_dec. Defined.

Definition skill_eq_dec (a b : SkillMemory) : {a = b} + {a <> b}.
Proof. decide equality; auto using string_dec, strings_eq_dec. Defined.

Definition Q_eq_dec (a b : Q) : {a = b} + {a <> b}.
Proof. decide equality; auto using Z.eq_dec, Pos.eq_dec. Defined.

Definition scores_eq_dec (a b : dict Q) : {a = b} + {a <> b}.
Proof.
  apply list_eq_dec. decide equality; auto using string_dec, Q_eq_dec.
Defined.

Definition counts_eq_dec (a b : dict nat) : {a = b} + {a <> b}.
Proof.
  apply list_eq_dec. decide equality; auto using string_dec, Nat.eq_dec.
Defined.

Definition industry_eq_dec (a b : IndustryAnalysis.t) : {a = b} + {a <> b}.
Proof.
  decide equality; auto using string_dec, Q_eq_dec, strings_eq_dec, counts_eq_dec.
Defined.

Definition compensation_eq_dec (a b : JobAnalysisResult.compensation)
  : {a = b} + {a <> b}.
Proof. decide equality; auto using Bool.bool_dec, Nat.eq_dec. Defined.

Definition analysis_eq_dec (a b : JobAnalysisResult.t) : {a = b} + {a <> b}.
Proof.
  decide equality;
    auto using string_dec, Q_eq_dec, scores_eq_dec, industry_eq_dec,
               strings_eq_dec, compensation_eq_dec.
Defined.

Definition call_eq_dec (a b : SkillMemory * JobAnalysisResult.t)
  : {a = b} + {a <> b}.
Proof. decide equality; auto using skill_eq_dec, analysis_eq_dec. Defined.

(** [score_skill_comprehensive], as decorated with
    [@performance_monitor(..., use_cache=True)]: the score and the cache of
    the monitor after the call. *)
Definition score_skill_comprehensive
           (monitor_cache :
              PerformanceCache.t (SkillMemory * JobAnalysisResult.t)
                                 SkillRelevanceScore.t)
           (now : Z) (skill_data : SkillMemory) (job_analysis : JobAnalysisResult.t)
  : SkillRelevanceScore.t
    * PerformanceCache.t (SkillMemory * JobAnalysisResult.t) SkillRelevanceScore.t :=
  PerformanceCache.performance_monitor call_eq_dec
    (fun args => score_skill (fst args) (snd args)) None
    monitor_cache now (skill_data, job_analysis).

(** [self.analysis_cache]: for the encoded description (the source keys it
    by the MD5 digest of the encoded description, taken to be free of
    collisions), the analysis and the time it was made. *)
Definition analysis_cache : Type := dict (JobAnalysisResult.t * Z).

(** The body of [analyze_job_comprehensive] once its first statement has
    encoded the description: the lookup in [self.analysis_cache], the
    analysis, and the store; [cache_ttl] is in seconds.  No step of it
    raises. *)
Definition analyze_job (cache_ttl : Z) (now : Z)
           (state : analysis_cache) (job_description : string)
  : JobAnalysisResult.t * analysis_cache :=
  let fresh :=
    let result := build_analysis job_description in
    (result, dict_set job_description (result, now) state) in
  match dict_get job_description state with
  | Some (cached_result, timestamp) =>
      if (now - timestamp <? cache_ttl * 1000000)%Z
      then (cached_result, state)
      else fresh
  | None => fresh
  end.

(** [analyze_job_comprehensive] without its decorators: the first statement,
    [cache_key = hashlib.md5(job_description.encode()).hexdigest()], raises
    on a description that cannot be encoded. *)
Definition analyze_job_body (cache_ttl : Z) (now : Z)
           (state : analysis_cache) (job_description : str)
  : result (JobAnalysisResult.t * analysis_cache) :=
  bind (encode job_description)
       (fun encoded => Returns (analyze_job cache_ttl now state encoded)).

(** What the decorated [analyze_job_comprehensive] returns. *)
Definition analysis : Type := ErrorHandler.returned JobAnalysisResult.t.

(** [analyze_job_comprehensive], as decorated with
    [@performance_monitor(..., use_cache=True, cache_ttl=3600)] around
    [@with_error_handling(..., "relevance_engine",
    "analyze_job_comprehensive")]: what the call returns or raises, the
    cache of the monitor and the cache of the engine after the call.  The
    monitor returns a live cached value other than [None] without calling
    the function; an exception of the function passes through it, and
    nothing is stored. *)
Definition analyze_job_comprehensive (cache_ttl : Z)
           (monitor_cache : PerformanceCache.t str analysis)
           (state : analysis_cache) (now : Z) (job_description : str)
  : result analysis * PerformanceCache.t str analysis * analysis_cache :=
  let call monitor_cache :=
    match ErrorHandler.with_error_handling
            "relevance_engine" "analyze_job_comprehensive"
            (analyze_job_body cache_ttl now state job_description) with
    | Returns returned =>
        let '(result, state) :=
          match returned with
          | ErrorHandler.Value (result, state) =>
              (ErrorHandler.Value result, state)
          | ErrorHandler.Fallback data => (ErrorHandler.Fallback data, state)
          | ErrorHandler.NoneValue => (ErrorHandler.NoneValue, state)
          end in
        (Returns result,
         PerformanceCache.set str_eq_dec job_description result (Some 3600%Z)
                              now monitor_cache,
         state)
    | Raises e => (Raises e, monitor_cache, state)
    end in
  match PerformanceCache.get str_eq_dec job_description now monitor_cache with
  | (Some ErrorHandler.NoneValue, monitor_cache)
  | (None, monitor_cache) => call monitor_cache
  | (Some cached_result, monitor_cache) =>
      (Returns cached_result, monitor_cache, state)
  end.

End AdvancedRelevanceEngine.


(* ================================================================== *)
(** ** The key of the specification, and sample data *)
(* ================================================================== *)

Module Samples.
Import MemoryCore.

(** The normalized key as the specification words it: the name lower-cased,
    with every run of whitespace and punctuation collapsed into one
    separator.  It is used only to compare the specification with
    [skill_key]. *)
Definition is_punct (c : ascii) : bool :=
  let n := nat_of_ascii c in
  (((33 <=? n) && (n <=? 47)) || ((58 <=? n) && (n <=? 64))
   || ((91 <=? n) && (n <=? 96)) || ((123 <=? n) && (n <=? 126)))%nat.

Fixpoint collapse (in_run : bool) (s : string) : string :=
  match s with
  | EmptyString => EmptyString
  | String c r =>
      if is_space c || is_punct c
      then if in_run then collapse true r else String "_" (collapse true r)
      else String c (collapse false r)
  end.

Definition spec_normalized_key (name : string) : string :=
  collapse false (lower name).

(** Every entry of the skills map sits under the key of its own name. *)
Definition keyed_by_name (d : dict SkillMemory) : Prop :=
  Forall (fun e => fst e = skill_key (skill_name (snd e))) d.

(** A name without the characters "(", ")", "," and ".": the names on which
    [FileMonitor._normalize_skill_key], which removes these characters, and
    [skill_key], which keeps them, give the same key. *)
Definition plain_char (c : ascii) : bool :=
  negb (Ascii.eqb c "(" || Ascii.eqb c ")" || Ascii.eqb c "," || Ascii.eqb c ".").

Fixpoint plain (name : string) : bool :=
  match name with
  | EmptyString => true
  | String c r => plain_char c && plain r
  end.

Definition plain_names (d : dict SkillMemory) : Prop :=
  Forall (fun e => plain (skill_name (snd e)) = true) d.

(** The categories that hold a preference. *)
Definition non_empty {V : Type} (e : string * list V) : bool :=
  match snd e with [] => false | _ :: _ => true end.

(** The store after a sequence of additions, each at its own clock reading. *)
Definition add_skills (adds : list (string * SkillMemory)) (m : MemoryData)
  : MemoryData :=
  fold_left (fun m a => add_skill_memory (fst a) (snd a) m) adds m.

Definition skill (name ctx : string) : SkillMemory := {|
  skill_name := name;
  proficiency_level := "Advanced";
  context := ctx;
  examples := [];
  last_updated := "2025-01-01T00:00:00"
|}.

Definition sample_event (st : string) : TemporalMemory := {|
  event_type := "education";
  description := "I will be starting a degree";
  start_date := None;
  end_date := None;
  status := st;
  auto_update_rules := []
|}.

Definition style (category text : string) : StyleMemory := {|
  preference_type := category;
  rule := text;
  style_examples := [];
  success_rate := 1.0%Q;
  last_applied := "2025-01-01T00:00:00";
  style_context := ""
|}.

(** A store with one event in each of the five statuses. *)
Definition five_events : MemoryData := {|
  skills := [];
  style_preferences := style_preferences (empty_memory "t" "t");
  temporal_events :=
    map sample_event
        ["upcoming"; "starting_soon"; "current"; "recently_completed"; "completed"];
  feedback_history := [];
  metadata := metadata (empty_memory "t" "t")
|}.

(** A store with two categories of style preferences, and a job whose
    responsibilities are, word for word, "communicate". *)
Definition styled_store : MemoryData := {|
  skills := [];
  style_preferences :=
    [("avoid_phrases", [style "avoid_phrases" "passionate"]);
     ("prefer_phrases", []);
     ("tone_preferences",
      [style "tone_preferences" "Be brief";
       style "tone_preferences" "Keep a warm tone"]);
     ("structure_preferences", [])];
  temporal_events := [];
  feedback_history := [];
  metadata := metadata (empty_memory "t" "t")
|}.

Definition communication_job : string :=
  "Office manager. Responsibilities: communicate.".

(** Ten skills, four of which are relevant to a network engineer. *)
Definition ten_skills : MemoryData :=
  add_skills
    [("t01", skill "MySQL" "");
     ("t02", skill "Technical Support" "");
     ("t03", skill "Python" "");
     ("t04", skill "Network Administration" "");
     ("t05", skill "Excel" "");
     ("t06", skill "Linux" "");
     ("t07", skill "Public Speaking" "");
     ("t08", skill "Windows Server" "");
     ("t09", skill "Photoshop" "");
     ("t10", skill "Accounting" "")]
    (empty_memory "t00" "t00").

Definition network_job : string := "Network engineer".

End Samples.


(* ================================================================== *)
(** ** The notions the properties are stated with *)
(* ================================================================== *)

Module Notions.
Import MemoryCore.

(** [a] occurs in [b]. *)
Definition Substring (a b : string) : Prop :=
  exists before after : string, b = (before ++ a ++ after)%string.

(** Both terms are mapped to a cluster, and to the same one. *)
Definition same_cluster (a b : string) : Prop :=
  exists cluster : string,
    SemanticMatcher._find_cluster a = Some cluster
    /\ SemanticMatcher._find_cluster b = Some cluster.

(** The Jaccard similarity of two token sets, given without repetition:
    the size of the intersection over the size of the union, 0 when the
    union is empty. *)
Definition jaccard (A B : list string) : Q :=
  let overlap := List.length (filter (fun t => mem t B) A) in
  let union := List.length (distinct (A ++ B)) in
  if (0 <? union)%nat
  then (inject_Z (Z.of_nat overlap) / inject_Z (Z.of_nat union))%Q
  else 0%Q.

(** The score of a skill against an analysis, where scoring returns. *)
Definition score_of (job_analysis : JobAnalysis.t) (skill_data : SkillMemory) : Q :=
  match RelevanceEngine.score_skill_relevance skill_data job_analysis with
  | Returns q => q
  | Raises _ => 0%Q
  end.

(** The stored skills that score above the floor of 0.1, in store order. *)
Definition qualifying (job_analysis : JobAnalysis.t) (skills : dict SkillMemory)
  : list SkillMemory :=
  filter (fun s => qlt 0.1%Q (score_of job_analysis s)) (values skills).

(** Scores in descending order. *)
Definition descending (score : SkillMemory -> Q) (l : list SkillMemory) : Prop :=
  StronglySorted (fun x y => (score y <= score x)%Q) l.

(** A domain of [table] with a positive score. *)
Definition scored_domain (table : dict (list string)) (e : string * Q) : Prop :=
  In (fst e) (keys table) /\ (0 < snd e)%Q.

(** An analysis as the analyzer builds them: its domains are domains of the
    engine's tables and carry positive scores. *)
Definition profile_ok (a : JobAnalysis.t) : Prop :=
  Forall (scored_domain RelevanceEngine.tech_domains) (JobAnalysis.tech_domains a)
  /\ Forall (scored_domain RelevanceEngine.business_domains)
            (JobAnalysis.business_domains a).

(** A cache of analyses as calls of [analyze_job_requirements] leave it:
    every entry was built from a description with the entry's key. *)
Definition cache_built (c : RelevanceEngine.cache) : Prop :=
  forall key a,
    dict_get key c = Some a ->
    exists job, RelevanceEngine.cache_key job = key
                /\ a = RelevanceEngine.build_analysis job.

(** A cache of the performance monitor whose entries hold the values of
    [func] at their keys, as the decorator fills it. *)
Definition memo_sound {K V : Type} (func : K -> V)
           (c : PerformanceCache.t K V) : Prop :=
  forall k e, In (k, e) (PerformanceCache.cache c) ->
              PerformanceCache.value e = func k.

(** A cache of the performance monitor as calls of
    [analyze_job_comprehensive] leave it: every entry is stored under a
    description that can be encoded and holds the analysis of its text. *)
Definition monitor_sound
           (c : PerformanceCache.t str AdvancedRelevanceEngine.analysis) : Prop :=
  forall k e,
    In (k, e) (PerformanceCache.cache c) ->
    exists encoded,
      encode k = Returns encoded
      /\ PerformanceCache.value e
         = ErrorHandler.Value (AdvancedRelevanceEngine.build_analysis encoded).

(** The function the decorator of [score_skill_comprehensive] wraps. *)
Definition scored_call (args : SkillMemory * JobAnalysisResult.t)
  : SkillRelevanceScore.t :=
  AdvancedRelevanceEngine.score_skill (fst args) (snd args).

(** The same for the engine's own cache of analyses. *)
Definition analyses_sound (state : AdvancedRelevanceEngine.analysis_cache) : Prop :=
  forall job r time,
    dict_get job state = Some (r, time) ->
    r = AdvancedRelevanceEngine.build_analysis job.

(** A text made of whitespace only. *)
Fixpoint blank (s : string) : bool :=
  match s with
  | EmptyString => true
  | String c r => is_space c && blank r
  end.

(** A keyword that starts with a character other than whitespace, and a
    compiled pattern that starts with a word boundary or such a character:
    neither is met in a blank text. *)
Definition hard_keyword (keyword : string) : bool :=
  match keyword with
  | EmptyString => false
  | String c _ => negb (is_space c)
  end.

Definition starts_hard (p : list Re.atom) : bool :=
  match p with
  | Re.Boundary :: _ => true
  | Re.One (Re.Chr c) :: _ => negb (is_space c)
  | _ => false
  end.

(** The character before a position is not a word character. *)
Definition after_non_word (prev : option ascii) : Prop :=
  match prev with
  | Some c => is_word c = false
  | None => True
  end.

(** The values the analyzers give to the three fields. *)
Definition simple_roles : list string :=
  ["technical_it"; "business_analyst"; "finance"; "project_management";
   "management"; "unknown"].

Definition advanced_roles : list string :=
  ["technical_it"; "business_analyst"; "management"; "unknown"].

Definition focuses : list string := ["business"; "technical"].

Definition levels : list string := ["senior"; "junior"; "mid"].

End Notions.

(* ================================================================== *)
(** ** memory_core.py: preferences, feedback and search *)
(* ================================================================== *)

Module MemoryOps.
Import MemoryCore.

(** [next((p for p in prefs if p.get("rule") == style.rule), None)] followed
    by [existing.update(asdict(style))]: the first record with the rule of
    [style] takes every field of [style]; [None] when no record has it. *)
Fixpoint update_existing (style : StyleMemory) (prefs : list StyleMemory)
  : option (list StyleMemory) :=
  match prefs with
  | [] => None
  | p :: r =>
      if String.eqb (rule p) (rule style) then Some (style :: r)
      else option_map (cons p) (update_existing style r)
  end.

(** [add_style_preference] *)
Definition add_style_preference (now : string) (style : StyleMemory)
           (m : MemoryData) : MemoryData :=
  let category := preference_type style in
  let prefs :=
    match dict_get category (style_preferences m) with
    | Some _ => style_preferences m
    | None => dict_set category [] (style_preferences m)
    end in
  let stored :=
    match dict_get category prefs with
    | Some l => l
    | None => []
    end in
  let stored' :=
    match update_existing style stored with
    | Some l => l
    | None => stored ++ [style]
    end in
  save_memory now {|
    skills := skills m;
    style_preferences := dict_set category stored' prefs;
    temporal_events := temporal_events m;
    feedback_history := feedback_history m;
    metadata := metadata m
  |}.

(** [add_feedback_memory] *)
Definition add_feedback_memory (now : string) (feedback : FeedbackMemory)
           (m : MemoryData) : MemoryData :=
  let total := (total_interactions (metadata m) + 1)%Z in
  let successful :=
    if String.eqb (outcome feedback) "accepted"
    then (successful_generations (metadata m) + 1)%Z
    else successful_generations (metadata m) in
  save_memory now {|
    skills := skills m;
    style_preferences := style_preferences m;
    temporal_events := temporal_events m;
    feedback_history := feedback_history m ++ [feedback];
    metadata := {| created := created (metadata m);
                   metadata_last_updated := metadata_last_updated (metadata m);
                   total_interactions := total;
                   successful_generations := successful |}
  |}.

(** The operations that change the store, and a run of them, each at its
    own reading of the clock. *)
Inductive operation : Type :=
| AddSkill (skill : SkillMemory)
| AddStyle (style : StyleMemory)
| AddEvent (event : TemporalMemory)
| AddFeedback (feedback : FeedbackMemory).

Definition perform (m : MemoryData) (step : string * operation) : MemoryData :=
  match snd step with
  | AddSkill skill => add_skill_memory (fst step) skill m
  | AddStyle style => add_style_preference (fst step) style m
  | AddEvent event => add_temporal_event (fst step) event m
  | AddFeedback feedback => add_feedback_memory (fst step) feedback m
  end.

Definition run (steps : list (string * operation)) (m : MemoryData)
  : MemoryData :=
  fold_left perform steps m.

(** An entry of the list [search_memory] returns:
    [{"type": "skill", "data": ...}] or [{"type": "feedback", "data": ...}]. *)
Inductive hit : Type :=
| SkillHit (data : SkillMemory)
| FeedbackHit (data : FeedbackMemory).

(** [search_memory] *)
Definition search_memory (query : string) (m : MemoryData) : list hit :=
  let query_lower := lower query in
  map SkillHit
      (filter (fun skill_data =>
                 contains query_lower (lower (skill_name skill_data))
                 || contains query_lower (lower (context skill_data)))
              (values (skills m)))
  ++ map FeedbackHit
         (filter (fun feedback =>
                    contains query_lower (lower (feedback_text feedback)))
                 (feedback_history m)).

End MemoryOps.


(* ================================================================== *)
(** ** temporal_manager.py: months and the generation context *)
(* ================================================================== *)

Module TemporalOps.
Import MemoryCore.

Local Open Scope Z_scope.

(** A naive [datetime], by its fields. *)
Record datetime : Type := {
  year : Z;
  month : Z;
  day : Z;
  hour : Z;
  minute : Z;
  second : Z;
  microsecond : Z
}.

(** What the calendar and [datetime.replace] raise. *)
Inductive error : Type :=
| ValueError
| IllegalMonthError.

Inductive attempt (A : Type) : Type :=
| Done (a : A)
| Failed (e : error).
Arguments Done {A} a.
Arguments Failed {A} e.

(** [calendar.isleap] *)
Definition isleap (y : Z) : bool :=
  (y mod 4 =? 0) && (negb (y mod 100 =? 0) || (y mod 400 =? 0)).

(** [calendar.mdays] *)
Definition mdays : list Z := [0; 31; 28; 31; 30; 31; 30; 31; 31; 30; 31; 30; 31].

(** [calendar.monthrange(y, m)[1]]: the number of days of the month. *)
Definition monthrange (y m : Z) : attempt Z :=
  if (1 <=? m) && (m <=? 12)
  then Done (nth (Z.to_nat m) mdays 0
             + (if (m =? 2) && isleap y then 1 else 0))
  else Failed IllegalMonthError.

(** The number of days of a month of the calendar. *)
Definition days_in_month (y m : Z) : Z :=
  match monthrange y m with
  | Done n => n
  | Failed _ => 0
  end.

(** [date_obj.replace(year=y, month=m, day=d)]: the new fields are checked
    as the constructor checks them. *)
Definition replace (date_obj : datetime) (y m d : Z) : attempt datetime :=
  if (1 <=? y) && (y <=? 9999) && (1 <=? m) && (m <=? 12)
     && (1 <=? d) && (d <=? days_in_month y m)
  then Done {| year := y; month := m; day := d;
               hour := hour date_obj; minute := minute date_obj;
               second := second date_obj;
               microsecond := microsecond date_obj |}
  else Failed ValueError.

(** [_add_months] *)
Definition _add_months (date_obj : datetime) (months : Z) : attempt datetime :=
  let month0 := month date_obj + months in
  let year1 := year date_obj + (month0 - 1) / 12 in
  let month1 := (month0 - 1) mod 12 + 1 in
  match monthrange year1 month1 with
  | Failed e => Failed e
  | Done last => replace date_obj year1 month1 (Z.min (day date_obj) last)
  end.

Local Close Scope Z_scope.

(** The loop that groups the events by status. *)
Definition group_by_status (events : list TemporalMemory)
  : dict (list TemporalMemory) :=
  fold_left (fun status_groups event =>
               dict_append (status event) event status_groups)
            events [].

(** The line of one status group, if the group exists. *)
Definition block (label status_name : string)
           (status_groups : dict (list TemporalMemory)) : list string :=
  match dict_get status_name status_groups with
  | Some group =>
      [(label ++ String.concat "; " (map description group))%string]
  | None => []
  end.

Definition newline : string := String (ascii_of_nat 10) EmptyString.

(** [get_temporal_context_for_generation] *)
Definition get_temporal_context_for_generation (m : MemoryData) : string :=
  let current_events := get_current_temporal_events m in
  match current_events with
  | [] => ""
  | _ :: _ =>
      let status_groups := group_by_status current_events in
      let context_parts :=
        block "CURRENTLY: " "current" status_groups
        ++ block "STARTING SOON: " "starting_soon" status_groups
        ++ block "UPCOMING: " "upcoming" status_groups
        ++ block "RECENTLY COMPLETED: " "recently_completed" status_groups in
      String.concat newline context_parts
  end.

End TemporalOps.


(* ================================================================== *)
(** ** relevance_engine.py: the technical terms of a text *)
(* ================================================================== *)

Module RelevanceOps.
Import RelevanceEngine.

(** [_extract_technical_terms] *)
Definition _extract_technical_terms (text : string) : list string :=
  let text_lower := lower text in
  distinct (keywords_in tech_domains text_lower).

End RelevanceOps.


(* ================================================================== *)
(** ** advanced_relevance_engine.py: learning from feedback *)
(* ================================================================== *)

Module Learning.

Local Open Scope Q_scope.

Record feedback_entry : Type := {
  skill : string;
  job_context : string;
  feedback_type : string;
  user_score : option Q;
  timestamp : Z
}.

Record performance_entry : Type := {
  score : Q;
  performance_timestamp : Z;
  context : string
}.

(** [self.feedback_patterns] and [self.skill_performance_history], two
    [defaultdict(list)]. *)
Record state : Type := {
  feedback_patterns : dict (list feedback_entry);
  skill_performance_history : dict (list performance_entry)
}.

Definition initial : state := {|
  feedback_patterns := [];
  skill_performance_history := []
|}.

(** [learn_from_feedback]; [now1] and [now2] are the two readings of the
    clock. *)
Definition learn_from_feedback (now1 now2 : Z) (skill_name job_description
           feedback_type : string) (user_score : option Q) (s : state) : state :=
  let feedback_entry := {|
    skill := lower skill_name;
    job_context := lower (take 200 job_description);
    feedback_type := feedback_type;
    user_score := user_score;
    timestamp := now1
  |} in
  {| feedback_patterns :=
       dict_append (lower skill_name) feedback_entry (feedback_patterns s);
     skill_performance_history :=
       match user_score with
       | Some value =>
           dict_append (lower skill_name)
                       {| score := value; performance_timestamp := now2;
                          context := lower (take 100 job_description) |}
                       (skill_performance_history s)
       | None => skill_performance_history s
       end |}.

Record skill_insight : Type := {
  insight_skill : string;
  avg_score : Q;
  feedback_count : nat
}.

Record trends : Type := {
  positive_ratio : Q;
  total_positive : nat;
  total_negative : nat
}.

Record insights : Type := {
  total_feedback_entries : nat;
  skills_with_feedback : nat;
  top_performing_skills : list skill_insight;
  underperforming_skills : list skill_insight;
  feedback_trends : trends
}.

(** [sum(1 for patterns in d.values() for entry in patterns if p(entry))] *)
Definition count_entries (p : feedback_entry -> bool)
           (d : dict (list feedback_entry)) : nat :=
  count_if p (List.concat (values d)).

(** The loop over the performance history: the skills with at least three
    scores, by their average. *)
Definition performance (history : dict (list performance_entry))
  : list skill_insight * list skill_insight :=
  fold_left
    (fun '(top, under) '(skill, history) =>
       if (3 <=? List.length history)%nat then
         let avg_score :=
           fold_left Qplus (map score history) 0
           / inject_Z (Z.of_nat (List.length history)) in
         let insight := {| insight_skill := skill; avg_score := avg_score;
                           feedback_count := List.length history |} in
         if qlt 0.8 avg_score then (top ++ [insight], under)
         else if qlt avg_score 0.4 then (top, under ++ [insight])
         else (top, under)
       else (top, under))
    history ([], []).

(** [get_learning_insights] *)
Definition get_learning_insights (s : state) : insights :=
  let ranked := performance (skill_performance_history s) in
  let positive_feedback :=
    count_entries (fun entry => String.eqb (feedback_type entry) "positive")
                  (feedback_patterns s) in
  let negative_feedback :=
    count_entries (fun entry => String.eqb (feedback_type entry) "negative")
                  (feedback_patterns s) in
  {| total_feedback_entries :=
       fold_left Nat.add
                 (map (fun patterns => List.length patterns)
                      (values (feedback_patterns s))) 0%nat;
     skills_with_feedback := List.length (feedback_patterns s);
     top_performing_skills := fst ranked;
     underperforming_skills := snd ranked;
     feedback_trends :=
       {| positive_ratio :=
            if (0 <? positive_feedback + negative_feedback)%nat
            then inject_Z (Z.of_nat positive_feedback)
                 / inject_Z (Z.of_nat (positive_feedback + negative_feedback))
            else 0;
          total_positive := positive_feedback;
          total_negative := negative_feedback |} |}.

(** One call of [learn_from_feedback], and a run of calls. *)
Record call : Type := {
  at_first : Z;
  at_second : Z;
  call_skill : string;
  call_job : string;
  call_type : string;
  call_score : option Q
}.

Definition learn (s : state) (c : call) : state :=
  learn_from_feedback (at_first c) (at_second c) (call_skill c) (call_job c)
                      (call_type c) (call_score c) s.

End Learning.

(* ================================================================== *)
(** ** Invariants of the store *)
(* ================================================================== *)

Module Invariants.
Import MemoryCore.

(** No category of style preferences holds two records with one rule. *)
Definition rules_unique (m : MemoryData) : Prop :=
  forall category prefs,
    dict_get category (style_preferences m) = Some prefs ->
    NoDup (map rule prefs).

(** The [accepted] feedback records. *)
Definition accepted (feedback : FeedbackMemory) : bool :=
  String.eqb (outcome feedback) "accepted".

(** The two counters of the metadata agree with the feedback history. *)
Definition counters_match (m : MemoryData) : Prop :=
  total_interactions (metadata m)
  = Z.of_nat (List.length (feedback_history m))
  /\ successful_generations (metadata m)
     = Z.of_nat (count_if accepted (feedback_history m)).

(** The preferences stored under a category, none when it is absent. *)
Definition stored_under (category : string) (m : MemoryData)
  : list StyleMemory :=
  match dict_get category (style_preferences m) with
  | Some prefs => prefs
  | None => []
  end.

End Invariants.

(* ================================================================== *)
(** ** Dates and the blocks of the generation context *)
(* ================================================================== *)

Module Dates.
Import MemoryCore TemporalOps.

Local Open Scope Z_scope.

(** A date of the calendar, as [datetime] accepts them. *)
Definition valid_date (d : datetime) : Prop :=
  1 <= year d <= 9999
  /\ 1 <= month d <= 12
  /\ 1 <= day d <= days_in_month (year d) (month d).

(** The months since year 0. *)
Definition month_index (d : datetime) : Z := 12 * year d + (month d - 1).

(** The same time of day. *)
Definition same_time (a b : datetime) : Prop :=
  hour a = hour b /\ minute a = minute b /\ second a = second b
  /\ microsecond a = microsecond b.

Local Close Scope Z_scope.

(** The stored events with a given status, in the order of the store. *)
Definition with_status (status_name : string) (m : MemoryData)
  : list TemporalMemory :=
  filter (fun event => String.eqb (status event) status_name)
         (temporal_events m).

(** One line for a group of events, none for an empty group. *)
Definition line (label : string) (events : list TemporalMemory) : list string :=
  match events with
  | [] => []
  | _ :: _ => [(label ++ String.concat "; " (map description events))%string]
  end.

End Dates.

(* ================================================================== *)
(** ** Requests to the cache of the performance monitor *)
(* ================================================================== *)

Module CacheRequests.
Import PerformanceCache.

Section Requests.
Context {K V : Type} (K_eq_dec : forall a b : K, {a = b} + {a <> b}).

(** A call of [get] or of [set], with the reading of the clock. *)
Inductive request : Type :=
| CallGet (key : K) (now : Z)
| CallSet (key : K) (v : V) (ttl : option Z) (now : Z).

Definition serve (c : PerformanceCache.t K V) (r : request)
  : PerformanceCache.t K V :=
  match r with
  | CallGet key now => snd (get K_eq_dec key now c)
  | CallSet key v ttl now => set K_eq_dec key v ttl now c
  end.

(** The two dictionaries of the cache have unique keys, and the same. *)
Definition in_step (c : PerformanceCache.t K V) : Prop :=
  NoDup (map fst (cache c))
  /\ NoDup (map fst (access_times c))
  /\ forall k, In k (map fst (cache c)) <-> In k (map fst (access_times c)).


End Requests.

Arguments request : clear implicits.

End CacheRequests.

(* ================================================================== *)
(** ** Keywords of the engine's tables *)
(* ================================================================== *)

Module Keywords.

(** [keyword] is listed under some domain of [table]. *)
Definition keyword_of (table : dict (list string)) (keyword : string) : Prop :=
  exists domain keywords, In (domain, keywords) table /\ In keyword keywords.

End Keywords.

(* ================================================================== *)
(** ** The course of an event *)
(* ================================================================== *)

Module Course.

(** The place of a status in the life of an event. *)
Definition stage (status : string) : nat :=
  if String.eqb status "upcoming" then 0
  else if String.eqb status "starting_soon" then 1
  else if String.eqb status "current" then 2
  else if String.eqb status "recently_completed" then 3
  else 4.

End Course.


(* ================================================================== *)
(** * Properties *)
(* ================================================================== *)

(** ** The regular-expression fragment on the patterns of the source *)

Example findall_required :
  Re.findall "required?:?\s*([^.]*)" "required: sql, network security. preferred: aws."
  = ["sql, network security"].
Proof. vm_compute. reflexivity. Qed.

Example count_word_boundaries :
  Re.count_word "network" "network engineer for networks and a network" = 2%nat
  /\ Re.count_word "c++" "c++ and cc, abc" = 2%nat
  /\ Re.count_word ".net" "asp.net or .net" = 1%nat
  /\ Re.findall "\b\w+\b" "tcp/ip  stack_1" = ["tcp"; "ip"; "stack_1"]
  /\ Re.findall "\b(?:java|python|sql)\b" "python, javascript and sql" = ["python"; "sql"].
Proof. vm_compute. repeat split; reflexivity. Qed.


(** Scenario A of the specification, in both engines: for a job that
    requires network security, "Network Security" scores above "MySQL". *)
Example network_security_above_mysql :
  let job := "Required: Network Security, HIPAA compliance. Preferred: AWS." in
  let s1 := Samples.skill "Network Security" "" in
  let s2 := Samples.skill "MySQL" "" in
  qlt (Notions.score_of (RelevanceEngine.build_analysis job) s2)
      (Notions.score_of (RelevanceEngine.build_analysis job) s1) = true
  /\ qlt (SkillRelevanceScore.final_score
            (AdvancedRelevanceEngine.score_skill
               s2 (AdvancedRelevanceEngine.build_analysis job)))
         (SkillRelevanceScore.final_score
            (AdvancedRelevanceEngine.score_skill
               s1 (AdvancedRelevanceEngine.build_analysis job))) = true.
Proof. vm_compute. split; reflexivity. Qed.


(* ================================================================== *)
(** ** Temporal events: the status of an event *)
(* ================================================================== *)

Section EventStatus.
Import MemoryCore TemporalManager Samples.
Local Open Scope Z_scope.

Lemma add_returns date delta :
  0 <= date + delta <= datetime_max -> add date delta = Returns (date + delta).
Proof.
  intros [Hlo Hhi]. unfold add.
  apply Z.leb_le in Hlo. apply Z.leb_le in Hhi. rewrite Hlo, Hhi. reflexivity.
Qed.

Lemma add_raises date delta :
  date + delta < 0 \/ datetime_max < date + delta ->
  add date delta = Raises OverflowError.
Proof.
  intros H. unfold add.
  destruct (0 <=? date + delta) eqn:Elo; [| reflexivity].
  destruct (date + delta <=? datetime_max) eqn:Ehi; [| reflexivity].
  apply Z.leb_le in Elo. apply Z.leb_le in Ehi. lia.
Qed.

Lemma sub_returns date delta :
  0 <= date - delta <= datetime_max -> sub date delta = Returns (date - delta).
Proof.
  intros H. unfold sub. rewrite add_returns by lia. reflexivity.
Qed.

(** The status, once [start_date - 7 days] is a [datetime]. *)
Lemma status_from_start event start finish now :
  0 <= start - timedelta_days 7 -> start <= datetime_max ->
  _calculate_event_status event (Some start) finish now =
  if now <? start - timedelta_days 7 then Returns "upcoming"%string
  else if now <? start then Returns "starting_soon"%string
  else
    match finish with
    | None => Returns "current"%string
    | Some f =>
        bind (add f (timedelta_days 30))
             (fun over =>
                if over <? now then Returns "completed"%string
                else if f <? now then Returns "recently_completed"%string
                else Returns "current"%string)
    end.
Proof.
  intros Hlo Hhi. unfold _calculate_event_status. cbv zeta.
  assert (H7 : 0 < timedelta_days 7) by reflexivity.
  rewrite sub_returns by lia. reflexivity.
Qed.

Lemma status_upcoming event start finish now :
  0 <= now -> start <= datetime_max ->
  now < start - timedelta_days 7 ->
  _calculate_event_status event (Some start) finish now
  = Returns "upcoming"%string.
Proof.
  intros Hn Hs H. rewrite status_from_start by lia.
  apply Z.ltb_lt in H. rewrite H. reflexivity.
Qed.

Lemma status_starting_soon event start finish now :
  timedelta_days 7 <= start <= datetime_max ->
  start - timedelta_days 7 <= now < start ->
  _calculate_event_status event (Some start) finish now
  = Returns "starting_soon"%string.
Proof.
  intros Hs [Hlo Hhi]. rewrite status_from_start by lia.
  apply Z.ltb_ge in Hlo. apply Z.ltb_lt in Hhi.
  rewrite Hlo, Hhi. reflexivity.
Qed.

(** Once the start is reached, the end date alone decides. *)
Lemma status_started event start finish now :
  timedelta_days 7 <= start <= datetime_max ->
  start <= now ->
  _calculate_event_status event (Some start) finish now =
  match finish with
  | None => Returns "current"%string
  | Some f =>
      bind (add f (timedelta_days 30))
           (fun over =>
              if over <? now then Returns "completed"%string
              else if f <? now then Returns "recently_completed"%string
              else Returns "current"%string)
  end.
Proof.
  intros Hs H. rewrite status_from_start by lia.
  assert (H7 : 0 < timedelta_days 7) by reflexivity.
  replace (now <? start - timedelta_days 7) with false
    by (symmetry; apply Z.ltb_ge; lia).
  replace (now <? start) with false by (symmetry; apply Z.ltb_ge; lia).
  reflexivity.
Qed.

(** Where a buffer date is not a [datetime], the computation raises: before
    the eighth day of the calendar for the start, and, once the start is
    reached, within the last thirty days of the calendar for the end. *)
Lemma status_overflow event start finish now :
  (start < timedelta_days 7 ->
   _calculate_event_status event (Some start) finish now
   = Raises OverflowError)
  /\ (timedelta_days 7 <= start <= datetime_max -> start <= now ->
      forall f, finish = Some f -> datetime_max < f + timedelta_days 30 ->
      _calculate_event_status event (Some start) finish now
      = Raises OverflowError).
Proof.
  split.
  - intros H. unfold _calculate_event_status, sub. cbv zeta.
    rewrite add_raises by lia. reflexivity.
  - intros Hs Hn f -> Hf. rewrite status_started by assumption.
    rewrite add_raises by lia. reflexivity.
Qed.

(** C3, as amended.  The dates are naive [datetime]s.  The status of an
    event with a known start date is "upcoming" if [now < start - 7 days];
    where [start - 7 days] is a [datetime], it is "starting_soon" if
    [start - 7 days <= now < start] and, once [now >= start], "current" if
    the end date is absent; with an end date such that [end + 30 days] is a
    [datetime], and [now >= start], it is "current" if [now <= end],
    "recently_completed" if [end < now <= end + 30 days] and "completed" if
    [now > end + 30 days]. *)
Theorem event_status_cases :
  forall (event : TemporalMemory) (start : datetime)
         (finish : option datetime) (now : datetime),
    0 <= start <= datetime_max ->
    0 <= now <= datetime_max ->
    (forall f, finish = Some f -> 0 <= f <= datetime_max) ->
    let st := _calculate_event_status event (Some start) finish now in
    (now < start - timedelta_days 7 -> st = Returns "upcoming"%string)
    /\ (timedelta_days 7 <= start ->
        (start - timedelta_days 7 <= now < start ->
         st = Returns "starting_soon"%string)
        /\ (start <= now -> finish = None -> st = Returns "current"%string)
        /\ (start <= now ->
            forall f, finish = Some f -> f + timedelta_days 30 <= datetime_max ->
            (now <= f -> st = Returns "current"%string)
            /\ (f < now <= f + timedelta_days 30 ->
                st = Returns "recently_completed"%string)
            /\ (f + timedelta_days 30 < now ->
                st = Returns "completed"%string))).
Proof.
  intros event start finish now Hstart Hnow Hfinish st. subst st.
  split; [apply status_upcoming; lia |].
  intros H7.
  split; [apply status_starting_soon; lia |].
  assert (H30 : 0 < timedelta_days 30) by reflexivity.
  split.
  - intros Hs ->. rewrite status_started by lia. reflexivity.
  - intros Hs f E Hf. pose proof (Hfinish f E) as Hv. subst finish.
    rewrite status_started by lia.
    rewrite add_returns by lia. cbn [bind].
    split; [| split].
    + intros Hle.
      replace (f + timedelta_days 30 <? now) with false
        by (symmetry; apply Z.ltb_ge; lia).
      replace (f <? now) with false by (symmetry; apply Z.ltb_ge; lia).
      reflexivity.
    + intros [Hlo Hhi].
      replace (f + timedelta_days 30 <? now) with false
        by (symmetry; apply Z.ltb_ge; lia).
      apply Z.ltb_lt in Hlo. rewrite Hlo. reflexivity.
    + intros Hlt. apply Z.ltb_lt in Hlt. rewrite Hlt. reflexivity.
Qed.

(** Scenario B and the three later stages, at concrete dates: the clock
    reads 2025-01-01 (day 739251 of the calendar), the start is 40 days
    later and the end 100 days later; then the clock reads 37, 50, 110 and
    140 days later. *)
Lemma event_status_cases_witness :
  let ev := sample_event "upcoming" in
  let day := fun d => timedelta_days (739251 + d) in
  _calculate_event_status ev (Some (day 40)) None (day 0)
  = Returns "upcoming"%string
  /\ _calculate_event_status ev (Some (day 40)) None (day 37)
     = Returns "starting_soon"%string
  /\ _calculate_event_status ev (Some (day 40)) (Some (day 100)) (day 50)
     = Returns "current"%string
  /\ _calculate_event_status ev (Some (day 40)) (Some (day 100)) (day 110)
     = Returns "recently_completed"%string
  /\ _calculate_event_status ev (Some (day 40)) (Some (day 100)) (day 140)
     = Returns "completed"%string.
Proof.
  intros ev day.
  assert (Hstart : 0 <= day 40 <= datetime_max) by (split; discriminate).
  assert (Hnone : forall f, @None datetime = Some f -> 0 <= f <= datetime_max)
    by discriminate.
  assert (Hend : forall f, Some (day 100) = Some f -> 0 <= f <= datetime_max)
    by (intros f [= <-]; split; discriminate).
  assert (H7 : timedelta_days 7 <= day 40) by discriminate.
  assert (H30 : day 100 + timedelta_days 30 <= datetime_max) by discriminate.
  split; [| split; [| split; [| split]]].
  - destruct (event_status_cases ev (day 40) None (day 0) Hstart) as [H _];
      [split; discriminate | exact Hnone |].
    apply H. reflexivity.
  - destruct (event_status_cases ev (day 40) None (day 37) Hstart) as [_ H];
      [split; discriminate | exact Hnone |].
    destruct (H H7) as [Hsoon _]. apply Hsoon.
    split; [discriminate | reflexivity].
  - destruct (event_status_cases ev (day 40) (Some (day 100)) (day 50) Hstart)
      as [_ H]; [split; discriminate | exact Hend |].
    destruct (H H7) as (_ & _ & Hafter).
    destruct (Hafter ltac:(discriminate) (day 100) eq_refl H30) as [Hcur _].
    apply Hcur. discriminate.
  - destruct (event_status_cases ev (day 40) (Some (day 100)) (day 110) Hstart)
      as [_ H]; [split; discriminate | exact Hend |].
    destruct (H H7) as (_ & _ & Hafter).
    destruct (Hafter ltac:(discriminate) (day 100) eq_refl H30)
      as (_ & Hrecent & _).
    apply Hrecent. split; [reflexivity | discriminate].
  - destruct (event_status_cases ev (day 40) (Some (day 100)) (day 140) Hstart)
      as [_ H]; [split; discriminate | exact Hend |].
    destruct (H H7) as (_ & _ & Hafter).
    destruct (Hafter ltac:(discriminate) (day 100) eq_refl H30)
      as (_ & _ & Hdone).
    apply Hdone. reflexivity.
Defined.

(** C3 as stated fails on two inputs.  For an event whose end precedes its
    start (start on 2025-04-11, end on 2025-01-01, clock 10 days after the
    end) the clock is within 30 days after the end, yet the status is
    "upcoming".  For an event that started on 2020-01-01 and ends on
    9999-12-31, on 2025-01-01, the start is reached and the end is not, yet
    no status is computed: [end + 30 days] is not a [datetime]. *)
Lemma event_status_outside_the_cases :
  let ev := sample_event "current" in
  let day := timedelta_days in
  (day 739251 < day 739261 <= day 739251 + timedelta_days 30
   /\ _calculate_event_status ev (Some (day 739351)) (Some (day 739251))
                              (day 739261)
      = Returns "upcoming"%string
   /\ _calculate_event_status ev (Some (day 739351)) (Some (day 739251))
                              (day 739261)
      <> Returns "recently_completed"%string)
  /\ (day 737424 <= day 739251 <= day 3652058
      /\ day 3652058 <= datetime_max
      /\ _calculate_event_status ev (Some (day 737424)) (Some (day 3652058))
                                 (day 739251)
         = Raises OverflowError
      /\ _calculate_event_status ev (Some (day 737424)) (Some (day 3652058))
                                 (day 739251)
         <> Returns "current"%string).
Proof.
  intros ev day. split.
  - split; [split; [reflexivity | discriminate] |].
    split; [reflexivity | discriminate].
  - split; [split; discriminate |].
    split; [discriminate |].
    split; [reflexivity | discriminate].
Qed.

(** With dates whose buffer dates are [datetime]s, a status is computed, and
    it is one of the five. *)
Lemma status_returned event start finish now :
  timedelta_days 7 <= start <= datetime_max ->
  (forall f, finish = Some f ->
             0 <= f /\ f + timedelta_days 30 <= datetime_max) ->
  exists s,
    _calculate_event_status event (Some start) finish now = Returns s
    /\ In s ["upcoming"; "starting_soon"; "current";
             "recently_completed"; "completed"]%string.
Proof.
  intros Hs Hf.
  assert (H30 : 0 < timedelta_days 30) by reflexivity.
  rewrite status_from_start by lia.
  destruct (now <? start - timedelta_days 7);
    [eexists; split; [reflexivity | simpl; tauto] |].
  destruct (now <? start); [eexists; split; [reflexivity | simpl; tauto] |].
  destruct finish as [f |]; [| eexists; split; [reflexivity | simpl; tauto]].
  destruct (Hf f eq_refl) as [Hlo Hhi].
  rewrite add_returns by lia. cbn [bind].
  destruct (f + timedelta_days 30 <? now);
    [eexists; split; [reflexivity | simpl; tauto] |].
  destruct (f <? now); eexists; (split; [reflexivity | simpl; tauto]).
Qed.

(** C9, as amended: when the start date is present, the computation has the
    same outcome for two events with the same start date, end date and
    clock, whatever else the events hold; the outcome is one of the five
    statuses or [OverflowError], and it is a status when the dates are
    [datetime]s and so are [start - 7 days] and, if the end date is given,
    [end + 30 days].  When the start date is absent, the stored status is
    returned unchanged. *)
Theorem event_status_depends_on_dates :
  (forall (event1 event2 : TemporalMemory) (start : datetime)
          (finish : option datetime) (now : datetime),
      _calculate_event_status event1 (Some start) finish now
      = _calculate_event_status event2 (Some start) finish now)
  /\ (forall (event : TemporalMemory) (start : datetime)
             (finish : option datetime) (now : datetime),
         In (_calculate_event_status event (Some start) finish now)
            [Returns "upcoming"; Returns "starting_soon"; Returns "current";
             Returns "recently_completed"; Returns "completed";
             Raises OverflowError]%string)
  /\ (forall (event : TemporalMemory) (start : datetime)
             (finish : option datetime) (now : datetime),
         timedelta_days 7 <= start <= datetime_max ->
         (forall f, finish = Some f ->
                    0 <= f /\ f + timedelta_days 30 <= datetime_max) ->
         exists s,
           _calculate_event_status event (Some start) finish now = Returns s
           /\ In s ["upcoming"; "starting_soon"; "current";
                    "recently_completed"; "completed"]%string)
  /\ (forall (event : TemporalMemory) (finish : option datetime) (now : datetime),
         _calculate_event_status event None finish now
         = Returns (status event)).
Proof.
  split; [| split; [| split]].
  - intros. reflexivity.
  - intros event start finish now. unfold _calculate_event_status, sub, add.
    cbv zeta.
    destruct ((0 <=? start + - timedelta_days 7)
              && (start + - timedelta_days 7 <=? datetime_max));
      cbn [bind]; [| simpl; tauto].
    destruct (now <? start + - timedelta_days 7); [simpl; tauto |].
    destruct (now <? start); [simpl; tauto |].
    destruct finish as [f |]; [| simpl; tauto].
    destruct ((0 <=? f + timedelta_days 30)
              && (f + timedelta_days 30 <=? datetime_max));
      cbn [bind]; [| simpl; tauto].
    destruct (f + timedelta_days 30 <? now); [simpl; tauto |].
    destruct (f <? now); simpl; tauto.
  - intros event start finish now Hs Hf. now apply status_returned.
  - intros. reflexivity.
Qed.

(** C9 as stated fails when the start date is absent: two events with the
    same (absent) dates and the same clock keep their two stored statuses. *)
Lemma event_status_without_start_differs :
  let now := timedelta_days 739251 in
  _calculate_event_status (sample_event "upcoming") None None now
  = Returns "upcoming"%string
  /\ _calculate_event_status (sample_event "completed") None None now
     = Returns "completed"%string
  /\ _calculate_event_status (sample_event "upcoming") None None now
     <> _calculate_event_status (sample_event "completed") None None now.
Proof.
  intros now. split; [reflexivity |]. split; [reflexivity | discriminate].
Qed.

End EventStatus.


(* ================================================================== *)
(** ** Dictionaries *)
(* ================================================================== *)

Section DictFacts.
Context {V : Type}.
Implicit Types (d : dict V) (k : string) (v : V).

Lemma dict_get_in_keys d k v : dict_get k d = Some v -> In k (keys d).
Proof.
  induction d as [| [k' v'] d IH]; simpl; [discriminate |].
  destruct (String.eqb_spec k' k) as [-> | Hne]; auto.
Qed.

Lemma dict_get_not_in_keys d k : ~ In k (keys d) -> dict_get k d = None.
Proof.
  induction d as [| [k' v'] d IH]; simpl; [reflexivity |].
  intros Hn. destruct (String.eqb_spec k' k) as [-> | Hne].
  - exfalso. auto.
  - apply IH. auto.
Qed.

Lemma in_keys_dict_get d k : In k (keys d) -> exists v, dict_get k d = Some v.
Proof.
  induction d as [| [k' v'] d IH]; simpl; [tauto |].
  intros [-> | Hin].
  - rewrite String.eqb_refl. eauto.
  - destruct (String.eqb k' k); eauto.
Qed.

Lemma dict_get_set_same d k v : dict_get k (dict_set k v d) = Some v.
Proof.
  induction d as [| [k' v'] d IH]; simpl.
  - now rewrite String.eqb_refl.
  - destruct (String.eqb k' k) eqn:E; simpl; rewrite E; auto.
Qed.

Lemma dict_get_set_other d k k' v :
  k' <> k -> dict_get k' (dict_set k v d) = dict_get k' d.
Proof.
  intros Hne. induction d as [| [k0 v0] d IH]; simpl.
  - destruct (String.eqb_spec k k'); congruence.
  - destruct (String.eqb_spec k0 k) as [-> | H0]; simpl.
    + destruct (String.eqb_spec k k'); congruence.
    + destruct (String.eqb k0 k'); auto.
Qed.

(** Assigning to a key that is present changes no key and no position. *)
Lemma dict_set_keys_present d k v :
  In k (keys d) -> keys (dict_set k v d) = keys d.
Proof.
  induction d as [| [k' v'] d IH]; simpl; [tauto |].
  intros Hin. destruct (String.eqb_spec k' k) as [-> | Hne]; simpl.
  - reflexivity.
  - f_equal. apply IH. destruct Hin; congruence.
Qed.

(** Assigning to a new key appends it. *)
Lemma dict_set_keys_absent d k v :
  ~ In k (keys d) -> keys (dict_set k v d) = keys d ++ [k].
Proof.
  induction d as [| [k' v'] d IH]; simpl; [reflexivity |].
  intros Hn. destruct (String.eqb_spec k' k) as [-> | Hne]; simpl.
  - exfalso. auto.
  - f_equal. apply IH. auto.
Qed.

Lemma dict_set_nodup d k v : NoDup (keys d) -> NoDup (keys (dict_set k v d)).
Proof.
  intros Hnd. destruct (in_dec string_dec k (keys d)) as [Hin | Hn].
  - now rewrite dict_set_keys_present.
  - rewrite dict_set_keys_absent by assumption.
    apply NoDup_app; [assumption | repeat constructor; simpl; tauto |].
    intros x Hx [<- | []]. contradiction.
Qed.

Lemma dict_set_entries d k v (P : string * V -> Prop) :
  P (k, v) -> Forall P d -> Forall P (dict_set k v d).
Proof.
  intros Hp Hd. induction Hd as [| [k' v'] d Hx Hd IH]; simpl.
  - repeat constructor. assumption.
  - destruct (String.eqb_spec k' k) as [-> | Hne]; constructor; auto.
Qed.

Lemma dict_set_length_present d k v :
  In k (keys d) -> List.length (dict_set k v d) = List.length d.
Proof.
  intros Hin. pose proof (dict_set_keys_present d k v Hin) as E.
  apply (f_equal (@List.length _)) in E.
  unfold keys in E. now rewrite !length_map in E.
Qed.

(** With unique keys, at most one entry answers to a key. *)
Lemma nodup_keys_filter d k :
  NoDup (keys d) ->
  List.length (filter (fun e => String.eqb (fst e) k) d) <= 1.
Proof.
  induction d as [| [k' v'] d IH]; simpl; [lia |].
  intros Hnd. inversion Hnd as [| ? ? Hnotin Hnd']; subst.
  destruct (String.eqb_spec k' k) as [-> | Hne]; [| auto].
  simpl. assert (E : filter (fun e => String.eqb (fst e) k) d = []).
  { clear -Hnotin. induction d as [| [k0 v0] d IH]; simpl; [reflexivity |].
    simpl in Hnotin.
    destruct (String.eqb_spec k0 k) as [-> | Hne]; [tauto |].
    apply IH. tauto. }
  rewrite E. simpl. lia.
Qed.

Lemma in_keys_filter_pos d k :
  In k (keys d) ->
  1 <= List.length (filter (fun e => String.eqb (fst e) k) d).
Proof.
  induction d as [| [k' v'] d IH]; simpl; [tauto |].
  intros [-> | Hin].
  - rewrite String.eqb_refl. simpl. lia.
  - specialize (IH Hin). destruct (String.eqb k' k); simpl; lia.
Qed.

End DictFacts.


(* ================================================================== *)
(** ** The memory store: skills *)
(* ================================================================== *)

Section SkillStore.
Import MemoryCore Samples.

Lemma add_skill_memory_skills now s m :
  skills (add_skill_memory now s m)
  = dict_set (skill_key (skill_name s)) s (skills m).
Proof. reflexivity. Qed.

Lemma add_skill_memory_invariant now s m :
  NoDup (keys (skills m)) /\ keyed_by_name (skills m) ->
  NoDup (keys (skills (add_skill_memory now s m)))
  /\ keyed_by_name (skills (add_skill_memory now s m)).
Proof.
  intros [Hnd Hk]. rewrite add_skill_memory_skills. split.
  - now apply dict_set_nodup.
  - apply dict_set_entries; [reflexivity | assumption].
Qed.

Lemma add_skills_invariant adds : forall m,
  NoDup (keys (skills m)) /\ keyed_by_name (skills m) ->
  NoDup (keys (skills (add_skills adds m)))
  /\ keyed_by_name (skills (add_skills adds m)).
Proof.
  induction adds as [| [now s] adds IH]; intros m Hm; simpl; [assumption |].
  apply IH. now apply add_skill_memory_invariant.
Qed.

Lemma keyed_filter (d : dict SkillMemory) k :
  keyed_by_name d ->
  filter (fun e => String.eqb (skill_key (skill_name (snd e))) k) d
  = filter (fun e => String.eqb (fst e) k) d.
Proof.
  intros Hk. induction Hk as [| e d He Hk IH]; simpl; [reflexivity |].
  rewrite <- He, IH. reflexivity.
Qed.

Lemma plain_char_key (c : ascii) :
  plain_char c = true ->
  plain_char (if Ascii.eqb (lower_char c) " " then "_"%char else lower_char c)
  = true.
Proof.
  destruct c as [[] [] [] [] [] [] [] []]; vm_compute; intros H;
    first [reflexivity | discriminate H].
Qed.

(** On a name without "(", ")", "," and "." the key of the file monitor is
    the key of the store. *)
Lemma plain_key (name : string) :
  plain name = true ->
  FileMonitor._normalize_skill_key name = skill_key name.
Proof.
  unfold FileMonitor._normalize_skill_key, skill_key.
  induction name as [| c r IH]; intros H; [reflexivity |].
  cbn [plain] in H. apply andb_true_iff in H. destruct H as [Hc Hr].
  cbn [lower replace_char].
  pose proof (plain_char_key c Hc) as Hk.
  set (c' := if Ascii.eqb (lower_char c) " " then "_"%char else lower_char c)
    in *.
  unfold plain_char in Hk. apply negb_true_iff in Hk.
  apply orb_false_iff in Hk. destruct Hk as [Hk E4].
  apply orb_false_iff in Hk. destruct Hk as [Hk E3].
  apply orb_false_iff in Hk. destruct Hk as [E1 E2].
  cbn [remove_char]. rewrite E1.
  cbn [remove_char]. rewrite E2.
  cbn [remove_char]. rewrite E3.
  cbn [remove_char]. rewrite E4.
  f_equal. apply IH, Hr.
Qed.

Lemma add_skills_plain adds : forall m,
  Forall (fun a => plain (skill_name (snd a)) = true) adds ->
  plain_names (skills m) ->
  plain_names (skills (add_skills adds m)).
Proof.
  induction adds as [| [now s] adds IH]; intros m Ha Hm; simpl; [assumption |].
  inversion Ha as [| ? ? Hs Ha']; subst. apply IH; [assumption |].
  rewrite add_skill_memory_skills.
  apply dict_set_entries; [exact Hs | exact Hm].
Qed.

(** Where the two keys part: "Node.js" is stored under "node.js", and the
    file monitor looks it up under "nodejs", which the store does not
    hold. *)
Example keys_of_a_name_with_punctuation :
  let m := add_skills [("t1", skill "Node.js" "")] (empty_memory "t0" "t0") in
  keys (skills m) = ["node.js"]
  /\ FileMonitor._normalize_skill_key "Node.js" = "nodejs"
  /\ dict_get (FileMonitor._normalize_skill_key "Node.js") (skills m) = None.
Proof. vm_compute. repeat split; reflexivity. Qed.

(** C7, as amended, for skills whose names hold none of the characters "(",
    ")", "," and ".": the key of a skill is its name lower-cased with every
    blank replaced by an underscore (runs of blanks are not collapsed),
    which on these names is also the key the file monitor computes.  After
    every sequence of additions to the empty store the skills map has
    pairwise distinct keys, every record sits under the key of its name, and
    no key has more than one record; re-adding a skill whose key is present
    leaves the keys and the size of the map unchanged, replaces the record
    under that key by the new one (its [last_updated] included), stamps the
    metadata, and leaves exactly one record for the key. *)
Theorem skills_one_record_per_key :
  forall (adds : list (string * SkillMemory)) (t1 t2 : string),
    Forall (fun a => plain (skill_name (snd a)) = true) adds ->
    let m := add_skills adds (empty_memory t1 t2) in
    NoDup (keys (skills m))
    /\ (forall k r, In (k, r) (skills m) ->
                    k = skill_key (skill_name r)
                    /\ k = FileMonitor._normalize_skill_key (skill_name r))
    /\ (forall k,
           List.length
             (filter (fun e => String.eqb (skill_key (skill_name (snd e))) k)
                     (skills m)) <= 1)
    /\ (forall (now : string) (s : SkillMemory),
           plain (skill_name s) = true ->
           In (skill_key (skill_name s)) (keys (skills m)) ->
           let m' := add_skill_memory now s m in
           keys (skills m') = keys (skills m)
           /\ List.length (skills m') = List.length (skills m)
           /\ dict_get (skill_key (skill_name s)) (skills m') = Some s
           /\ dict_get (FileMonitor._normalize_skill_key (skill_name s))
                       (skills m') = Some s
           /\ metadata_last_updated (metadata m') = now
           /\ List.length
                (filter (fun e => String.eqb (skill_key (skill_name (snd e)))
                                             (skill_key (skill_name s)))
                        (skills m')) = 1).
Proof.
  intros adds t1 t2 Hplain m.
  assert (Hinv : NoDup (keys (skills m)) /\ keyed_by_name (skills m)).
  { apply add_skills_invariant. simpl. split; constructor. }
  assert (Hp : plain_names (skills m)).
  { apply add_skills_plain; [assumption | constructor]. }
  destruct Hinv as [Hnd Hk].
  split; [assumption |]. split; [| split].
  - intros k r Hin. unfold keyed_by_name in Hk. unfold plain_names in Hp.
    rewrite Forall_forall in Hk, Hp.
    pose proof (Hk (k, r) Hin) as E. pose proof (Hp (k, r) Hin) as P.
    cbn [fst snd] in E, P. split; [exact E |].
    rewrite plain_key by assumption. exact E.
  - intros k. rewrite keyed_filter by assumption. now apply nodup_keys_filter.
  - intros now s Hs Hin m'.
    destruct (add_skill_memory_invariant now s m (conj Hnd Hk)) as [Hnd' Hk'].
    fold m' in Hnd', Hk'.
    assert (Hkeys : keys (skills m') = keys (skills m))
      by (apply dict_set_keys_present; assumption).
    split; [assumption |].
    split; [now apply dict_set_length_present |].
    split; [apply dict_get_set_same |].
    split; [rewrite plain_key by assumption; apply dict_get_set_same |].
    split; [reflexivity |].
    rewrite keyed_filter by assumption.
    pose proof (nodup_keys_filter (skills m') (skill_key (skill_name s)) Hnd').
    assert (Hin' : In (skill_key (skill_name s)) (keys (skills m')))
      by (rewrite Hkeys; assumption).
    pose proof (in_keys_filter_pos (skills m') _ Hin'). lia.
Qed.

(** Re-adding "Network Security" under another spelling of the same key. *)
Lemma skills_one_record_per_key_witness :
  let adds := [("t1", skill "Network Security" "firewalls");
               ("t2", skill "MySQL" "")] in
  let m := add_skills adds (empty_memory "t0" "t0") in
  let s := skill "network security" "updated" in
  let m' := add_skill_memory "t3" s m in
  Forall (fun a => plain (skill_name (snd a)) = true) adds
  /\ keys (skills m') = ["network_security"; "mysql"]
  /\ List.length (skills m') = 2
  /\ dict_get "network_security" (skills m') = Some s
  /\ metadata_last_updated (metadata m') = "t3".
Proof.
  intros adds m s m'.
  assert (Hadds : Forall (fun a => plain (skill_name (snd a)) = true) adds)
    by (repeat constructor).
  split; [exact Hadds |].
  destruct (skills_one_record_per_key adds "t0" "t0" Hadds)
    as (_ & _ & _ & Hre).
  destruct (Hre "t3" s) as (Hkeys & Hlen & Hget & _ & Hmeta & _).
  - reflexivity.
  - simpl. left. reflexivity.
  - split; [exact Hkeys |]. split; [exact Hlen |].
    split; [exact Hget | exact Hmeta].
Defined.

(** C7 as stated fails: "SQL Server" and "SQL  Server" (two blanks) have the
    same name once lower-cased with whitespace collapsed, yet they get two
    different keys, from the store as from the file monitor, and the store
    holds two records. *)
Lemma skills_two_records_one_normalized_name :
  let a := skill "SQL Server" "" in
  let b := skill "SQL  Server" "" in
  let m := add_skills [("t1", a); ("t2", b)] (empty_memory "t0" "t0") in
  spec_normalized_key (skill_name a) = spec_normalized_key (skill_name b)
  /\ plain (skill_name a) = true
  /\ plain (skill_name b) = true
  /\ map FileMonitor._normalize_skill_key [skill_name a; skill_name b]
     = ["sql_server"; "sql__server"]
  /\ keys (skills m) = ["sql_server"; "sql__server"]
  /\ List.length
       (filter (fun e => String.eqb (spec_normalized_key (skill_name (snd e)))
                                    (spec_normalized_key (skill_name a)))
               (skills m)) = 2.
Proof. vm_compute. repeat split; reflexivity. Qed.

End SkillStore.


(* ================================================================== *)
(** ** The memory store: loading *)
(* ================================================================== *)

Section Loading.
Import MemoryCore.

(** What the loader tolerates: a missing file, a file that is not JSON, and
    a file that vanished between the test and the read. *)
Lemma load_memory_tolerated t1 t2 :
  (forall read, _load_memory false read t1 t2 = Returns (new_memory_structure t1 t2))
  /\ _load_memory true (Raises JSONDecodeError) t1 t2
     = Returns (new_memory_structure t1 t2)
  /\ _load_memory true (Raises FileNotFoundError) t1 t2
     = Returns (new_memory_structure t1 t2).
Proof. repeat split. Qed.

(** C8, at the failing inputs: when the file exists and reading it raises
    [UnicodeDecodeError] (bytes that are not UTF-8) or [PermissionError] (a
    file the process may not read), [_load_memory] raises that exception
    instead of returning the empty structure. *)
Theorem load_memory_raises_on_unreadable_file :
  forall t1 t2 : string,
    _load_memory true (Raises UnicodeDecodeError) t1 t2 = Raises UnicodeDecodeError
    /\ _load_memory true (Raises PermissionError) t1 t2 = Raises PermissionError
    /\ _load_memory true (Raises UnicodeDecodeError) t1 t2
       <> Returns (new_memory_structure t1 t2).
Proof. intros. repeat split. discriminate. Qed.

End Loading.


(* ================================================================== *)
(** ** The selection returned by [get_relevant_memories] *)
(* ================================================================== *)

Section SelectionShape.
Import MemoryCore RelevanceEngine.

(** The selection, in terms of the analysis the call works with. *)
Lemma get_relevant_memories_returns cache0 memory job max_skills max_styles scored :
  let a := fst (analyze_job_requirements cache0 job) in
  score_skills (skills memory) a = Returns scored ->
  get_relevant_memories cache0 memory job max_skills max_styles
  = (Returns {|
       Selection.relevant_skills :=
         map fst (slice_to max_skills (sort_desc snd scored));
       Selection.skill_scores :=
         fold_left (fun d sk => dict_set (skill_name (fst sk)) (snd sk) d)
                   (slice_to max_skills (sort_desc snd scored)) [];
       Selection.relevant_styles :=
         map (fun '(category, items) =>
                (category, map fst (slice_to max_styles (sort_desc snd items))))
             (collect_styles (style_preferences memory) a);
       Selection.temporal_events := get_current_temporal_events memory;
       Selection.job_analysis := a
     |}, snd (analyze_job_requirements cache0 job)).
Proof.
  intros a Hs. unfold get_relevant_memories.
  subst a. destruct (analyze_job_requirements cache0 job) as [a c1]. simpl in *.
  unfold get_current_skills, get_style_preferences. rewrite Hs. reflexivity.
Qed.

Lemma get_relevant_memories_inv cache0 memory job max_skills max_styles sel cache1 :
  get_relevant_memories cache0 memory job max_skills max_styles
  = (Returns sel, cache1) ->
  exists scored,
    score_skills (skills memory) (fst (analyze_job_requirements cache0 job))
    = Returns scored.
Proof.
  unfold get_relevant_memories.
  destruct (analyze_job_requirements cache0 job) as [a c1]. simpl.
  unfold get_current_skills.
  destruct (score_skills (skills memory) a) as [scored | e]; simpl.
  - intros _. now exists scored.
  - discriminate.
Qed.

End SelectionShape.


(* ================================================================== *)
(** ** Temporal events in the selection *)
(* ================================================================== *)

Section SelectedEvents.
Import MemoryCore RelevanceEngine Samples.

(** No score is consulted for the events: the selection carries what
    [get_current_temporal_events] returns, the stored events whose status is
    "current" or "upcoming". *)
Lemma selected_events_are_current_or_upcoming
      cache0 memory job max_skills max_styles sel cache1 :
  get_relevant_memories cache0 memory job max_skills max_styles
  = (Returns sel, cache1) ->
  Selection.temporal_events sel
  = filter (fun event => mem (status event) ["current"; "upcoming"])
           (temporal_events memory).
Proof.
  intros H. destruct (get_relevant_memories_inv _ _ _ _ _ _ _ H) as [scored Hs].
  rewrite (get_relevant_memories_returns _ _ _ max_skills max_styles _ Hs) in H.
  inversion H; subst. reflexivity.
Qed.

(** C2, at the failing input: a store with one event in each status is
    asked for the memories relevant to a job; the stored events
    "starting_soon" and "recently_completed" are not in the selection, which
    holds the "upcoming" and the "current" event only. *)
Theorem selection_omits_starting_soon_and_recently_completed :
  exists sel cache1,
    get_relevant_memories [] five_events "Network engineer" 15 5
    = (Returns sel, cache1)
    /\ map status (temporal_events five_events)
       = ["upcoming"; "starting_soon"; "current"; "recently_completed"; "completed"]
    /\ map status (Selection.temporal_events sel) = ["upcoming"; "current"]
    /\ ~ In "starting_soon" (map status (Selection.temporal_events sel))
    /\ ~ In "recently_completed" (map status (Selection.temporal_events sel)).
Proof.
  eexists. eexists. split; [vm_compute; reflexivity |].
  simpl. repeat split; try reflexivity.
  - intros [H | [H | []]]; discriminate.
  - intros [H | [H | []]]; discriminate.
Qed.

End SelectedEvents.


(* ================================================================== *)
(** ** Style preferences *)
(* ================================================================== *)

Section StyleScores.
Import MemoryCore RelevanceEngine Samples.
Local Open Scope Q_scope.

Lemma score_style_relevance_values style_data job_analysis :
  score_style_relevance style_data job_analysis = 0.7
  \/ score_style_relevance style_data job_analysis = 0.9.
Proof.
  unfold score_style_relevance.
  destruct (any _ ["communicate"; "present"; "write"; "document"]%string);
    [| now left].
  destruct (any _ ["tone"; "communication"; "writing"]%string);
    [now right | now left].
Qed.

Lemma score_style_relevance_above_floor style_data job_analysis :
  qlt 0.5 (score_style_relevance style_data job_analysis) = true.
Proof.
  destruct (score_style_relevance_values style_data job_analysis) as [-> | ->];
    reflexivity.
Qed.

Lemma score_styles_keeps_all prefs job_analysis :
  score_styles prefs job_analysis
  = map (fun pref => (pref, score_style_relevance pref job_analysis)) prefs.
Proof.
  unfold score_styles. induction prefs as [| p prefs IH]; simpl; [reflexivity |].
  rewrite score_style_relevance_above_floor. now rewrite IH.
Qed.

(** Appending the items of one category whose key is new to the dictionary. *)
Lemma dict_append_all_new {V : Type} (category : string) (items : list V) :
  forall d : dict (list V),
    ~ In category (keys d) ->
    fold_left (fun d item => dict_append category item d) items d
    = match items with
      | [] => d
      | _ :: _ => d ++ [(category, items)]
      end.
Proof.
  assert (Hgrow : forall (more l : list V) (d : dict (list V)),
             ~ In category (keys d) ->
             fold_left (fun d item => dict_append category item d) more
                       (d ++ [(category, l)])
             = d ++ [(category, l ++ more)]).
  { induction more as [| x more IH]; intros l d Hn; simpl.
    - now rewrite app_nil_r.
    - unfold dict_append at 2.
      assert (Hget : dict_get category (d ++ [(category, l)]) = Some l).
      { clear -Hn. induction d as [| [k v] d IHd]; simpl.
        - now rewrite String.eqb_refl.
        - simpl in Hn. destruct (String.eqb_spec k category); [tauto |].
          apply IHd. tauto. }
      rewrite Hget.
      assert (Hset : dict_set category (l ++ [x]) (d ++ [(category, l)])
                     = d ++ [(category, l ++ [x])]).
      { clear -Hn. induction d as [| [k v] d IHd]; simpl.
        - now rewrite String.eqb_refl.
        - simpl in Hn. destruct (String.eqb_spec k category); [tauto |].
          f_equal. apply IHd. tauto. }
      rewrite Hset, IH by assumption. now rewrite <- app_assoc. }
  intros d Hn. destruct items as [| x items]; simpl; [reflexivity |].
  unfold dict_append at 2. rewrite dict_get_not_in_keys by assumption.
  assert (Hset : dict_set category [x] d = d ++ [(category, [x])]).
  { clear -Hn. induction d as [| [k v] d IHd]; simpl; [reflexivity |].
    simpl in Hn. destruct (String.eqb_spec k category); [tauto |].
    f_equal. apply IHd. tauto. }
  rewrite Hset. now rewrite Hgrow.
Qed.

Lemma collect_styles_unique style_prefs job_analysis :
  NoDup (keys style_prefs) ->
  collect_styles style_prefs job_analysis
  = filter non_empty
           (map (fun '(category, prefs) =>
                   (category, score_styles prefs job_analysis))
                style_prefs).
Proof.
  unfold collect_styles.
  assert (Hgen : forall (sp : dict (list StyleMemory)) acc,
             NoDup (keys sp) ->
             (forall k, In k (keys sp) -> ~ In k (keys acc)) ->
             fold_left
               (fun relevant_styles '(category, prefs) =>
                  fold_left (fun relevant_styles item =>
                               dict_append category item relevant_styles)
                            (score_styles prefs job_analysis) relevant_styles)
               sp acc
             = acc ++ filter non_empty
                        (map (fun '(category, prefs) =>
                                (category, score_styles prefs job_analysis)) sp)).
  { induction sp as [| [c prefs] sp IH]; intros acc Hnd Hdis; simpl.
    - now rewrite app_nil_r.
    - inversion Hnd as [| ? ? Hnotin Hnd']; subst.
      rewrite dict_append_all_new by (apply Hdis; simpl; auto).
      unfold non_empty at 1. simpl.
      destruct (score_styles prefs job_analysis) as [| it its] eqn:E.
      + apply IH; [assumption |]. intros k Hk. apply Hdis. simpl. auto.
      + rewrite IH; [now rewrite <- app_assoc | assumption |].
        intros k Hk. unfold keys. rewrite map_app, in_app_iff. simpl.
        intros [Hin | [<- | []]]; [| contradiction].
        apply (Hdis k); simpl; auto. }
  intros Hnd. rewrite Hgen; auto.
Qed.

Lemma insert_desc_map {A : Type} (f : A -> Q) (x : A) (l : list A) :
  insert_desc snd (x, f x) (map (fun p => (p, f p)) l)
  = map (fun p => (p, f p)) (insert_desc f x l).
Proof.
  induction l as [| y l IH]; simpl; [reflexivity |].
  destruct (Qle_bool (f y) (f x)); simpl; [reflexivity | now rewrite IH].
Qed.

Lemma sort_desc_map {A : Type} (f : A -> Q) (l : list A) :
  sort_desc snd (map (fun p => (p, f p)) l)
  = map (fun p => (p, f p)) (sort_desc f l).
Proof.
  induction l as [| x l IH]; simpl; [reflexivity |].
  unfold sort_desc in *. simpl. rewrite IH. apply insert_desc_map.
Qed.

Lemma slice_to_map {A B : Type} (g : A -> B) (n : Z) (l : list A) :
  slice_to n (map g l) = map g (slice_to n l).
Proof.
  unfold slice_to. rewrite length_map.
  destruct (0 <=? n)%Z; now rewrite firstn_map.
Qed.

Lemma map_fst_scored {A : Type} (f : A -> Q) (l : list A) :
  map fst (map (fun p => (p, f p)) l) = l.
Proof.
  induction l as [| x l IH]; simpl; [reflexivity | now rewrite IH].
Qed.

(** The styles of the selection, category by category. *)
Lemma selected_styles_by_category job_analysis max_styles
      (style_prefs : dict (list StyleMemory)) :
  map (fun '(category, items) =>
         (category, map fst (slice_to max_styles (sort_desc snd items))))
      (filter non_empty
              (map (fun '(category, prefs) =>
                      (category, score_styles prefs job_analysis)) style_prefs))
  = map (fun '(category, prefs) =>
           (category,
            slice_to max_styles
              (sort_desc (fun pref => score_style_relevance pref job_analysis)
                         prefs)))
        (filter non_empty style_prefs).
Proof.
  induction style_prefs as [| [c prefs] sp IH]; [reflexivity |].
  cbn [map filter]. rewrite score_styles_keeps_all.
  assert (E : non_empty
                (c, map (fun pref =>
                           (pref, score_style_relevance pref job_analysis)) prefs)
              = non_empty (c, prefs))
    by (destruct prefs; reflexivity).
  rewrite E. destruct (non_empty (c, prefs)); [| exact IH].
  cbn [map]. rewrite IH. f_equal. f_equal.
  now rewrite sort_desc_map, slice_to_map, map_fst_scored.
Qed.

(** C10: the style score is exactly 0.7 or exactly 0.9; hence it exceeds
    the floor of 0.5, the floor removes no preference from the scored list
    of its category, and in the selection every stored category that has a
    preference carries all of them, ordered by score and cut to
    [max_styles] only. *)
Theorem style_score_is_07_or_09 :
  (forall (style_data : StyleMemory) (job_analysis : JobAnalysis.t),
      score_style_relevance style_data job_analysis = 0.7
      \/ score_style_relevance style_data job_analysis = 0.9)
  /\ (forall (style_data : StyleMemory) (job_analysis : JobAnalysis.t),
         qlt 0.5 (score_style_relevance style_data job_analysis) = true)
  /\ (forall (prefs : list StyleMemory) (job_analysis : JobAnalysis.t),
         map fst (score_styles prefs job_analysis) = prefs)
  /\ (forall cache0 memory job max_skills max_styles sel cache1,
         get_relevant_memories cache0 memory job max_skills max_styles
         = (Returns sel, cache1) ->
         NoDup (keys (style_preferences memory)) ->
         Selection.relevant_styles sel
         = map (fun '(category, prefs) =>
                  (category,
                   slice_to max_styles
                     (sort_desc (fun pref =>
                                   score_style_relevance pref
                                     (Selection.job_analysis sel)) prefs)))
               (filter non_empty (style_preferences memory))).
Proof.
  split; [exact score_style_relevance_values |].
  split; [exact score_style_relevance_above_floor |].
  split.
  - intros prefs a. rewrite score_styles_keeps_all. apply map_fst_scored.
  - intros cache0 memory job max_skills max_styles sel cache1 H Hnd.
    destruct (get_relevant_memories_inv _ _ _ _ _ _ _ H) as [scored Hs].
    rewrite (get_relevant_memories_returns _ _ _ max_skills max_styles _ Hs) in H.
    inversion H; subst; clear H. simpl.
    rewrite collect_styles_unique by assumption.
    apply selected_styles_by_category.
Qed.

End StyleScores.


(* ================================================================== *)
(** ** Strings and rationals *)
(* ================================================================== *)

Section StringFacts.
Import Notions.

Lemma prefix_spec (a b : string) :
  String.prefix a b = true <-> exists rest, b = (a ++ rest)%string.
Proof.
  revert b. induction a as [| c a IH]; intros b; simpl.
  - split; [intros _; now exists b | intros _; destruct b; reflexivity].
  - destruct b as [| x b].
    + split; [discriminate | intros [rest H]; discriminate].
    + simpl. destruct (ascii_dec c x) as [-> | Hne].
      * rewrite IH. split; intros [rest H]; exists rest.
        -- now rewrite H.
        -- now inversion H.
      * split; [discriminate |]. intros [rest H]. inversion H. congruence.
Qed.

(** The [in] operator between strings is the substring relation. *)
Lemma contains_spec (a b : string) :
  contains a b = true <-> Substring a b.
Proof.
  unfold Substring. induction b as [| x b IH]; cbn [contains].
  - rewrite orb_false_r, prefix_spec. split.
    + intros [rest H]. exists EmptyString, rest. exact H.
    + intros ([| y before] & after & H); simpl in H; [now exists after | discriminate].
  - rewrite orb_true_iff, prefix_spec, IH. split.
    + intros [[rest H] | (before & after & H)].
      * exists EmptyString, rest. exact H.
      * exists (String x before), after. simpl. now rewrite H.
    + intros ([| y before] & after & H); simpl in H.
      * left. now exists after.
      * right. inversion H. now exists before, after.
Qed.

Lemma contains_false (a b : string) :
  contains a b = false <-> ~ Substring a b.
Proof.
  rewrite <- contains_spec. destruct (contains a b); split; congruence.
Qed.

Lemma qlt_spec (a b : Q) : qlt a b = true <-> (a < b)%Q.
Proof.
  unfold qlt. rewrite negb_true_iff. split.
  - intros H. apply Qnot_le_lt. intros Hle.
    apply Qle_bool_iff in Hle. congruence.
  - intros H. destruct (Qle_bool b a) eqn:E; [| reflexivity].
    apply Qle_bool_iff in E. exfalso. now apply (Qlt_not_le a b).
Qed.

Lemma qlt_false (a b : Q) : qlt a b = false <-> (b <= a)%Q.
Proof.
  unfold qlt. rewrite negb_false_iff. apply Qle_bool_iff.
Qed.

Lemma py_min_spec (a b : Q) :
  (py_min a b <= a)%Q /\ (py_min a b <= b)%Q
  /\ (py_min a b = a \/ py_min a b = b).
Proof.
  unfold py_min. destruct (qlt b a) eqn:E.
  - apply qlt_spec in E. repeat split; auto; lra.
  - apply qlt_false in E. repeat split; auto; lra.
Qed.

Lemma py_max_spec (a b : Q) :
  (a <= py_max a b)%Q /\ (b <= py_max a b)%Q
  /\ (py_max a b = a \/ py_max a b = b).
Proof.
  unfold py_max. destruct (qlt a b) eqn:E.
  - apply qlt_spec in E. repeat split; auto; lra.
  - apply qlt_false in E. repeat split; auto; lra.
Qed.

End StringFacts.


(* ================================================================== *)
(** ** Semantic similarity *)
(* ================================================================== *)

Section Similarity.
Import SemanticMatcher Notions.
Local Open Scope Q_scope.

Lemma jaccard_no_overlap (A B : list string) :
  filter (fun t => mem t B) A = [] -> qlt 0.3 (jaccard A B) = false.
Proof.
  intros H. unfold jaccard. rewrite H. simpl List.length.
  apply qlt_false.
  destruct (0 <? List.length (distinct (A ++ B)))%nat; [| lra].
  unfold Qdiv. change (inject_Z (Z.of_nat 0)) with 0. lra.
Qed.

Lemma filter_mem_nil (A : list string) : filter (fun t => mem t []) A = [].
Proof. induction A; simpl; auto. Qed.

(** The last layer: the guard on empty token sets changes nothing, an empty
    set having no overlap with any other. *)
Lemma token_layer (A B : list string) :
  match A, B with
  | _ :: _, _ :: _ =>
      let overlap := List.length (filter (fun t => mem t B) A) in
      let union := List.length (distinct (A ++ B)) in
      let jaccard_similarity :=
        if (0 <? union)%nat
        then inject_Z (Z.of_nat overlap) / inject_Z (Z.of_nat union)
        else 0 in
      if qlt 0.3 jaccard_similarity then jaccard_similarity * 0.6 else 0.0
  | _, _ => 0.0
  end
  = if qlt 0.3 (jaccard A B) then jaccard A B * 0.6 else 0.0.
Proof.
  destruct A as [| a A].
  - now rewrite jaccard_no_overlap.
  - destruct B as [| b B].
    + now rewrite jaccard_no_overlap by apply filter_mem_nil.
    + reflexivity.
Qed.

Lemma same_cluster_spec (a b : string) :
  match _find_cluster a, _find_cluster b with
  | Some x, Some y => String.eqb x y
  | _, _ => false
  end = true <-> same_cluster a b.
Proof.
  unfold same_cluster.
  destruct (_find_cluster a) as [x |], (_find_cluster b) as [y |].
  - rewrite String.eqb_eq. split.
    + intros ->. now exists y.
    + intros (c & H1 & H2). congruence.
  - split; [discriminate | intros (c & _ & H); discriminate].
  - split; [discriminate | intros (c & H & _); discriminate].
  - split; [discriminate | intros (c & H & _); discriminate].
Qed.

(** C5: with [s] and [r] the two terms lower-cased and stripped, the
    similarity is 1.0 if [s = r]; else 0.95 if the synonym table normalizes
    them to the same term; else 0.8 if one occurs in the other; else 0.7 if
    both are mapped to the same cluster; else the Jaccard similarity of
    their token sets times 0.6 if that similarity exceeds 0.3; else 0.0. *)
Theorem semantic_similarity_layers :
  forall skill requirement : string,
    let s := strip (lower skill) in
    let r := strip (lower requirement) in
    let sim := calculate_semantic_similarity skill requirement in
    let J := jaccard (tokens s) (tokens r) in
    (s = r -> sim = 1.0)
    /\ (s <> r -> normalized s = normalized r -> sim = 0.95)
    /\ (s <> r -> normalized s <> normalized r ->
        Substring s r \/ Substring r s -> sim = 0.8)
    /\ (s <> r -> normalized s <> normalized r ->
        ~ (Substring s r \/ Substring r s) ->
        same_cluster s r -> sim = 0.7)
    /\ (s <> r -> normalized s <> normalized r ->
        ~ (Substring s r \/ Substring r s) ->
        ~ same_cluster s r ->
        0.3 < J -> sim = J * 0.6)
    /\ (s <> r -> normalized s <> normalized r ->
        ~ (Substring s r \/ Substring r s) ->
        ~ same_cluster s r ->
        ~ 0.3 < J -> sim = 0.0).
Proof.
  intros skill requirement s r sim J.
  unfold sim, calculate_semantic_similarity. fold s. fold r.
  rewrite token_layer. fold J.
  destruct (String.eqb_spec s r) as [Hsr | Hsr].
  { repeat split; intros; congruence. }
  destruct (String.eqb_spec (normalized s) (normalized r)) as [Hn | Hn].
  { repeat split; intros; congruence. }
  destruct (contains s r || contains r s) eqn:Hsub.
  { assert (Substring s r \/ Substring r s)
      by (apply orb_true_iff in Hsub; rewrite <- !contains_spec; exact Hsub).
    repeat split; intros; tauto || congruence. }
  assert (Hns : ~ (Substring s r \/ Substring r s)).
  { apply orb_false_iff in Hsub. rewrite <- !contains_spec.
    destruct Hsub as [-> ->]. intros [H | H]; discriminate. }
  destruct (match _find_cluster s, _find_cluster r with
            | Some a, Some b => String.eqb a b
            | _, _ => false
            end) eqn:Hc.
  { apply same_cluster_spec in Hc. repeat split; intros; tauto || congruence. }
  assert (Hnc : ~ same_cluster s r).
  { rewrite <- same_cluster_spec. congruence. }
  destruct (qlt 0.3 J) eqn:HJ.
  - apply qlt_spec in HJ. repeat split; intros; tauto || congruence.
  - apply qlt_false in HJ.
    repeat split; intros; try tauto; try congruence.
    exfalso. apply (Qlt_not_le 0.3 J); assumption.
Qed.

(** One pair of terms for each layer. *)
Lemma semantic_similarity_layers_witness :
  calculate_semantic_similarity "MySQL" " mysql " = 1.0
  /\ calculate_semantic_similarity "sysadmin" "Sys Admin" = 0.95
  /\ calculate_semantic_similarity "sql" "MySQL database" = 0.8
  /\ calculate_semantic_similarity "oracle" "dba" = 0.7
  /\ calculate_semantic_similarity "python scripting" "python programming"
     = jaccard ["python"; "scripting"] ["python"; "programming"] * 0.6
  /\ calculate_semantic_similarity "go" "rust" = 0.0.
Proof.
  split; [| split; [| split; [| split; [| split]]]].
  - apply (semantic_similarity_layers "MySQL" " mysql "). reflexivity.
  - apply (semantic_similarity_layers "sysadmin" "Sys Admin").
    + discriminate.
    + reflexivity.
  - apply (semantic_similarity_layers "sql" "MySQL database").
    + discriminate.
    + discriminate.
    + left. apply contains_spec. reflexivity.
  - apply (semantic_similarity_layers "oracle" "dba").
    + discriminate.
    + discriminate.
    + rewrite <- !contains_spec. intros [H | H]; vm_compute in H; discriminate.
    + exists "database_management"%string. split; reflexivity.
  - apply (semantic_similarity_layers "python scripting" "python programming").
    + discriminate.
    + discriminate.
    + rewrite <- !contains_spec. intros [H | H]; vm_compute in H; discriminate.
    + rewrite <- same_cluster_spec. vm_compute. discriminate.
    + reflexivity.
  - apply (semantic_similarity_layers "go" "rust").
    + discriminate.
    + discriminate.
    + rewrite <- !contains_spec. intros [H | H]; vm_compute in H; discriminate.
    + rewrite <- same_cluster_spec. vm_compute. discriminate.
    + discriminate.
Defined.

End Similarity.


(* ================================================================== *)
(** ** The analyses built by the simple engine *)
(* ================================================================== *)

Section Profiles.
Import MemoryCore RelevanceEngine Notions.
Local Open Scope Q_scope.

Lemma analyze_domains_entries table0 table text w : forall scores,
  (forall k, In k (keys table) -> In k (keys table0)) ->
  Forall (scored_domain table0) scores ->
  Forall (scored_domain table0) (analyze_domains table text w scores).
Proof.
  unfold analyze_domains.
  induction table as [| [domain kws] table IH]; intros scores Hsub Hs; simpl.
  - assumption.
  - apply IH.
    + intros k Hk. apply Hsub. simpl. auto.
    + destruct (qlt 0 (domain_score kws text w)) eqn:E; [| assumption].
      apply dict_set_entries; [| assumption].
      split; [apply Hsub; simpl; auto | now apply qlt_spec].
Qed.

Lemma build_analysis_ok job : profile_ok (build_analysis job).
Proof.
  unfold profile_ok, build_analysis.
  cbn [JobAnalysis.tech_domains JobAnalysis.business_domains].
  unfold analyze_role_and_domains.
  set (t := lower job).
  assert (Ht : forall w scores,
             Forall (scored_domain tech_domains) scores ->
             Forall (scored_domain tech_domains)
                    (analyze_domains tech_domains t w scores))
    by (intros; apply analyze_domains_entries; auto).
  assert (Hb : forall w scores,
             Forall (scored_domain business_domains) scores ->
             Forall (scored_domain business_domains)
                    (analyze_domains business_domains t w scores))
    by (intros; apply analyze_domains_entries; auto).
  destruct (mem (_classify_job_role t) _);
    [| destruct (String.eqb (_classify_job_role t) "technical_it");
       [| destruct (_score_technical_content t <? _score_business_content t)%nat]];
    unfold _analyze_business_requirements, _analyze_technical_requirements,
           with_role, initial_analysis;
    cbn [JobAnalysis.tech_domains JobAnalysis.business_domains];
    split; try apply Ht; try apply Hb; constructor.
Qed.

(** The analysis a call works with, and the cache it leaves. *)
Lemma analyze_job_requirements_built cache0 job :
  cache_built cache0 ->
  (exists job', cache_key job' = cache_key job
                /\ fst (analyze_job_requirements cache0 job) = build_analysis job')
  /\ cache_built (snd (analyze_job_requirements cache0 job)).
Proof.
  intros Hc. unfold analyze_job_requirements.
  destruct (dict_get (cache_key job) cache0) as [a |] eqn:E; simpl.
  - split; [| assumption].
    destruct (Hc _ _ E) as (job' & Hk & ->). now exists job'.
  - split; [now exists job |].
    intros key a Hget.
    destruct (string_dec key (cache_key job)) as [-> | Hne].
    + rewrite dict_get_set_same in Hget. inversion Hget. now exists job.
    + rewrite dict_get_set_other in Hget by assumption. now apply Hc.
Qed.

Lemma analyze_job_requirements_ok cache0 job :
  cache_built cache0 -> profile_ok (fst (analyze_job_requirements cache0 job)).
Proof.
  intros Hc.
  destruct (analyze_job_requirements_built cache0 job Hc) as [(job' & _ & ->) _].
  apply build_analysis_ok.
Qed.

(** *** Bounds on the score of a skill *)

Lemma domain_weight_nonneg (domain_score : Q) :
  0 < domain_score -> 0 <= py_min (domain_score / 10.0) 0.8.
Proof.
  intros H.
  assert (0 <= domain_score / 10.0).
  { unfold Qdiv. apply Qmult_le_0_compat; [lra |]. apply Qinv_le_0_compat. lra. }
  destruct (py_min_spec (domain_score / 10.0) 0.8) as (_ & _ & [E | E]);
    rewrite E; lra.
Qed.

Lemma keyword_loop_grows (kws : list string) (n c : string) (w : Q) :
  0 <= w ->
  forall score,
    score <= fold_left
               (fun score keyword =>
                  if contains keyword n || contains keyword c
                  then score + w else score)
               kws score.
Proof.
  intros Hw. induction kws as [| kw kws IH]; intros score; simpl; [lra |].
  destruct (contains kw n || contains kw c).
  - specialize (IH (score + w)). lra.
  - apply IH.
Qed.

Lemma score_domains_returns table scores n c : forall score,
  Forall (scored_domain table) scores ->
  exists q, score_domains table scores n c score = Returns q /\ score <= q.
Proof.
  induction scores as [| [domain ds] scores IH]; intros score Hs; simpl.
  - exists score. split; [reflexivity | lra].
  - inversion Hs as [| ? ? [Hin Hpos] Hs']; subst. simpl in Hin, Hpos.
    destruct (in_keys_dict_get _ _ Hin) as [kws ->].
    destruct (IH (fold_left
                    (fun score keyword =>
                       if contains keyword n || contains keyword c
                       then score + py_min (ds / 10.0) 0.8 else score)
                    kws score) Hs') as (q & Hq & Hle).
    exists q. split; [exact Hq |].
    pose proof (keyword_loop_grows kws n c _ (domain_weight_nonneg ds Hpos) score).
    lra.
Qed.

Lemma _score_business_skill_returns n c a :
  profile_ok a ->
  exists q, _score_business_skill n c a = Returns q /\ 0 <= q.
Proof.
  intros [_ Hb]. unfold _score_business_skill.
  destruct (score_domains_returns business_domains
              (JobAnalysis.business_domains a) n c 0.0 Hb) as (q & -> & Hq).
  simpl. destruct (_ && _).
  - eexists. split; [reflexivity |].
    destruct (py_max_spec (q - 0.6) 0.1) as (_ & H & _). lra.
  - exists q. split; [reflexivity | lra].
Qed.

Lemma _score_technical_skill_returns n c a :
  profile_ok a ->
  exists q, _score_technical_skill n c a = Returns q /\ 0 <= q.
Proof.
  intros [Ht _]. unfold _score_technical_skill.
  destruct (score_domains_returns tech_domains
              (JobAnalysis.tech_domains a) n c 0.0 Ht) as (q & -> & Hq).
  simpl. destruct (String.eqb _ _).
  - eexists. split; [reflexivity |]. cbv zeta.
    repeat match goal with
           | |- context [if ?b then _ else _] => destruct b
           end; lra.
  - exists q. split; [reflexivity | lra].
Qed.

Lemma direct_matches_grows terms n c gain : 0 <= gain ->
  forall score, score <= direct_matches terms n c gain score.
Proof.
  intros Hg. unfold direct_matches.
  induction terms as [| t terms IH]; intros score; simpl; [lra |].
  destruct (contains t n || contains t c).
  - specialize (IH (score + gain)). lra.
  - apply IH.
Qed.

(** The score of a skill against an analysis of the analyzer: scoring
    returns, and returns a value between 0 and 1. *)
Lemma score_skill_relevance_bounds skill_data a :
  profile_ok a ->
  exists q, score_skill_relevance skill_data a = Returns q /\ 0 <= q <= 1.
Proof.
  intros Hok. unfold score_skill_relevance.
  cbv zeta.
  set (n := lower (skill_name skill_data)).
  set (c := lower (context skill_data)).
  set (s0 := direct_matches (JobAnalysis.preferred_skills a) n c 0.5
               (direct_matches (JobAnalysis.required_skills a) n c 0.8 0.0)).
  assert (H0 : 0 <= s0).
  { pose proof (direct_matches_grows (JobAnalysis.required_skills a) n c 0.8
                  ltac:(lra) 0.0).
    pose proof (direct_matches_grows (JobAnalysis.preferred_skills a) n c 0.5
                  ltac:(lra)
                  (direct_matches (JobAnalysis.required_skills a) n c 0.8 0.0)).
    unfold s0. lra. }
  destruct (_score_business_skill_returns n c a Hok) as (b & Hb & Hb0).
  destruct (_score_technical_skill_returns n c a Hok) as (t & Ht & Ht0).
  assert (Hfin : forall total, 0 <= total ->
             exists q, Returns (py_min total 1.0) = Returns q /\ 0 <= q <= 1).
  { intros total Htot. eexists. split; [reflexivity |].
    destruct (py_min_spec total 1.0) as (_ & Hle & [E | E]);
      rewrite E in *; lra. }
  destruct (String.eqb (JobAnalysis.primary_focus a) "business").
  { rewrite Hb. cbn [bind]. apply Hfin. lra. }
  destruct (String.eqb (JobAnalysis.primary_focus a) "technical").
  { rewrite Ht. cbn [bind]. apply Hfin. lra. }
  rewrite Hb. cbn [bind]. rewrite Ht. cbn [bind]. apply Hfin.
  assert (0 <= b * 0.6) by (apply Qmult_le_0_compat; lra).
  assert (0 <= t * 0.6) by (apply Qmult_le_0_compat; lra).
  lra.
Qed.

Lemma score_of_returns skill_data a :
  profile_ok a ->
  score_skill_relevance skill_data a = Returns (score_of a skill_data).
Proof.
  intros Hok. unfold score_of.
  destruct (score_skill_relevance_bounds skill_data a Hok) as (q & -> & _).
  reflexivity.
Qed.

(** The first loop of [get_relevant_memories]: the qualifying skills with
    their scores, in store order. *)
Lemma score_skills_returns (skills : dict SkillMemory) a :
  profile_ok a ->
  score_skills skills a
  = Returns (map (fun s => (s, score_of a s)) (qualifying a skills)).
Proof.
  intros Hok. unfold qualifying.
  induction skills as [| [k s] skills IH]; simpl; [reflexivity |].
  rewrite (score_of_returns s a Hok). simpl. rewrite IH. simpl.
  destruct (qlt 0.1 (score_of a s)); reflexivity.
Qed.

End Profiles.


(* ================================================================== *)
(** ** Sorting by descending score *)
(* ================================================================== *)

Section SortFacts.
Context {A : Type} (key : A -> Q).
Local Open Scope Q_scope.

Lemma insert_desc_perm x l : Permutation (insert_desc key x l) (x :: l).
Proof.
  induction l as [| y l IH]; simpl; [reflexivity |].
  destruct (Qle_bool (key y) (key x)); [reflexivity |].
  rewrite IH. apply perm_swap.
Qed.

Lemma sort_desc_perm l : Permutation (sort_desc key l) l.
Proof.
  induction l as [| x l IH]; simpl; [reflexivity |].
  unfold sort_desc in *. simpl. rewrite insert_desc_perm. now constructor.
Qed.

Lemma insert_desc_sorted x l :
  StronglySorted (fun a b => key b <= key a) l ->
  StronglySorted (fun a b => key b <= key a) (insert_desc key x l).
Proof.
  intros Hs. induction Hs as [| y l Hs IH Hy]; simpl.
  - repeat constructor.
  - destruct (Qle_bool (key y) (key x)) eqn:E.
    + apply Qle_bool_iff in E. constructor.
      * now constructor.
      * constructor; [assumption |].
        rewrite Forall_forall in *. intros z Hz. specialize (Hy z Hz). lra.
    + assert (Hlt : key x <= key y).
      { destruct (Qlt_le_dec (key x) (key y)) as [H | H]; [lra |].
        apply Qle_bool_iff in H. congruence. }
      constructor; [assumption |].
      rewrite Forall_forall in *. intros z Hz.
      apply (Permutation_in _ (insert_desc_perm x l)) in Hz.
      destruct Hz as [<- | Hz]; auto.
Qed.

Lemma sort_desc_sorted l :
  StronglySorted (fun a b => key b <= key a) (sort_desc key l).
Proof.
  induction l as [| x l IH]; simpl; [constructor |].
  unfold sort_desc in *. simpl. now apply insert_desc_sorted.
Qed.

Lemma in_firstn (n : nat) (l : list A) (x : A) : In x (firstn n l) -> In x l.
Proof.
  intros H. rewrite <- (firstn_skipn n l). apply in_or_app. now left.
Qed.

(** A prefix of a list in descending order is in descending order, and
    whatever is cut off scores no more than anything kept. *)
Lemma firstn_sorted n l :
  StronglySorted (fun a b => key b <= key a) l ->
  StronglySorted (fun a b => key b <= key a) (firstn n l)
  /\ forall x y, In x (firstn n l) -> In y (skipn n l) -> key y <= key x.
Proof.
  intros Hs. revert n. induction Hs as [| z l Hs IH Hz]; intros n.
  - rewrite firstn_nil, skipn_nil. split; [constructor | intros ? ? []].
  - destruct n as [| n]; simpl.
    + split; [constructor | intros ? ? []].
    + destruct (IH n) as [IH1 IH2]. split.
      * constructor; [assumption |].
        rewrite Forall_forall in *. intros w Hw. apply Hz.
        eapply in_firstn; eauto.
      * intros x y [<- | Hx] Hy.
        -- rewrite Forall_forall in Hz. apply Hz.
           rewrite <- (firstn_skipn n l). apply in_or_app. now right.
        -- now apply IH2.
Qed.

End SortFacts.


(* ================================================================== *)
(** ** The skills of the selection *)
(* ================================================================== *)

Section SelectedSkills.
Import MemoryCore RelevanceEngine Samples Notions.
Local Open Scope Q_scope.

(** The skills of the selection for any bound [max_skills >= 0]: the
    qualifying skills by descending score, cut to the bound. *)
Lemma selected_skills cache0 memory job (max_skills : nat) max_styles :
  cache_built cache0 ->
  let a := fst (analyze_job_requirements cache0 job) in
  exists sel cache1,
    get_relevant_memories cache0 memory job (Z.of_nat max_skills) max_styles
    = (Returns sel, cache1)
    /\ Selection.job_analysis sel = a
    /\ Selection.relevant_skills sel
       = firstn max_skills (sort_desc (score_of a) (qualifying a (skills memory))).
Proof.
  intros Hc a.
  assert (Hok : profile_ok a) by now apply analyze_job_requirements_ok.
  pose proof (score_skills_returns (skills memory) a Hok) as Hs.
  eexists. eexists. split.
  - apply get_relevant_memories_returns. exact Hs.
  - split; [reflexivity |]. cbn [Selection.relevant_skills].
    rewrite sort_desc_map. unfold slice_to.
    assert (E : (0 <=? Z.of_nat max_skills)%Z = true) by (apply Z.leb_le; lia).
    rewrite E, Nat2Z.id, firstn_map. apply map_fst_scored.
Qed.

(** C1, as amended: a call with [max_skills = 3] against a store of 10
    skills of which exactly 4 score above the floor of 0.1 returns the 3
    highest-scoring of those 4, in descending order of score; the fourth,
    scoring no more than any of the three, is left out. *)
Theorem selection_truncates_to_max_skills :
  forall (cache0 : cache) (memory : MemoryData) (job : string) (max_styles : Z),
    cache_built cache0 ->
    let a := fst (analyze_job_requirements cache0 job) in
    let best := qualifying a (skills memory) in
    List.length (skills memory) = 10%nat ->
    List.length best = 4%nat ->
    exists sel cache1 left_out,
      get_relevant_memories cache0 memory job 3 max_styles = (Returns sel, cache1)
      /\ Selection.job_analysis sel = a
      /\ Selection.relevant_skills sel = firstn 3 (sort_desc (score_of a) best)
      /\ List.length (Selection.relevant_skills sel) = 3%nat
      /\ descending (score_of a) (Selection.relevant_skills sel)
      /\ Permutation (Selection.relevant_skills sel ++ [left_out]) best
      /\ (forall s, In s (Selection.relevant_skills sel) ->
                    0.1 < score_of a s /\ score_of a left_out <= score_of a s).
Proof.
  intros cache0 memory job max_styles Hc a best _ H4.
  destruct (selected_skills cache0 memory job 3 max_styles Hc)
    as (sel & cache1 & Hget & Ha & Hrel).
  fold a in Ha, Hrel. fold best in Hrel.
  set (sorted := sort_desc (score_of a) best) in *.
  assert (Hperm : Permutation sorted best) by apply sort_desc_perm.
  assert (Hlen : List.length sorted = 4%nat)
    by (rewrite (Permutation_length Hperm); exact H4).
  destruct (firstn_sorted (score_of a) 3 sorted (sort_desc_sorted _ _))
    as [Hsorted Hcut].
  destruct (skipn 3 sorted) as [| left_out rest] eqn:Hskip.
  { apply (f_equal (@List.length _)) in Hskip. rewrite length_skipn, Hlen in Hskip.
    discriminate. }
  assert (Hrest : rest = []).
  { apply (f_equal (@List.length _)) in Hskip. rewrite length_skipn, Hlen in Hskip.
    simpl in Hskip. destruct rest; [reflexivity | discriminate]. }
  subst rest.
  exists sel, cache1, left_out.
  split; [exact Hget |]. split; [exact Ha |]. split; [exact Hrel |].
  rewrite Hrel. split; [| split; [| split]].
  - rewrite length_firstn, Hlen. reflexivity.
  - exact Hsorted.
  - rewrite <- Hskip, firstn_skipn. exact Hperm.
  - intros s Hs. split.
    + assert (Hin : In s best).
      { apply (Permutation_in _ Hperm). eapply in_firstn; eauto. }
      unfold best, qualifying in Hin. apply filter_In in Hin.
      apply qlt_spec. apply Hin.
    + apply Hcut; [exact Hs | now left].
Qed.

(** The sample store and job: "Windows Server", "Network Administration"
    and "Linux" are returned, "Technical Support" is left out. *)
Lemma selection_truncates_to_max_skills_witness :
  exists sel cache1,
    get_relevant_memories [] ten_skills network_job 3 5 = (Returns sel, cache1)
    /\ List.length (Selection.relevant_skills sel) = 3%nat
    /\ descending (score_of (build_analysis network_job))
                  (Selection.relevant_skills sel).
Proof.
  destruct (selection_truncates_to_max_skills [] ten_skills network_job 5)
    as (sel & cache1 & left_out & Hget & _ & _ & Hlen & Hdesc & _).
  - intros key a H. discriminate.
  - vm_compute. reflexivity.
  - vm_compute. reflexivity.
  - exists sel, cache1. split; [exact Hget |]. split; [exact Hlen | exact Hdesc].
Defined.

(** C1 as stated fails: against the sample store of 10 skills, 4 of which
    score above 0.1 for the sample job, the call with [max_skills = 3]
    returns 3 skills, and the qualifying skill "Technical Support" is not
    among them. *)
Lemma selection_returns_three_of_four_qualifying :
  let a := build_analysis network_job in
  List.length (skills ten_skills) = 10%nat
  /\ map skill_name (qualifying a (skills ten_skills))
     = ["Technical Support"; "Network Administration"; "Linux"; "Windows Server"]%string
  /\ exists sel cache1,
       get_relevant_memories [] ten_skills network_job 3 5 = (Returns sel, cache1)
       /\ Selection.job_analysis sel = a
       /\ map skill_name (Selection.relevant_skills sel)
          = ["Windows Server"; "Network Administration"; "Linux"]%string
       /\ List.length (Selection.relevant_skills sel) <> 4%nat.
Proof.
  intros a. split; [vm_compute; reflexivity |].
  split; [vm_compute; reflexivity |].
  eexists. eexists. split; [vm_compute; reflexivity |].
  split; [vm_compute; reflexivity |].
  split; [vm_compute; reflexivity |].
  vm_compute. discriminate.
Qed.

(** The styles returned for the sample store: both categories that hold a
    preference, with every preference of theirs. *)
Lemma style_score_is_07_or_09_witness :
  exists sel cache1,
    get_relevant_memories [] styled_store communication_job 15 5
    = (Returns sel, cache1)
    /\ map (fun e => (fst e, map rule (snd e))) (Selection.relevant_styles sel)
       = [("avoid_phrases", ["passionate"]);
          ("tone_preferences", ["Keep a warm tone"; "Be brief"])]%string.
Proof.
  destruct (get_relevant_memories [] styled_store communication_job 15 5)
    as [[sel | e] cache1] eqn:E; [| vm_compute in E; discriminate].
  exists sel, cache1. split; [reflexivity |].
  destruct style_score_is_07_or_09 as (_ & _ & _ & H).
  rewrite (H _ _ _ _ _ _ _ E).
  - assert (Ea : Selection.job_analysis sel = build_analysis communication_job).
    { vm_compute in E. inversion E. reflexivity. }
    rewrite Ea. vm_compute. reflexivity.
  - vm_compute. repeat constructor; simpl; intuition discriminate.
Defined.

End SelectedSkills.


(* ================================================================== *)
(** ** The cache behind the decorator *)
(* ================================================================== *)

Section Memo.
Import Notions.
Context {K V : Type} (K_eq_dec : forall a b : K, {a = b} + {a <> b}).
Context (func : K -> V).

Lemma lookup_in {A : Type} (k : K) (l : list (K * A)) (a : A) :
  PerformanceCache.lookup K_eq_dec k l = Some a -> In (k, a) l.
Proof.
  induction l as [| [k' a'] l IH]; simpl; [discriminate |].
  destruct (K_eq_dec k' k) as [-> | Hne].
  - intros H. inversion H. now left.
  - intros H. right. now apply IH.
Qed.

Lemma remove_incl {A : Type} (k : K) (l : list (K * A)) (x : K * A) :
  In x (PerformanceCache.remove K_eq_dec k l) -> In x l.
Proof.
  induction l as [| [k' a'] l IH]; simpl; [intros [] |].
  destruct (K_eq_dec k' k); simpl.
  - intros H. right. exact H.
  - intros [H | H]; [left; exact H | right; exact (IH H)].
Qed.

Lemma assign_in {A : Type} (k : K) (a : A) (l : list (K * A)) (x : K * A) :
  In x (PerformanceCache.assign K_eq_dec k a l) -> x = (k, a) \/ In x l.
Proof.
  induction l as [| [k' a'] l IH]; simpl.
  - intros [<- | []]. now left.
  - destruct (K_eq_dec k' k) as [-> | Hne]; simpl.
    + intros [<- | H]; auto.
    + intros [<- | H]; auto. destruct (IH H); auto.
Qed.

Lemma get_sound key now c :
  memo_sound func c ->
  memo_sound func (snd (PerformanceCache.get K_eq_dec key now c))
  /\ forall v, fst (PerformanceCache.get K_eq_dec key now c) = Some v ->
               v = func key.
Proof.
  intros Hs. unfold PerformanceCache.get.
  destruct (PerformanceCache.lookup K_eq_dec key (PerformanceCache.cache c))
    as [e |] eqn:E.
  - destruct (PerformanceCache.expires_at e <? now)%Z; simpl.
    + split; [| discriminate].
      intros k e' Hin. simpl in Hin. apply remove_incl in Hin. now apply Hs.
    + split; [exact Hs |].
      intros v Hv. inversion Hv. apply Hs. now apply lookup_in.
  - simpl. split; [exact Hs | discriminate].
Qed.

Lemma _evict_lru_sound c :
  memo_sound func c -> memo_sound func (PerformanceCache._evict_lru K_eq_dec c).
Proof.
  intros Hs. unfold PerformanceCache._evict_lru.
  destruct (PerformanceCache.access_times c) as [| [k time] r]; [exact Hs |].
  intros k' e Hin. simpl in Hin. apply remove_incl in Hin. now apply Hs.
Qed.

Lemma set_sound key ttl now c :
  memo_sound func c ->
  memo_sound func (PerformanceCache.set K_eq_dec key (func key) ttl now c).
Proof.
  intros Hs. unfold PerformanceCache.set.
  set (c1 := if (PerformanceCache.max_size c
                 <=? List.length (PerformanceCache.cache c))%nat
             then match PerformanceCache.lookup K_eq_dec key
                          (PerformanceCache.cache c) with
                  | Some _ => c
                  | None => PerformanceCache._evict_lru K_eq_dec c
                  end
             else c).
  assert (Hs1 : memo_sound func c1).
  { unfold c1.
    destruct (PerformanceCache.max_size c
              <=? List.length (PerformanceCache.cache c))%nat; [| exact Hs].
    destruct (PerformanceCache.lookup K_eq_dec key (PerformanceCache.cache c));
      [exact Hs | now apply _evict_lru_sound]. }
  intros k e Hin. simpl in Hin. apply assign_in in Hin.
  destruct Hin as [Heq | Hin]; [| now apply Hs1].
  inversion Heq. reflexivity.
Qed.

(** On a cache whose entries hold values of [func], the decorated function
    returns what [func] returns, whatever the cache holds and whatever the
    clock reads, and it leaves such a cache. *)
Lemma performance_monitor_sound cache_ttl c now args :
  memo_sound func c ->
  fst (PerformanceCache.performance_monitor K_eq_dec func cache_ttl c now args)
  = func args
  /\ memo_sound func
       (snd (PerformanceCache.performance_monitor K_eq_dec func cache_ttl c now args)).
Proof.
  intros Hs. unfold PerformanceCache.performance_monitor.
  destruct (get_sound args now c Hs) as [Hs' Hv].
  destruct (PerformanceCache.get K_eq_dec args now c) as [[v |] c']; simpl in *.
  - split; [now apply Hv | exact Hs'].
  - split; [reflexivity | now apply set_sound].
Qed.

Lemma empty_sound size ttl : memo_sound func (PerformanceCache.empty size ttl).
Proof. intros k e []. Qed.

End Memo.


(* ================================================================== *)
(** ** The score of a skill *)
(* ================================================================== *)

Section SkillScores.
Import MemoryCore Samples Notions.
Local Open Scope Q_scope.

Lemma final_score_bounds skill_data job_analysis :
  0 <= SkillRelevanceScore.final_score
         (AdvancedRelevanceEngine.score_skill skill_data job_analysis) <= 1.
Proof.
  unfold AdvancedRelevanceEngine.score_skill.
  cbv zeta. cbn [SkillRelevanceScore.final_score].
  match goal with
  | |- 0 <= py_max 0.0 (py_min 1.0 ?x) <= 1 =>
      generalize x; intros total
  end.
  destruct (py_max_spec 0.0 (py_min 1.0 total)) as (Hlo & _ & [E | E]).
  - rewrite E. lra.
  - destruct (py_min_spec 1.0 total) as (Hhi & _ & _).
    rewrite E in *. lra.
Qed.

(** A repeated call of [analyze_job_requirements] returns the analysis of
    the first call and leaves the cache as it found it. *)
Lemma analyze_job_requirements_again cache0 job :
  let r := RelevanceEngine.analyze_job_requirements cache0 job in
  RelevanceEngine.analyze_job_requirements (snd r) job = (fst r, snd r).
Proof.
  unfold RelevanceEngine.analyze_job_requirements.
  destruct (dict_get (RelevanceEngine.cache_key job) cache0) as [a |] eqn:E; simpl.
  - now rewrite E.
  - now rewrite dict_get_set_same.
Qed.

Lemma get_relevant_memories_again cache0 memory job max_skills max_styles :
  let r := RelevanceEngine.get_relevant_memories
             cache0 memory job max_skills max_styles in
  RelevanceEngine.get_relevant_memories (snd r) memory job max_skills max_styles
  = r.
Proof.
  unfold RelevanceEngine.get_relevant_memories.
  pose proof (analyze_job_requirements_again cache0 job) as H. cbv zeta in H.
  destruct (RelevanceEngine.analyze_job_requirements cache0 job) as [a c1].
  cbn [fst snd] in *. rewrite H. reflexivity.
Qed.

(** C4: the score of a skill lies in [[0,1]] and scoring the same pair
    again gives the same result.  For the simple engine, scoring against
    the analysis of any description returns, with a value in [[0,1]], and a
    repeated selection returns the same selection, skill scores included.
    For the advanced engine the final score lies in [[0,1]] for every skill
    and every analysis, and the decorated, caching entry point returns the
    score of the undecorated function whatever the state of the cache and
    the reading of the clock, so that two calls on the same pair return the
    same score. *)
Theorem skill_score_bounded_and_repeatable :
  (forall (skill_data : SkillMemory) (cache0 : RelevanceEngine.cache) (job : string),
      cache_built cache0 ->
      exists q,
        RelevanceEngine.score_skill_relevance
          skill_data (fst (RelevanceEngine.analyze_job_requirements cache0 job))
        = Returns q
        /\ 0 <= q <= 1)
  /\ (forall cache0 memory job max_skills max_styles,
         let first := RelevanceEngine.get_relevant_memories
                        cache0 memory job max_skills max_styles in
         RelevanceEngine.get_relevant_memories
           (snd first) memory job max_skills max_styles = first)
  /\ (forall (skill_data : SkillMemory) (job_analysis : JobAnalysisResult.t),
         0 <= SkillRelevanceScore.final_score
                (AdvancedRelevanceEngine.score_skill skill_data job_analysis) <= 1)
  /\ (forall monitor_cache (t1 t2 : Z) skill_data job_analysis,
         memo_sound scored_call monitor_cache ->
         let first := AdvancedRelevanceEngine.score_skill_comprehensive
                        monitor_cache t1 skill_data job_analysis in
         let second := AdvancedRelevanceEngine.score_skill_comprehensive
                         (snd first) t2 skill_data job_analysis in
         fst first = AdvancedRelevanceEngine.score_skill skill_data job_analysis
         /\ fst second = fst first
         /\ 0 <= SkillRelevanceScore.final_score (fst first) <= 1
         /\ memo_sound scored_call (snd second)).
Proof.
  split; [| split; [| split]].
  - intros skill_data cache0 job Hc.
    apply score_skill_relevance_bounds. now apply analyze_job_requirements_ok.
  - intros. apply get_relevant_memories_again.
  - apply final_score_bounds.
  - intros monitor_cache t1 t2 skill_data job_analysis Hs first second.
    destruct (performance_monitor_sound AdvancedRelevanceEngine.call_eq_dec
                scored_call None monitor_cache t1 (skill_data, job_analysis) Hs)
      as [H1 Hs1].
    change (fst first = scored_call (skill_data, job_analysis)) in H1.
    change (memo_sound scored_call (snd first)) in Hs1.
    destruct (performance_monitor_sound AdvancedRelevanceEngine.call_eq_dec
                scored_call None (snd first) t2 (skill_data, job_analysis) Hs1)
      as [H2 Hs2].
    change (fst second = scored_call (skill_data, job_analysis)) in H2.
    change (memo_sound scored_call (snd second)) in Hs2.
    split; [exact H1 |]. split; [now rewrite H2, H1 |].
    split; [rewrite H1; apply final_score_bounds | exact Hs2].
Qed.

(** The skill "Network Security" against the sample job, in both engines,
    starting from empty caches. *)
Lemma skill_score_bounded_and_repeatable_witness :
  let s := skill "Network Security" "firewalls" in
  let a := AdvancedRelevanceEngine.build_analysis network_job in
  (exists q,
      RelevanceEngine.score_skill_relevance
        s (fst (RelevanceEngine.analyze_job_requirements [] network_job))
      = Returns q
      /\ 0 <= q <= 1)
  /\ (let first := AdvancedRelevanceEngine.score_skill_comprehensive
                     (PerformanceCache.empty 1000 3600) 0 s a in
      let second := AdvancedRelevanceEngine.score_skill_comprehensive
                      (snd first) 5000000 s a in
      fst second = fst first
      /\ 0 <= SkillRelevanceScore.final_score (fst first) <= 1).
Proof.
  intros s a.
  destruct skill_score_bounded_and_repeatable as (H1 & _ & _ & H4).
  split.
  - apply H1. intros key x H. discriminate.
  - intros first second.
    destruct (H4 (PerformanceCache.empty 1000 3600) 0%Z 5000000%Z s a)
      as (_ & E & B & _).
    + intros k e [].
    + split; [exact E | exact B].
Defined.

End SkillScores.


(* ================================================================== *)
(** ** Blank texts *)
(* ================================================================== *)

Section BlankTexts.
Import Notions.

Lemma space_not_word (c : ascii) : is_space c = true -> is_word c = false.
Proof.
  destruct c as [[] [] [] [] [] [] [] []]; vm_compute; intros H;
    reflexivity || discriminate.
Qed.

Lemma rev_string_empty (s acc : string) :
  rev_string s acc = EmptyString -> s = EmptyString /\ acc = EmptyString.
Proof.
  revert acc. induction s as [| c s IH]; intros acc H; simpl in H.
  - now split.
  - destruct (IH _ H) as [_ Hacc]. discriminate.
Qed.

Lemma blank_rev_string (s acc : string) :
  blank (rev_string s acc) = blank s && blank acc.
Proof.
  revert acc. induction s as [| c s IH]; intros acc; simpl; [reflexivity |].
  rewrite IH. simpl.
  destruct (is_space c), (blank s), (blank acc); reflexivity.
Qed.

Lemma lstrip_empty_blank (s : string) : lstrip s = EmptyString -> blank s = true.
Proof.
  induction s as [| c s IH]; simpl; [reflexivity |].
  destruct (is_space c); [exact IH | discriminate].
Qed.

Lemma blank_lstrip_empty (s : string) :
  blank (lstrip s) = true -> lstrip s = EmptyString.
Proof.
  induction s as [| c s IH]; simpl; [reflexivity |].
  destruct (is_space c) eqn:E; [exact IH |].
  simpl. rewrite E. discriminate.
Qed.

(** A text that strips to nothing is blank. *)
Lemma strip_empty_blank (s : string) : strip s = EmptyString -> blank s = true.
Proof.
  unfold strip. intros H.
  apply rev_string_empty in H. destruct H as [H _].
  apply lstrip_empty_blank in H. rewrite blank_rev_string in H.
  apply andb_true_iff in H. destruct H as [H _].
  apply lstrip_empty_blank. now apply blank_lstrip_empty.
Qed.

Lemma take_blank (n : nat) (t : string) : blank t = true -> blank (take n t) = true.
Proof.
  revert t. induction n as [| n IH]; intros [| c t]; simpl; auto.
  intros H. apply andb_true_iff in H. destruct H as [-> H]. now apply IH.
Qed.

Lemma contains_blank (kw t : string) :
  hard_keyword kw = true -> blank t = true -> contains kw t = false.
Proof.
  destruct kw as [| c k]; [discriminate |]. simpl. intros Hc.
  apply negb_true_iff in Hc.
  induction t as [| x t IH]; intros Hb; cbn [contains].
  - reflexivity.
  - simpl in Hb. apply andb_true_iff in Hb. destruct Hb as [Hx Hb].
    rewrite (IH Hb), orb_false_r. simpl.
    destruct (ascii_dec c x) as [-> | Hne]; [congruence | reflexivity].
Qed.

Lemma rmatch_blank p prev t cap :
  starts_hard p = true -> blank t = true -> after_non_word prev ->
  Re.rmatch p prev t cap = None.
Proof.
  intros Hp Hb Hprev.
  destruct p as [| [k | k | k | k | k | | k | ws] p]; try discriminate.
  - destruct k as [c | | | | cs]; try discriminate.
    simpl in Hp. apply negb_true_iff in Hp.
    destruct t as [| x t]; [reflexivity |].
    simpl in Hb. apply andb_true_iff in Hb. destruct Hb as [Hx _].
    cbn [Re.rmatch Re.in_class].
    destruct (Ascii.eqb_spec x c) as [-> | Hne]; [congruence | reflexivity].
  - cbn [Re.rmatch].
    assert (E : Re.boundary prev t = false).
    { unfold Re.boundary.
      assert (E1 : match prev with Some c => is_word c | None => false end = false)
        by (destruct prev; [exact Hprev | reflexivity]).
      assert (E2 : match t with String c _ => is_word c | EmptyString => false end
                   = false).
      { destruct t as [| x t]; [reflexivity |].
        simpl in Hb. apply andb_true_iff in Hb. destruct Hb as [Hx _].
        now apply space_not_word. }
      now rewrite E1, E2. }
    now rewrite E.
Qed.

Lemma scan_blank p t : forall prev,
  starts_hard p = true -> blank t = true -> after_non_word prev ->
  Re.scan p prev t 0 = [].
Proof.
  induction t as [| x t IH]; intros prev Hp Hb Hprev.
  - cbn [Re.scan]. now rewrite rmatch_blank.
  - cbn [Re.scan]. rewrite rmatch_blank by assumption.
    simpl in Hb. apply andb_true_iff in Hb. destruct Hb as [Hx Hb].
    apply IH; [assumption | assumption |]. simpl. now apply space_not_word.
Qed.

Lemma findall_blank pattern t :
  starts_hard (Re.compile pattern) = true -> blank t = true ->
  Re.findall pattern t = [].
Proof.
  intros Hp Hb. unfold Re.findall. rewrite scan_blank; simpl; auto.
Qed.

Lemma count_word_blank kw t : blank t = true -> Re.count_word kw t = 0.
Proof.
  intros Hb. unfold Re.count_word. rewrite findall_blank; auto.
Qed.

Lemma count_if_blank (l : list string) (t : string) :
  forallb hard_keyword l = true -> blank t = true ->
  count_if (fun i => contains i t) l = 0.
Proof.
  intros Hl Hb. unfold count_if.
  induction l as [| kw l IH]; simpl; [reflexivity |].
  simpl in Hl. apply andb_true_iff in Hl. destruct Hl as [Hk Hl].
  rewrite (contains_blank kw t Hk Hb). now apply IH.
Qed.

End BlankTexts.


(* ================================================================== *)
(** ** The analyzers *)
(* ================================================================== *)

Section Analyzers.
Import MemoryCore Notions.

(** *** The simple engine *)

Lemma argmax_in (d : dict nat) : forall best v,
  In (argmax d best v) (best :: keys d).
Proof.
  induction d as [| [k w] d IH]; intros best v; simpl; [auto |].
  destruct (v <? w)%nat.
  - destruct (IH k w) as [H | H]; auto.
  - destruct (IH best v) as [H | H]; auto.
Qed.

Lemma max_key_in (d : dict nat) k : max_key d = Some k -> In k (keys d).
Proof.
  destruct d as [| [k0 v0] d]; simpl; [discriminate |].
  intros H. inversion H. apply argmax_in.
Qed.

Lemma keys_dict_incr k n (d : dict nat) : keys (dict_incr k n d) = keys d.
Proof.
  induction d as [| [k' v] d IH]; simpl; [reflexivity |].
  destruct (String.eqb k' k); simpl; [reflexivity | now rewrite IH].
Qed.

Lemma keys_scored {A B : Type} (g : A -> B) (d : dict A) :
  keys (map (fun '(k, x) => (k, g x)) d) = keys d.
Proof.
  induction d as [| [k x] d IH]; simpl; [reflexivity | now rewrite IH].
Qed.

Lemma _classify_job_role_in t :
  In (RelevanceEngine._classify_job_role t) simple_roles.
Proof.
  unfold RelevanceEngine._classify_job_role. cbv zeta.
  match goal with
  | |- In (if _ then match max_key ?d with _ => _ end else _) _ =>
      set (scores := d)
  end.
  assert (Hk : keys scores = keys RelevanceEngine.role_types).
  { unfold scores.
    repeat match goal with
           | |- context [if ?b then _ else _] => destruct b
           end;
      rewrite ?keys_dict_incr; apply keys_scored. }
  destruct (0 <? max_value scores)%nat; [| unfold simple_roles; simpl; tauto].
  destruct (max_key scores) as [k |] eqn:E; [| unfold simple_roles; simpl; tauto].
  apply max_key_in in E. rewrite Hk in E.
  unfold simple_roles. simpl in E. simpl. tauto.
Qed.

(** The role and the focus recorded by the first two steps. *)
Lemma analyze_role_and_domains_fields t :
  JobAnalysis.job_role_type (RelevanceEngine.analyze_role_and_domains t)
  = RelevanceEngine._classify_job_role t
  /\ In (JobAnalysis.primary_focus (RelevanceEngine.analyze_role_and_domains t))
        focuses.
Proof.
  unfold RelevanceEngine.analyze_role_and_domains, focuses.
  destruct (mem (RelevanceEngine._classify_job_role t) _);
    [| destruct (String.eqb (RelevanceEngine._classify_job_role t) "technical_it");
       [| destruct (RelevanceEngine._score_technical_content t
                    <? RelevanceEngine._score_business_content t)%nat]];
    unfold RelevanceEngine._analyze_business_requirements,
           RelevanceEngine._analyze_technical_requirements,
           RelevanceEngine.with_role;
    cbn [JobAnalysis.job_role_type JobAnalysis.primary_focus];
    (split; [reflexivity | simpl; tauto]).
Qed.

Lemma experience_level_of_in t :
  In (RelevanceEngine.experience_level_of t) levels.
Proof.
  unfold RelevanceEngine.experience_level_of, levels.
  destruct (any _ ["senior"; "lead"; "principal"; "architect"]);
    [simpl; tauto |].
  destruct (any _ ["junior"; "entry"; "associate"; "1-2 years"]); simpl; tauto.
Qed.

Lemma build_analysis_fields job :
  let a := RelevanceEngine.build_analysis job in
  In (JobAnalysis.job_role_type a) simple_roles
  /\ In (JobAnalysis.primary_focus a) focuses
  /\ In (JobAnalysis.experience_level a) levels.
Proof.
  unfold RelevanceEngine.build_analysis.
  cbn [JobAnalysis.job_role_type JobAnalysis.primary_focus
       JobAnalysis.experience_level].
  destruct (analyze_role_and_domains_fields (lower job)) as [-> Hf].
  split; [apply _classify_job_role_in |].
  split; [exact Hf | apply experience_level_of_in].
Qed.

(** In a blank text no role pattern, no indicator and no introductory
    phrase is found. *)
Lemma role_score_blank pats t :
  forallb hard_keyword pats = true -> blank t = true ->
  RelevanceEngine.role_score pats t = 0.
Proof.
  intros Hp Hb. unfold RelevanceEngine.role_score.
  induction pats as [| p pats IH]; cbn [fold_left]; [reflexivity |].
  simpl in Hp. apply andb_true_iff in Hp. destruct Hp as [Hh Hp].
  rewrite count_word_blank by assumption.
  rewrite (contains_blank p (take 200 t) Hh (take_blank 200 t Hb)).
  now apply IH.
Qed.

Lemma _classify_job_role_blank t :
  blank t = true -> RelevanceEngine._classify_job_role t = "unknown".
Proof.
  intros Hb. unfold RelevanceEngine._classify_job_role. cbv zeta.
  assert (E : map (fun '(role_type, patterns) =>
                     (role_type, RelevanceEngine.role_score patterns t))
                  RelevanceEngine.role_types
              = map (fun '(role_type, patterns) => (role_type, 0))
                    RelevanceEngine.role_types).
  { apply map_ext_in. intros [role pats] Hin. f_equal.
    apply role_score_blank; [| assumption].
    assert (Hall : forallb (fun e => forallb hard_keyword (snd e))
                           RelevanceEngine.role_types = true)
      by (vm_compute; reflexivity).
    rewrite forallb_forall in Hall. apply (Hall _ Hin). }
  rewrite E.
  rewrite !count_if_blank by (assumption || (vm_compute; reflexivity)).
  rewrite (contains_blank "analyst" t) by (assumption || reflexivity).
  vm_compute. reflexivity.
Qed.

Lemma extract_skills_blank pats t :
  forallb (fun pattern => starts_hard (Re.compile pattern)) pats = true ->
  blank t = true ->
  RelevanceEngine.extract_skills pats t = [].
Proof.
  intros Hp Hb. unfold RelevanceEngine.extract_skills.
  induction pats as [| p pats IH]; simpl; [reflexivity |].
  simpl in Hp. apply andb_true_iff in Hp. destruct Hp as [Hh Hp].
  rewrite findall_blank by assumption. simpl. now apply IH.
Qed.

(** Every description whose cache key is that of the empty description is
    analysed as the empty description is. *)
Lemma build_analysis_blank job :
  RelevanceEngine.cache_key job = RelevanceEngine.cache_key "" ->
  JobAnalysis.job_role_type (RelevanceEngine.build_analysis job) = "unknown"
  /\ JobAnalysis.required_skills (RelevanceEngine.build_analysis job) = [].
Proof.
  intros Hk. change (RelevanceEngine.cache_key "") with EmptyString in Hk.
  unfold RelevanceEngine.cache_key in Hk. apply strip_empty_blank in Hk.
  unfold RelevanceEngine.build_analysis.
  cbn [JobAnalysis.job_role_type JobAnalysis.required_skills].
  destruct (analyze_role_and_domains_fields (lower job)) as [-> _].
  split; [now apply _classify_job_role_blank |].
  apply extract_skills_blank; [vm_compute; reflexivity | assumption].
Qed.

(** *** The advanced engine *)

Lemma analyze_job_sound cache_ttl now state job :
  analyses_sound state ->
  fst (AdvancedRelevanceEngine.analyze_job cache_ttl now state job)
  = AdvancedRelevanceEngine.build_analysis job
  /\ analyses_sound (snd (AdvancedRelevanceEngine.analyze_job cache_ttl now state job)).
Proof.
  intros Hs. unfold AdvancedRelevanceEngine.analyze_job.
  assert (Hfresh : analyses_sound
                     (dict_set job (AdvancedRelevanceEngine.build_analysis job, now)
                               state)).
  { intros j r time Hget.
    destruct (string_dec j job) as [-> | Hne].
    - rewrite dict_get_set_same in Hget. now inversion Hget.
    - rewrite dict_get_set_other in Hget by assumption. eapply Hs; eauto. }
  destruct (dict_get job state) as [[cached time] |] eqn:E.
  - destruct (now - time <? cache_ttl * 1000000)%Z; simpl.
    + split; [eapply Hs; eauto | exact Hs].
    + split; [reflexivity | exact Hfresh].
  - simpl. split; [reflexivity | exact Hfresh].
Qed.

Lemma encode_text (s : string) : encode (text s) = Returns s.
Proof.
  unfold text. induction s as [| c r IH]; [reflexivity |].
  cbn [list_ascii_of_string map encode]. rewrite IH. reflexivity.
Qed.

Lemma encode_raises (d : str) (e : exn) :
  encode d = Raises e -> e = UnicodeEncodeError.
Proof.
  induction d as [| [c | n] d IH]; cbn [encode].
  - discriminate.
  - destruct (encode d) as [t | e']; cbn [bind]; [discriminate |].
    intros [= <-]. now apply IH.
  - now intros [= <-].
Qed.

Lemma encode_surrogate (d : str) (n : N) :
  In (Surrogate n) d -> encode d = Raises UnicodeEncodeError.
Proof.
  induction d as [| [c | n'] d IH]; cbn [encode In].
  - tauto.
  - intros [H | H]; [discriminate H |]. rewrite (IH H). reflexivity.
  - reflexivity.
Qed.

(** The lookup in the cache of the monitor. *)
Lemma get_monitor_sound key now c :
  monitor_sound c ->
  monitor_sound (snd (PerformanceCache.get str_eq_dec key now c))
  /\ forall v, fst (PerformanceCache.get str_eq_dec key now c) = Some v ->
               exists encoded,
                 encode key = Returns encoded
                 /\ v = ErrorHandler.Value
                          (AdvancedRelevanceEngine.build_analysis encoded).
Proof.
  intros Hs. unfold PerformanceCache.get.
  destruct (PerformanceCache.lookup str_eq_dec key (PerformanceCache.cache c))
    as [e |] eqn:E.
  - destruct (PerformanceCache.expires_at e <? now)%Z; simpl.
    + split; [| discriminate].
      intros k e' Hin. simpl in Hin. apply remove_incl in Hin. now apply Hs.
    + split; [exact Hs |].
      intros v Hv. inversion Hv. apply Hs. now apply (lookup_in str_eq_dec).
  - simpl. split; [exact Hs | discriminate].
Qed.

Lemma set_monitor_sound key encoded ttl now c :
  encode key = Returns encoded ->
  monitor_sound c ->
  monitor_sound
    (PerformanceCache.set str_eq_dec key
       (ErrorHandler.Value (AdvancedRelevanceEngine.build_analysis encoded))
       ttl now c).
Proof.
  intros He Hs. unfold PerformanceCache.set.
  set (c1 := if (PerformanceCache.max_size c
                 <=? List.length (PerformanceCache.cache c))%nat
             then match PerformanceCache.lookup str_eq_dec key
                          (PerformanceCache.cache c) with
                  | Some _ => c
                  | None => PerformanceCache._evict_lru str_eq_dec c
                  end
             else c).
  assert (Hs1 : monitor_sound c1).
  { unfold c1.
    destruct (PerformanceCache.max_size c
              <=? List.length (PerformanceCache.cache c))%nat; [| exact Hs].
    destruct (PerformanceCache.lookup str_eq_dec key (PerformanceCache.cache c));
      [exact Hs |].
    unfold PerformanceCache._evict_lru.
    destruct (PerformanceCache.access_times c) as [| [k time] r]; [exact Hs |].
    intros k' e Hin. simpl in Hin. apply remove_incl in Hin. now apply Hs. }
  intros k e Hin. simpl in Hin. apply assign_in in Hin.
  destruct Hin as [Heq | Hin]; [| now apply Hs1].
  inversion Heq. subst. exists encoded. split; [assumption | reflexivity].
Qed.

(** The decorated analyzer on caches left by earlier calls: the analysis of
    the text for a description that can be encoded, [UnicodeEncodeError]
    with both caches' entries untouched for one that cannot. *)
Lemma analyze_job_comprehensive_sound cache_ttl monitor_cache state now job :
  monitor_sound monitor_cache ->
  analyses_sound state ->
  let r := AdvancedRelevanceEngine.analyze_job_comprehensive
             cache_ttl monitor_cache state now job in
  match encode job with
  | Returns encoded =>
      fst (fst r)
      = Returns (ErrorHandler.Value
                   (AdvancedRelevanceEngine.build_analysis encoded))
  | Raises _ =>
      fst (fst r) = Raises UnicodeEncodeError /\ snd r = state
  end
  /\ monitor_sound (snd (fst r))
  /\ analyses_sound (snd r).
Proof.
  intros Hm Hs. unfold AdvancedRelevanceEngine.analyze_job_comprehensive.
  cbv zeta.
  destruct (get_monitor_sound job now monitor_cache Hm) as [Hm' Hv].
  destruct (PerformanceCache.get str_eq_dec job now monitor_cache)
    as [[v |] mc]; cbn [fst snd] in *.
  - destruct (Hv v eq_refl) as (encoded & He & ->). rewrite He.
    cbn [fst snd]. split; [reflexivity |]. split; assumption.
  - unfold AdvancedRelevanceEngine.analyze_job_body.
    destruct (encode job) as [encoded | e] eqn:He; cbn [bind].
    + destruct (analyze_job_sound cache_ttl now state encoded Hs) as [Hr Hs'].
      destruct (AdvancedRelevanceEngine.analyze_job cache_ttl now state encoded)
        as [r st]; cbn [fst snd] in *.
      subst r. cbn [ErrorHandler.with_error_handling fst snd].
      split; [reflexivity |]. split; [| exact Hs'].
      now apply set_monitor_sound.
    + apply encode_raises in He. subst e.
      cbn. split; [split; reflexivity |]. split; assumption.
Qed.

Lemma scored_roles_keys t : forall (table : dict AdvancedRelevanceEngine.role_config)
                                   (scores : dict nat) k,
  In k (keys
          (fold_left
             (fun scores '(role, config) =>
                let score := AdvancedRelevanceEngine.advanced_role_score config t in
                if (0 <? score)%nat then dict_set role score scores else scores)
             table scores)) ->
  In k (keys scores) \/ In k (keys table).
Proof.
  induction table as [| [role config] table IH]; intros scores k; simpl; [auto |].
  intros H. apply IH in H. destruct H as [H | H]; [| auto].
  destruct (0 <? AdvancedRelevanceEngine.advanced_role_score config t)%nat; [| auto].
  destruct (in_dec string_dec role (keys scores)) as [Hin | Hn].
  - rewrite dict_set_keys_present in H by assumption. auto.
  - rewrite dict_set_keys_absent in H by assumption.
    apply in_app_or in H. destruct H as [H | [<- | []]]; auto.
Qed.

Lemma _classify_role_advanced_in t :
  In (AdvancedRelevanceEngine.role_type
        (AdvancedRelevanceEngine._classify_role_advanced t)) advanced_roles.
Proof.
  unfold AdvancedRelevanceEngine._classify_role_advanced. cbv zeta.
  match goal with
  | |- context [max_key ?d] => destruct (max_key d) as [k |] eqn:E
  end; cbn [AdvancedRelevanceEngine.role_type];
    [| unfold advanced_roles; simpl; tauto].
  apply max_key_in in E. apply scored_roles_keys in E.
  destruct E as [[] | E]. unfold advanced_roles. simpl in E. simpl. tauto.
Qed.

Lemma advanced_build_analysis_fields job :
  let r := AdvancedRelevanceEngine.build_analysis job in
  In (JobAnalysisResult.job_role_type r) advanced_roles
  /\ In (JobAnalysisResult.primary_focus r) focuses
  /\ In (JobAnalysisResult.experience_level r) levels.
Proof.
  unfold AdvancedRelevanceEngine.build_analysis. cbv zeta.
  cbn [JobAnalysisResult.job_role_type JobAnalysisResult.primary_focus
       JobAnalysisResult.experience_level].
  split; [apply _classify_role_advanced_in |]. split.
  - unfold focuses.
    destruct (mem _ ["business_analyst"; "management"]); [simpl; tauto |].
    destruct (String.eqb _ "technical_it"); [simpl; tauto |].
    destruct (qlt _ _); simpl; tauto.
  - unfold AdvancedRelevanceEngine.experience_of, levels. cbv zeta.
    destruct (_ <? _)%nat; [simpl; tauto |].
    destruct (_ <? _)%nat; simpl; tauto.
Qed.

(** On a text of the modelled alphabet the analyzers return a profile whose
    three fields hold one of their values.  For every text and every cache
    left by earlier calls, the simple analyzer returns an analysis whose
    role is one of the five role types or "unknown", whose focus is
    "business" or "technical", and whose level is "senior", "junior" or
    "mid"; for the empty text the role is "unknown" and the list of required
    skills is empty.  The same holds of the advanced analyzer, under its two
    caches, with its own role types. *)
Lemma analyzers_return_a_profile_for_every_text :
  (forall (cache0 : RelevanceEngine.cache) (job : string),
      cache_built cache0 ->
      let a := fst (RelevanceEngine.analyze_job_requirements cache0 job) in
      In (JobAnalysis.job_role_type a) simple_roles
      /\ In (JobAnalysis.primary_focus a) focuses
      /\ In (JobAnalysis.experience_level a) levels
      /\ cache_built (snd (RelevanceEngine.analyze_job_requirements cache0 job)))
  /\ (forall cache0 : RelevanceEngine.cache,
         cache_built cache0 ->
         let a := fst (RelevanceEngine.analyze_job_requirements cache0 "") in
         JobAnalysis.job_role_type a = "unknown"
         /\ JobAnalysis.required_skills a = [])
  /\ (forall cache_ttl monitor_cache state (now : Z) (job : string),
         monitor_sound monitor_cache ->
         analyses_sound state ->
         let r := AdvancedRelevanceEngine.analyze_job_comprehensive
                    cache_ttl monitor_cache state now (text job) in
         exists a,
           fst (fst r) = Returns (ErrorHandler.Value a)
           /\ In (JobAnalysisResult.job_role_type a) advanced_roles
           /\ In (JobAnalysisResult.primary_focus a) focuses
           /\ In (JobAnalysisResult.experience_level a) levels
           /\ monitor_sound (snd (fst r))
           /\ analyses_sound (snd r))
  /\ (forall cache_ttl monitor_cache state (now : Z),
         monitor_sound monitor_cache ->
         analyses_sound state ->
         let r := AdvancedRelevanceEngine.analyze_job_comprehensive
                    cache_ttl monitor_cache state now (text "") in
         exists a,
           fst (fst r) = Returns (ErrorHandler.Value a)
           /\ JobAnalysisResult.job_role_type a = "unknown"
           /\ JobAnalysisResult.required_skills a = []).
Proof.
  split; [| split; [| split]].
  - intros cache0 job Hc a.
    destruct (analyze_job_requirements_built cache0 job Hc)
      as [(job' & _ & Ha) Hc'].
    unfold a. rewrite Ha.
    destruct (build_analysis_fields job') as (H1 & H2 & H3). auto.
  - intros cache0 Hc a.
    destruct (analyze_job_requirements_built cache0 "" Hc)
      as [(job' & Hk & Ha) _].
    unfold a. rewrite Ha. now apply build_analysis_blank.
  - intros cache_ttl monitor_cache state now job Hm Hs r.
    destruct (analyze_job_comprehensive_sound cache_ttl monitor_cache state
                now (text job) Hm Hs) as (Hr & Hm' & Hs').
    rewrite encode_text in Hr. fold r in Hr, Hm', Hs'.
    exists (AdvancedRelevanceEngine.build_analysis job).
    split; [exact Hr |].
    destruct (advanced_build_analysis_fields job) as (H1 & H2 & H3). auto.
  - intros cache_ttl monitor_cache state now Hm Hs r.
    destruct (analyze_job_comprehensive_sound cache_ttl monitor_cache state
                now (text "") Hm Hs) as (Hr & _ & _).
    rewrite encode_text in Hr. fold r in Hr.
    exists (AdvancedRelevanceEngine.build_analysis "").
    split; [exact Hr |]. vm_compute. split; reflexivity.
Qed.

(** The empty description, analysed by the simple engine after a blank
    description has been analysed and cached under the same key, and by the
    advanced engine from empty caches. *)
Example analyzers_on_the_empty_description :
  let cache1 := snd (RelevanceEngine.analyze_job_requirements [] "   ") in
  let a := fst (RelevanceEngine.analyze_job_requirements cache1 "") in
  let r := AdvancedRelevanceEngine.analyze_job_comprehensive
             3600 (PerformanceCache.empty 1000 3600) [] 0 (text "") in
  (JobAnalysis.job_role_type a = "unknown" /\ JobAnalysis.required_skills a = [])
  /\ exists b,
      fst (fst r) = Returns (ErrorHandler.Value b)
      /\ JobAnalysisResult.job_role_type b = "unknown"
      /\ JobAnalysisResult.required_skills b = [].
Proof.
  intros cache1 a r.
  destruct analyzers_return_a_profile_for_every_text as (H1 & H2 & _ & H4).
  split.
  - apply H2. apply (H1 [] "   "). intros key x H. discriminate.
  - apply H4.
    + intros k e [].
    + intros job x time H. discriminate.
Qed.

(** C6, at the failing input: a description that holds a lone surrogate
    cannot be encoded, so the first statement of the advanced analyzer
    raises [UnicodeEncodeError]; the handler finds the rule of [ValueError],
    whose recovery reports neither fallback data nor a skipped operation to
    the wrapper, and the wrapper and the monitor let the exception through.
    Whatever earlier calls left in the two caches, the call raises, returns
    no profile, and leaves the cache of the engine as it was. *)
Theorem advanced_analyzer_raises_on_lone_surrogate :
  forall cache_ttl monitor_cache state (now : Z) (job_description : str)
         (n : N),
    monitor_sound monitor_cache ->
    analyses_sound state ->
    In (Surrogate n) job_description ->
    let r := AdvancedRelevanceEngine.analyze_job_comprehensive
               cache_ttl monitor_cache state now job_description in
    fst (fst r) = Raises UnicodeEncodeError
    /\ (forall a, fst (fst r) <> Returns a)
    /\ snd r = state
    /\ monitor_sound (snd (fst r)).
Proof.
  intros cache_ttl monitor_cache state now job n Hm Hs Hin r.
  destruct (analyze_job_comprehensive_sound cache_ttl monitor_cache state
              now job Hm Hs) as (Hr & Hm' & _).
  rewrite (encode_surrogate job n Hin) in Hr. fold r in Hr, Hm'.
  destruct Hr as [Hr Hst].
  split; [exact Hr |]. split; [| split; [exact Hst | exact Hm']].
  intros a. rewrite Hr. discriminate.
Qed.

(** The description "Engineer" followed by the lone surrogate U+DC80, from
    empty caches. *)
Lemma advanced_analyzer_raises_on_lone_surrogate_witness :
  let job := (text "Engineer" ++ [Surrogate 56448])%list in
  let r := AdvancedRelevanceEngine.analyze_job_comprehensive
             3600 (PerformanceCache.empty 1000 3600) [] 0 job in
  fst (fst r) = Raises UnicodeEncodeError /\ snd r = [].
Proof.
  intros job r.
  destruct (advanced_analyzer_raises_on_lone_surrogate
              3600 (PerformanceCache.empty 1000 3600) [] 0 job 56448)
    as (Hr & _ & Hs & _).
  - intros k e [].
  - intros j x time H. discriminate.
  - vm_compute. tauto.
  - split; [exact Hr | exact Hs].
Defined.

End Analyzers.

(* ================================================================== *)
(** ** The store: preferences, feedback and search *)
(* ================================================================== *)

Section StoreOperations.
Import MemoryCore MemoryOps Notions Invariants.

Lemma update_existing_some style prefs prefs' :
  update_existing style prefs = Some prefs' ->
  map rule prefs' = map rule prefs
  /\ In style prefs'
  /\ In (rule style) (map rule prefs).
Proof.
  revert prefs'. induction prefs as [| p r IH]; intros prefs'; simpl.
  - discriminate.
  - destruct (String.eqb_spec (rule p) (rule style)) as [E | Hne].
    + intros [= <-]. simpl. rewrite E. auto.
    + destruct (update_existing style r) as [l |]; simpl; [| discriminate].
      intros [= <-]. destruct (IH l eq_refl) as (Hm & Hin & Hr).
      simpl. rewrite Hm. auto.
Qed.

Lemma update_existing_none style prefs :
  update_existing style prefs = None -> ~ In (rule style) (map rule prefs).
Proof.
  induction prefs as [| p r IH]; simpl; [tauto |].
  destruct (String.eqb_spec (rule p) (rule style)) as [E | Hne];
    [discriminate |].
  destruct (update_existing style r); simpl; [discriminate |].
  intros _ [H | H]; [congruence | now apply IH].
Qed.

(** The list [add_style_preference] leaves under the category of [style]. *)
Lemma add_style_preference_category now style m :
  dict_get (preference_type style)
           (style_preferences (add_style_preference now style m))
  = Some match update_existing style (stored_under (preference_type style) m) with
         | Some l => l
         | None => stored_under (preference_type style) m ++ [style]
         end.
Proof.
  unfold add_style_preference, stored_under. simpl.
  rewrite dict_get_set_same.
  destruct (dict_get (preference_type style) (style_preferences m)) eqn:E.
  - rewrite E. reflexivity.
  - rewrite dict_get_set_same. reflexivity.
Qed.

Lemma add_style_preference_others now style m category :
  category <> preference_type style ->
  dict_get category (style_preferences (add_style_preference now style m))
  = dict_get category (style_preferences m).
Proof.
  intros Hne. unfold add_style_preference. simpl.
  rewrite dict_get_set_other by assumption.
  destruct (dict_get (preference_type style) (style_preferences m));
    [reflexivity | now apply dict_get_set_other].
Qed.

Lemma add_style_preference_unique now style m :
  rules_unique m -> rules_unique (add_style_preference now style m).
Proof.
  intros Hu category prefs.
  destruct (string_dec category (preference_type style)) as [-> | Hne].
  - rewrite add_style_preference_category. intros [= <-].
    assert (Hold : NoDup (map rule (stored_under (preference_type style) m))).
    { unfold stored_under.
      destruct (dict_get (preference_type style) (style_preferences m)) eqn:E;
        [now apply (Hu _ _ E) | constructor]. }
    destruct (update_existing style _) as [l |] eqn:E.
    + apply update_existing_some in E. destruct E as (-> & _). exact Hold.
    + apply update_existing_none in E. rewrite map_app. simpl.
      apply NoDup_app; [assumption | repeat constructor; simpl; tauto |].
      intros x Hx [<- | []]. contradiction.
  - rewrite add_style_preference_others by assumption. apply Hu.
Qed.

Lemma perform_unique m step : rules_unique m -> rules_unique (perform m step).
Proof.
  destruct step as [now [skill | style | event | feedback]];
    unfold perform; cbn [fst snd]; intros Hu;
    [exact Hu | now apply add_style_preference_unique | exact Hu | exact Hu].
Qed.

(** X1.  A store in which no category of style preferences holds two
    records with the same rule stays so under every run of additions
    (skills, preferences, events, feedback): adding a preference whose
    rule is already recorded in its category updates that record instead
    of appending a second one. *)
Theorem style_rules_stay_unique :
  forall (steps : list (string * operation)) (m : MemoryData),
    rules_unique m -> rules_unique (run steps m).
Proof.
  unfold run. induction steps as [| step steps IH]; intros m Hu; simpl.
  - exact Hu.
  - apply IH. now apply perform_unique.
Qed.

(** Adding two preferences with one rule to the empty store. *)
Lemma style_rules_stay_unique_witness :
  let m := run [("t1", AddStyle (Samples.style "tone_preferences" "Be brief"));
                ("t2", AddFeedback {| feedback_text := "too long";
                                      cover_letter_context := "";
                                      outcome := "revised";
                                      extracted_insights := [];
                                      applied_changes := [];
                                      effectiveness_score := 0.5%Q |});
                ("t3", AddStyle (Samples.style "tone_preferences" "Be brief"))]
               (empty_memory "t0" "t0") in
  rules_unique (empty_memory "t0" "t0")
  /\ rules_unique m
  /\ map rule (stored_under "tone_preferences" m) = ["Be brief"].
Proof.
  intros m.
  assert (H0 : rules_unique (empty_memory "t0" "t0")).
  { intros category prefs. cbn -[String.eqb].
    repeat match goal with
           | |- context [String.eqb ?a ?b] => destruct (String.eqb a b)
           end; intros [= <-]; constructor. }
  split; [exact H0 |]. split.
  - apply style_rules_stay_unique. exact H0.
  - reflexivity.
Defined.

Lemma nodup_map_injective {A B : Type} (f : A -> B) (l : list A) (x y : A) :
  NoDup (map f l) -> In x l -> In y l -> f x = f y -> x = y.
Proof.
  induction l as [| a l IH]; simpl; [tauto |].
  intros Hnd Hx Hy E. inversion Hnd as [| ? ? Hn Hnd']; subst.
  destruct Hx as [-> | Hx], Hy as [-> | Hy]; auto.
  - exfalso. apply Hn. rewrite E. now apply in_map.
  - exfalso. apply Hn. rewrite <- E. now apply in_map.
Qed.

Lemma mem_spec (x : string) (l : list string) : mem x l = true <-> In x l.
Proof.
  unfold mem. rewrite existsb_exists. split.
  - intros (y & Hin & E). apply String.eqb_eq in E. now subst.
  - intros Hin. exists x. split; [assumption | apply String.eqb_refl].
Qed.

(** X2.  In a store whose categories hold one record per rule, adding a
    preference leaves its category with the new record as the only one
    for its rule: a rule already recorded keeps its position and the
    number of records, a new rule is appended at the end.  The other
    categories, the skills, the events and the feedback are untouched. *)
Theorem add_style_preference_updates_in_place :
  forall (now : string) (style : StyleMemory) (m : MemoryData),
    rules_unique m ->
    let category := preference_type style in
    let before := stored_under category m in
    let m' := add_style_preference now style m in
    let after := stored_under category m' in
    In style after
    /\ (forall p, In p after -> rule p = rule style -> p = style)
    /\ map rule after
       = (if mem (rule style) (map rule before)
          then map rule before
          else map rule before ++ [rule style])
    /\ (forall other, other <> category ->
                      dict_get other (style_preferences m')
                      = dict_get other (style_preferences m))
    /\ skills m' = skills m
    /\ temporal_events m' = temporal_events m
    /\ feedback_history m' = feedback_history m.
Proof.
  intros now style m Hu category before m' after.
  assert (Hu' : rules_unique m') by now apply add_style_preference_unique.
  assert (Ha : dict_get category (style_preferences m') = Some after).
  { unfold after, stored_under, m', category.
    now rewrite add_style_preference_category. }
  assert (Hshape : In style after
                   /\ map rule after
                      = (if mem (rule style) (map rule before)
                         then map rule before
                         else map rule before ++ [rule style])).
  { unfold after, stored_under, m', category.
    rewrite add_style_preference_category. fold category. fold before.
    destruct (update_existing style before) as [l |] eqn:E.
    - apply update_existing_some in E. destruct E as (Hm & Hin & Hr).
      apply mem_spec in Hr. rewrite Hr. auto.
    - apply update_existing_none in E.
      destruct (mem (rule style) (map rule before)) eqn:Em.
      + apply mem_spec in Em. contradiction.
      + rewrite map_app. split; [apply in_or_app; simpl; auto | reflexivity]. }
  destruct Hshape as [Hin Hmap].
  split; [exact Hin |]. split; [| split; [exact Hmap |]].
  - intros p Hp E.
    apply (nodup_map_injective rule after); auto. now apply (Hu' category).
  - split; [| repeat split].
    intros other Hne. now apply add_style_preference_others.
Qed.

(** The rule "Be brief" is recorded again, with a new context. *)
Lemma add_style_preference_updates_in_place_witness :
  let m := Samples.styled_store in
  let style := {| preference_type := "tone_preferences";
                  rule := "Be brief";
                  style_examples := ["Short sentences."];
                  success_rate := 0.9%Q;
                  last_applied := "2025-02-01T00:00:00";
                  style_context := "after feedback" |} in
  let after := stored_under "tone_preferences"
                            (add_style_preference "t1" style m) in
  rules_unique m
  /\ In style after
  /\ map rule after = ["Be brief"; "Keep a warm tone"].
Proof.
  intros m style after.
  assert (H0 : rules_unique m).
  { intros category prefs. cbn -[String.eqb].
    repeat match goal with
           | |- context [String.eqb ?a ?b] => destruct (String.eqb a b)
           end; intros [= <-]; repeat constructor; simpl;
      intuition discriminate. }
  split; [exact H0 |].
  destruct (add_style_preference_updates_in_place "t1" style m H0)
    as (Hin & _ & Hmap & _).
  split; [exact Hin | exact Hmap].
Defined.

Lemma count_if_app {A : Type} (p : A -> bool) (l r : list A) :
  count_if p (l ++ r) = count_if p l + count_if p r.
Proof. unfold count_if. now rewrite filter_app, length_app. Qed.

Lemma count_if_le {A : Type} (p : A -> bool) (l : list A) :
  count_if p l <= List.length l.
Proof. unfold count_if. apply filter_length_le. Qed.

Lemma perform_counters m step : counters_match m -> counters_match (perform m step).
Proof.
  destruct step as [now [skill | style | event | feedback]];
    unfold perform; cbn [fst snd]; intros [Ht Hs];
    try (split; [exact Ht | exact Hs]).
  assert (E : count_if accepted [feedback]
              = if String.eqb (outcome feedback) "accepted" then 1 else 0).
  { unfold count_if, accepted. cbn [filter].
    destruct (String.eqb (outcome feedback) "accepted"); reflexivity. }
  unfold counters_match, add_feedback_memory.
  cbn [metadata feedback_history save_memory total_interactions
       successful_generations].
  rewrite length_app, count_if_app, Ht, Hs, E. cbn [List.length].
  destruct (String.eqb (outcome feedback) "accepted"); split; lia.
Qed.

(** X3.  When the two counters of the metadata agree with the feedback
    history ([total_interactions] is the number of feedback records,
    [successful_generations] the number of those with the outcome
    "accepted"), they still do after every run of additions; so the
    successes never exceed the interactions. *)
Theorem feedback_counters_follow_history :
  forall (steps : list (string * operation)) (m : MemoryData),
    counters_match m ->
    let m' := run steps m in
    counters_match m'
    /\ (0 <= successful_generations (metadata m')
        <= total_interactions (metadata m'))%Z.
Proof.
  intros steps m Hc m'.
  assert (H : counters_match m').
  { subst m'. unfold run. revert m Hc.
    induction steps as [| step steps IH]; intros m Hc; simpl.
    - exact Hc.
    - apply IH. now apply perform_counters. }
  split; [exact H |]. destruct H as [-> ->].
  pose proof (count_if_le accepted (feedback_history m')). lia.
Qed.

(** Three feedback records, one of them accepted, on the empty store. *)
Lemma feedback_counters_follow_history_witness :
  let feedback o := {| feedback_text := "text"; cover_letter_context := "";
                       outcome := o; extracted_insights := [];
                       applied_changes := []; effectiveness_score := 0.5%Q |} in
  let m := run [("t1", AddFeedback (feedback "rejected"));
                ("t2", AddSkill (Samples.skill "Python" ""));
                ("t3", AddFeedback (feedback "accepted"));
                ("t4", AddFeedback (feedback "Accepted"))]
               (empty_memory "t0" "t0") in
  counters_match m
  /\ total_interactions (metadata m) = 3%Z
  /\ successful_generations (metadata m) = 1%Z.
Proof.
  intros feedback m.
  split; [| split; reflexivity].
  apply (feedback_counters_follow_history
           [("t1", AddFeedback (feedback "rejected"));
            ("t2", AddSkill (Samples.skill "Python" ""));
            ("t3", AddFeedback (feedback "accepted"));
            ("t4", AddFeedback (feedback "Accepted"))]
           (empty_memory "t0" "t0")).
  split; reflexivity.
Defined.

(** X4.  [search_memory] returns exactly the skills whose name or context
    contains the query, and the feedback records whose text contains it,
    all compared in lower case. *)
Theorem search_memory_hits :
  forall (query : string) (m : MemoryData) (h : hit),
    In h (search_memory query m)
    <-> match h with
        | SkillHit skill_data =>
            In skill_data (values (skills m))
            /\ (Substring (lower query) (lower (skill_name skill_data))
                \/ Substring (lower query) (lower (context skill_data)))
        | FeedbackHit feedback =>
            In feedback (feedback_history m)
            /\ Substring (lower query) (lower (feedback_text feedback))
        end.
Proof.
  intros query m h. unfold search_memory. rewrite in_app_iff, !in_map_iff.
  destruct h as [s | f]; split.
  - intros [(x & [= ->] & Hin) | (x & [=] & _)].
    apply filter_In in Hin. destruct Hin as [Hin Hc].
    split; [assumption |]. apply orb_true_iff in Hc.
    now rewrite <- !contains_spec.
  - intros [Hin Hc]. left. exists s. split; [reflexivity |].
    apply filter_In. split; [assumption |].
    apply orb_true_iff. now rewrite !contains_spec.
  - intros [(x & [=] & _) | (x & [= ->] & Hin)].
    apply filter_In in Hin. destruct Hin as [Hin Hc].
    split; [assumption | now apply contains_spec].
  - intros [Hin Hc]. right. exists f. split; [reflexivity |].
    apply filter_In. split; [assumption | now apply contains_spec].
Qed.

Lemma lower_char_idempotent (c : ascii) : lower_char (lower_char c) = lower_char c.
Proof.
  destruct c as [[] [] [] [] [] [] [] []]; vm_compute; reflexivity.
Qed.

Lemma lower_idempotent (s : string) : lower (lower s) = lower s.
Proof.
  induction s as [| c s IH]; simpl; [reflexivity |].
  now rewrite lower_char_idempotent, IH.
Qed.

Lemma contains_empty (s : string) : contains "" s = true.
Proof. destruct s; reflexivity. Qed.

Lemma filter_all {A : Type} (p : A -> bool) (l : list A) :
  (forall x, p x = true) -> filter p l = l.
Proof.
  intros Hp. induction l as [| x l IH]; simpl; [reflexivity |].
  now rewrite Hp, IH.
Qed.

(** X5.  The search does not depend on the case of the query, and the
    empty query returns every skill, in the order of the store, followed
    by every feedback record. *)
Theorem search_memory_query_case_and_empty :
  forall (query : string) (m : MemoryData),
    search_memory (lower query) m = search_memory query m
    /\ search_memory "" m
       = (map SkillHit (values (skills m))
          ++ map FeedbackHit (feedback_history m))%list.
Proof.
  intros query m. unfold search_memory. split.
  - now rewrite lower_idempotent.
  - simpl lower. rewrite !filter_all; [reflexivity | |]; intros x;
      now rewrite !contains_empty.
Qed.

End StoreOperations.


(* ================================================================== *)
(** ** Months and the generation context *)
(* ================================================================== *)

Section Months.
Import TemporalOps Dates.
Local Open Scope Z_scope.

Lemma monthrange_days (y m : Z) :
  1 <= m <= 12 ->
  exists n, monthrange y m = Done n /\ 28 <= n <= 31.
Proof.
  intros Hm. unfold monthrange.
  assert (E : (1 <=? m) && (m <=? 12) = true)
    by (apply andb_true_iff; split; apply Z.leb_le; lia).
  rewrite E. eexists. split; [reflexivity |].
  assert (Hc : m = 1 \/ m = 2 \/ m = 3 \/ m = 4 \/ m = 5 \/ m = 6 \/ m = 7
               \/ m = 8 \/ m = 9 \/ m = 10 \/ m = 11 \/ m = 12) by lia.
  destruct Hc as [-> | [-> | [-> | [-> | [-> | [-> | [-> | [-> | [-> | [-> |
                 [-> | ->]]]]]]]]]]];
    cbv [nth mdays Z.to_nat Pos.to_nat Pos.iter_op Nat.add Z.eqb Pos.eqb andb];
    try lia.
  destruct (isleap y); lia.
Qed.

(** The outcome of [_add_months] on a date of the calendar. *)
Lemma _add_months_outcome (d : datetime) (months : Z) :
  valid_date d ->
  let y := (month_index d + months) / 12 in
  let m := (month_index d + months) mod 12 + 1 in
  _add_months d months
  = if (1 <=? y) && (y <=? 9999)
    then Done {| year := y; month := m;
                 day := Z.min (day d) (days_in_month y m);
                 hour := hour d; minute := minute d; second := second d;
                 microsecond := microsecond d |}
    else Failed ValueError.
Proof.
  intros (Hy & Hm & Hd) y m. unfold _add_months.
  assert (Ey : year d + (month d + months - 1) / 12 = y).
  { unfold y, month_index.
    replace (12 * year d + (month d - 1) + months)
      with (year d * 12 + (month d + months - 1)) by lia.
    rewrite Z.div_add_l by lia. reflexivity. }
  assert (Em : (month d + months - 1) mod 12 + 1 = m).
  { unfold m, month_index.
    replace (12 * year d + (month d - 1) + months)
      with (month d + months - 1 + year d * 12) by lia.
    rewrite Z.mod_add by lia. reflexivity. }
  rewrite Ey, Em.
  assert (Hm' : 1 <= m <= 12).
  { unfold m. pose proof (Z.mod_pos_bound (month_index d + months) 12). lia. }
  destruct (monthrange_days y m Hm') as (n & En & Hn).
  unfold days_in_month. rewrite En. unfold replace, days_in_month. rewrite En.
  assert (E1 : (1 <=? m) = true) by (apply Z.leb_le; lia).
  assert (E2 : (m <=? 12) = true) by (apply Z.leb_le; lia).
  assert (E3 : (1 <=? Z.min (day d) n) = true) by (apply Z.leb_le; lia).
  assert (E4 : (Z.min (day d) n <=? n) = true) by (apply Z.leb_le; lia).
  rewrite E1, E2, E3, E4, !andb_true_r. reflexivity.
Qed.



Lemma _add_months_done (d : datetime) (months : Z) (d' : datetime) :
  valid_date d ->
  _add_months d months = Done d' ->
  valid_date d'
  /\ year d' = (month_index d + months) / 12
  /\ month d' = (month_index d + months) mod 12 + 1
  /\ month_index d' = month_index d + months
  /\ day d' = Z.min (day d) (days_in_month (year d') (month d'))
  /\ same_time d' d.
Proof.
  intros Hv. rewrite (_add_months_outcome d months Hv).
  set (target := month_index d + months).
  pose proof (Z.mod_pos_bound target 12 ltac:(lia)) as Hm.
  pose proof (Z.div_mod target 12 ltac:(lia)) as Hdm.
  destruct ((1 <=? target / 12) && (target / 12 <=? 9999)) eqn:E;
    [| discriminate].
  intros [= <-]. apply andb_true_iff in E. destruct E as [E1 E2].
  apply Z.leb_le in E1. apply Z.leb_le in E2.
  destruct (monthrange_days (target / 12) (target mod 12 + 1) ltac:(lia))
    as (n & En & Hn).
  destruct Hv as (_ & _ & Hd).
  unfold valid_date, month_index, same_time.
  cbn [year month day hour minute second microsecond].
  unfold days_in_month. rewrite En. repeat split; lia.
Qed.

(** X7.  Two additions of months in a row land in the same month, at the
    same time of day, as one addition of the sum, on a day that is never
    later; the days agree whenever the day of the starting date is at
    most the 28th. *)
Theorem add_months_twice :
  forall (d d1 d2 : datetime) (a b : Z),
    valid_date d ->
    _add_months d a = Done d1 ->
    _add_months d1 b = Done d2 ->
    exists d3,
      _add_months d (a + b) = Done d3
      /\ year d3 = year d2
      /\ month d3 = month d2
      /\ day d2 <= day d3
      /\ same_time d3 d2
      /\ (day d <= 28 -> d3 = d2).
Proof.
  intros d d1 d2 a b Hv H1 H2.
  destruct (_add_months_done d a d1 Hv H1) as (Hv1 & _ & _ & I1 & D1 & T1).
  destruct (_add_months_done d1 b d2 Hv1 H2) as (Hv2 & Y2 & M2 & I2 & D2 & T2).
  rewrite I1 in Y2, M2.
  rewrite (_add_months_outcome d (a + b) Hv).
  replace (month_index d + (a + b)) with (month_index d + a + b) by lia.
  rewrite <- Y2, <- M2.
  destruct Hv2 as (Hy2 & Hm2 & Hd2).
  assert (Ey : (1 <=? year d2) && (year d2 <=? 9999) = true)
    by (apply andb_true_iff; split; apply Z.leb_le; lia).
  rewrite Ey. eexists. split; [reflexivity |].
  cbn [year month day]. unfold same_time in *.
  cbn [hour minute second microsecond].
  destruct (monthrange_days (year d2) (month d2) Hm2) as (n2 & En2 & Hn2).
  destruct Hv1 as (_ & Hm1 & _).
  destruct (monthrange_days (year d1) (month d1) Hm1) as (n1 & En1 & Hn1).
  unfold days_in_month in *. rewrite En2 in *. rewrite En1 in *.
  repeat split; try lia.
  intros H28. destruct d2 as [y2 m2 day2 h2 mi2 s2 u2].
  cbn [year month day hour minute second microsecond] in *.
  f_equal; lia.
Qed.

(** From the last day of January: one month and one month, against two. *)
Lemma add_months_twice_witness :
  let d := {| year := 2025; month := 1; day := 31; hour := 0; minute := 0;
              second := 0; microsecond := 0 |} in
  exists d1 d2 d3,
    _add_months d 1 = Done d1
    /\ _add_months d1 1 = Done d2
    /\ _add_months d (1 + 1) = Done d3
    /\ (month d2, day d2) = (3, 28)
    /\ (month d3, day d3) = (3, 31).
Proof.
  intros d.
  assert (Hv : valid_date d).
  { unfold valid_date. cbn [year month day d].
    change (days_in_month 2025 1) with 31. lia. }
  pose (d1 := {| year := 2025; month := 2; day := 28; hour := 0; minute := 0;
                 second := 0; microsecond := 0 |}).
  pose (d2 := {| year := 2025; month := 3; day := 28; hour := 0; minute := 0;
                 second := 0; microsecond := 0 |}).
  destruct (add_months_twice d d1 d2 1 1 Hv eq_refl eq_refl)
    as (d3 & E3 & _ & M3 & _).
  exists d1, d2, d3. split; [reflexivity |]. split; [reflexivity |].
  split; [exact E3 |]. split; [reflexivity |].
  vm_compute in E3. injection E3 as <-. reflexivity.
Defined.

End Months.


Section GenerationContext.
Import MemoryCore TemporalOps Dates.

Lemma dict_get_append {V : Type} (k k' : string) (x : V) (d : dict (list V)) :
  dict_get k (dict_append k' x d)
  = if String.eqb k' k
    then Some (match dict_get k d with Some l => l | None => [] end ++ [x])
    else dict_get k d.
Proof.
  unfold dict_append.
  destruct (String.eqb_spec k' k) as [-> | Hne].
  - destruct (dict_get k d); now rewrite dict_get_set_same.
  - destruct (dict_get k' d); rewrite dict_get_set_other; congruence.
Qed.

(** The group of a status after the grouping loop. *)
Lemma grouped (k : string) (events : list TemporalMemory) :
  forall status_groups,
    dict_get k (fold_left (fun groups event =>
                             dict_append (status event) event groups)
                          events status_groups)
    = match dict_get k status_groups,
            filter (fun event => String.eqb (status event) k) events with
      | None, [] => None
      | None, group => Some group
      | Some l, group => Some (l ++ group)
      end.
Proof.
  induction events as [| e events IH]; intros groups; cbn [fold_left filter].
  - destruct (dict_get k groups); [now rewrite app_nil_r | reflexivity].
  - rewrite IH, dict_get_append.
    destruct (String.eqb (status e) k).
    + destruct (dict_get k groups); [now rewrite <- app_assoc | reflexivity].
    + reflexivity.
Qed.

Lemma block_line label k events :
  block label k (group_by_status events)
  = line label (filter (fun event => String.eqb (status event) k) events).
Proof.
  unfold block, group_by_status. rewrite grouped. cbn [dict_get].
  destruct (filter _ events); reflexivity.
Qed.

Lemma filter_filter {A : Type} (p q : A -> bool) (l : list A) :
  filter p (filter q l) = filter (fun x => p x && q x) l.
Proof.
  induction l as [| x l IH]; simpl; [reflexivity |].
  destruct (q x); simpl; rewrite ?andb_true_r, ?andb_false_r;
    [destruct (p x) |]; now rewrite IH.
Qed.

Lemma current_with_status (k : string) (m : MemoryData) :
  filter (fun event => String.eqb (status event) k)
         (get_current_temporal_events m)
  = if mem k ["current"; "upcoming"] then with_status k m else [].
Proof.
  unfold get_current_temporal_events, with_status. rewrite filter_filter.
  destruct (mem k ["current"; "upcoming"]) eqn:E.
  - apply filter_ext. intros e.
    destruct (String.eqb_spec (status e) k) as [-> | Hne]; [| reflexivity].
    now rewrite E.
  - induction (temporal_events m) as [| e l IH]; simpl; [reflexivity |].
    destruct (String.eqb_spec (status e) k) as [-> | Hne].
    + unfold mem in E. simpl in E. simpl. rewrite E. exact IH.
    + exact IH.
Qed.

(** X8.  The generation context consists of at most two lines: one that
    lists, after "CURRENTLY: ", the descriptions of the stored events
    with status "current", and one that lists, after "UPCOMING: ", those
    with status "upcoming", both in the order of the store and separated
    by "; ".  No "STARTING SOON" or "RECENTLY COMPLETED" line is ever
    produced, whatever the store holds, and the context is empty exactly
    when the store has no current and no upcoming event. *)
Theorem temporal_context_has_two_blocks :
  forall m : MemoryData,
    get_temporal_context_for_generation m
    = String.concat newline
        (line "CURRENTLY: " (with_status "current" m)
         ++ line "UPCOMING: " (with_status "upcoming" m))
    /\ (get_temporal_context_for_generation m = ""
        <-> with_status "current" m = [] /\ with_status "upcoming" m = []).
Proof.
  intros m.
  assert (E : get_temporal_context_for_generation m
              = String.concat newline
                  (line "CURRENTLY: " (with_status "current" m)
                   ++ line "UPCOMING: " (with_status "upcoming" m))).
  { unfold get_temporal_context_for_generation.
    pose proof (current_with_status "current" m) as Hc.
    pose proof (current_with_status "upcoming" m) as Hu.
    change (mem "current" ["current"; "upcoming"]) with true in Hc.
    change (mem "upcoming" ["current"; "upcoming"]) with true in Hu.
    cbv iota in Hc, Hu.
    destruct (get_current_temporal_events m) as [| e l] eqn:Ev.
    - simpl in Hc, Hu. now rewrite <- Hc, <- Hu.
    - cbv zeta. rewrite <- Ev in Hc, Hu |- *. rewrite !block_line.
      rewrite (current_with_status "starting_soon"),
              (current_with_status "recently_completed"), Hc, Hu.
      change (mem "starting_soon" ["current"; "upcoming"]) with false.
      change (mem "recently_completed" ["current"; "upcoming"]) with false.
      cbv iota. cbn [line app]. now rewrite app_nil_r. }
  split; [exact E |]. rewrite E. split.
  - destruct (with_status "current" m) as [| c cs].
    + destruct (with_status "upcoming" m) as [| u us]; [auto |].
      cbn [line app String.concat]. intros H. discriminate H.
    + cbn [line app]. destruct (line "UPCOMING: " (with_status "upcoming" m));
        cbn [String.concat]; intros H; discriminate H.
  - intros [-> ->]. reflexivity.
Qed.

End GenerationContext.


(* ================================================================== *)
(** ** The selection of skills, for every bound and every description *)
(* ================================================================== *)

Section Selections.
Import MemoryCore RelevanceEngine Notions.
Local Open Scope Q_scope.

Lemma slice_to_firstn {A : Type} (n : Z) (l : list A) :
  exists k : nat,
    slice_to n l = firstn k l
    /\ k = if (0 <=? n)%Z then Z.to_nat n
           else (List.length l - Z.to_nat (- n))%nat.
Proof.
  unfold slice_to. destruct (0 <=? n)%Z; eexists; split; reflexivity.
Qed.

Lemma qualifying_spec a (stored : dict SkillMemory) s :
  In s (qualifying a stored)
  <-> In s (values stored) /\ 0.1 < score_of a s.
Proof.
  unfold qualifying. rewrite filter_In, qlt_spec. reflexivity.
Qed.

(** The selection for an arbitrary bound, in terms of the ranking. *)
Lemma selected_skills_any cache0 memory job (max_skills max_styles : Z) :
  cache_built cache0 ->
  let a := fst (analyze_job_requirements cache0 job) in
  exists sel cache1,
    get_relevant_memories cache0 memory job max_skills max_styles
    = (Returns sel, cache1)
    /\ Selection.relevant_skills sel
       = slice_to max_skills
                  (sort_desc (score_of a) (qualifying a (skills memory)))
    /\ Selection.skill_scores sel
       = fold_left (fun d sk => dict_set (skill_name (fst sk)) (snd sk) d)
                   (map (fun s => (s, score_of a s))
                        (Selection.relevant_skills sel)) []
    /\ Selection.temporal_events sel = get_current_temporal_events memory.
Proof.
  intros Hc a.
  assert (Hok : profile_ok a) by now apply analyze_job_requirements_ok.
  pose proof (score_skills_returns (skills memory) a Hok) as Hs.
  eexists. eexists. split.
  - apply get_relevant_memories_returns. exact Hs.
  - cbn [Selection.relevant_skills Selection.skill_scores
         Selection.temporal_events].
    rewrite sort_desc_map, slice_to_map, map_fst_scored. auto.
Qed.

(** The skills that pass the first loop are skills of the store, each as
    often as the store holds it at most. *)
Lemma score_skills_stored (stored : dict SkillMemory) a : forall scored,
  score_skills stored a = Returns scored ->
  exists rest, Permutation (map fst scored ++ rest) (values stored).
Proof.
  induction stored as [| [k s] stored IH]; intros scored; cbn [score_skills].
  - intros [= <-]. exists []. reflexivity.
  - destruct (score_skill_relevance s a) as [q | e]; cbn [bind];
      [| discriminate].
    destruct (score_skills stored a) as [scored' | e]; cbn [bind];
      [| discriminate].
    destruct (IH scored' eq_refl) as (rest & HP).
    destruct (qlt 0.1 q); intros [= <-].
    + exists rest. cbn [map fst app values snd]. now constructor.
    + exists (s :: rest). cbn [values map snd].
      apply Permutation_sym, Permutation_cons_app, Permutation_sym. exact HP.
Qed.

(** X9.  Whenever the selection returns, for whatever store, description,
    bounds and cache of the engine: its skills are skills of the store,
    none more often than the store holds it; there are at most
    [max_skills] of them for a bound that is not negative, and at most the
    number of stored skills less [-max_skills] for a negative one, as the
    slice [[:max_skills]] cuts; and its events are those of
    [get_current_temporal_events].  Nothing here depends on the value of a
    score. *)
Theorem selection_skills_for_any_bound :
  forall (cache0 : cache) (memory : MemoryData) (job : string)
         (max_skills max_styles : Z) (sel : Selection.t) (cache1 : cache),
    get_relevant_memories cache0 memory job max_skills max_styles
    = (Returns sel, cache1) ->
    let chosen := Selection.relevant_skills sel in
    let stored := values (skills memory) in
    (exists rest, Permutation (chosen ++ rest) stored)
    /\ (forall s, In s chosen -> In s stored)
    /\ (List.length chosen <= List.length stored)%nat
    /\ ((0 <= max_skills)%Z -> (Z.of_nat (List.length chosen) <= max_skills)%Z)
    /\ ((max_skills < 0)%Z ->
        (Z.of_nat (List.length chosen)
         <= Z.max 0 (Z.of_nat (List.length stored) + max_skills))%Z)
    /\ Selection.temporal_events sel = get_current_temporal_events memory.
Proof.
  intros cache0 memory job max_skills max_styles sel cache1 Hsel chosen stored.
  destruct (get_relevant_memories_inv _ _ _ _ _ _ _ Hsel) as (scored & Hscored).
  pose proof (get_relevant_memories_returns
                cache0 memory job max_skills max_styles scored Hscored) as E.
  rewrite Hsel in E. injection E as Esel _.
  assert (Hchosen : chosen
                    = map fst (slice_to max_skills (sort_desc snd scored)))
    by (unfold chosen; rewrite Esel; reflexivity).
  assert (Hevents : Selection.temporal_events sel
                    = get_current_temporal_events memory)
    by (rewrite Esel; reflexivity).
  clear Esel Hsel.
  destruct (slice_to_firstn max_skills (sort_desc snd scored)) as (k & Hk & Hkv).
  rewrite Hk in Hchosen.
  destruct (score_skills_stored (skills memory) _ scored Hscored)
    as (rest & HP).
  fold stored in HP.
  assert (Hall : Permutation
                   (chosen ++ map fst (skipn k (sort_desc snd scored)) ++ rest)
                   stored).
  { rewrite Hchosen, app_assoc, <- map_app, firstn_skipn.
    rewrite <- HP. apply Permutation_app_tail, Permutation_map.
    apply sort_desc_perm. }
  assert (Hsorted : List.length (sort_desc snd scored) = List.length scored)
    by (apply Permutation_length, sort_desc_perm).
  assert (Hscoredlen : (List.length scored <= List.length stored)%nat).
  { apply Permutation_length in HP. rewrite length_app, length_map in HP. lia. }
  assert (Hlen : List.length chosen = Nat.min k (List.length scored)).
  { rewrite Hchosen, length_map, length_firstn, Hsorted. reflexivity. }
  split; [eexists; exact Hall |].
  split.
  { intros s Hin. apply (Permutation_in _ Hall). apply in_or_app. now left. }
  split; [lia |].
  split; [| split; [| exact Hevents]].
  - intros Hpos. apply Z.leb_le in Hpos. rewrite Hpos in Hkv. lia.
  - intros Hneg. apply Z.leb_gt in Hneg. rewrite Hneg, Hsorted in Hkv. lia.
Qed.

(** A negative bound on a store of ten skills: at most nine are returned. *)
Lemma selection_skills_for_any_bound_witness :
  exists sel cache1,
    get_relevant_memories [] Samples.ten_skills Samples.network_job (-1) 5
    = (Returns sel, cache1)
    /\ (Z.of_nat (List.length (Selection.relevant_skills sel)) <= 9)%Z
    /\ forall s, In s (Selection.relevant_skills sel) ->
                 In s (values (skills Samples.ten_skills)).
Proof.
  destruct (get_relevant_memories [] Samples.ten_skills Samples.network_job
                                  (-1) 5) as [[sel | e] cache1] eqn:E.
  - exists sel, cache1. split; [reflexivity |].
    destruct (selection_skills_for_any_bound
                [] Samples.ten_skills Samples.network_job (-1) 5 sel cache1 E)
      as (_ & Hin & _ & _ & Hneg & _).
    split; [| exact Hin].
    specialize (Hneg ltac:(reflexivity)).
    change (List.length (values (skills Samples.ten_skills))) with 10%nat in Hneg.
    lia.
  - exfalso. vm_compute in E. discriminate E.
Defined.

(** *** Blank descriptions *)

Lemma is_space_lower (c : ascii) : is_space c = true -> lower_char c = c.
Proof.
  destruct c as [[] [] [] [] [] [] [] []]; vm_compute;
    intros H; (reflexivity || discriminate H).
Qed.

Lemma blank_lower (s : string) : blank s = true -> lower s = s.
Proof.
  induction s as [| c s IH]; simpl; [reflexivity |].
  intros H. apply andb_true_iff in H. destruct H as [Hc Hs].
  now rewrite (is_space_lower c Hc), IH.
Qed.

Lemma blank_lstrip (s : string) : blank s = true -> lstrip s = EmptyString.
Proof.
  induction s as [| c s IH]; simpl; [reflexivity |].
  intros H. apply andb_true_iff in H. destruct H as [-> Hs]. now apply IH.
Qed.

Lemma blank_cache_key (job : string) : blank job = true -> cache_key job = "".
Proof.
  intros H. unfold cache_key, strip.
  rewrite (blank_lower job H), (blank_lstrip job H). reflexivity.
Qed.

Lemma domain_score_blank (kws : list string) (t : string) (w : Q) :
  blank t = true -> domain_score kws t w == 0.
Proof.
  intros Hb. unfold domain_score.
  assert (H : forall acc,
             fold_left (fun score keyword =>
                          score + inject_Z (Z.of_nat (Re.count_word keyword t)) * w)
                       kws acc == acc).
  { induction kws as [| kw kws IH]; intros acc; cbn [fold_left].
    - reflexivity.
    - rewrite IH, (count_word_blank kw t Hb). simpl. ring. }
  apply H.
Qed.

Lemma analyze_domains_blank table t w scores :
  blank t = true -> analyze_domains table t w scores = scores.
Proof.
  intros Hb. unfold analyze_domains. revert scores.
  induction table as [| [domain kws] table IH]; intros scores; cbn [fold_left].
  - reflexivity.
  - assert (E : qlt 0 (domain_score kws t w) = false).
    { apply qlt_false. rewrite (domain_score_blank kws t w Hb). apply Qle_refl. }
    rewrite E. apply IH.
Qed.

Lemma score_content_blank table t : blank t = true -> score_content table t = 0%nat.
Proof.
  intros Hb. unfold score_content.
  assert (H : forall acc,
             fold_left
               (fun score '(domain, keywords) =>
                  fold_left (fun score keyword =>
                               (score + Re.count_word keyword t)%nat)
                            keywords score)
               table acc = acc).
  { induction table as [| [domain kws] table IH]; intros acc; cbn [fold_left].
    - reflexivity.
    - rewrite IH. clear IH. revert acc.
      induction kws as [| kw kws IHk]; intros acc; cbn [fold_left].
      + reflexivity.
      + rewrite IHk, (count_word_blank kw t Hb). lia. }
  apply H.
Qed.

(** The analysis of a description with the key of the empty one. *)
Lemma build_analysis_of_blank job :
  cache_key job = "" ->
  let a := build_analysis job in
  JobAnalysis.required_skills a = []
  /\ JobAnalysis.preferred_skills a = []
  /\ JobAnalysis.tech_domains a = []
  /\ JobAnalysis.business_domains a = []
  /\ JobAnalysis.job_role_type a = "unknown"%string
  /\ JobAnalysis.primary_focus a = "technical"%string.
Proof.
  intros Hk a. unfold cache_key in Hk. apply strip_empty_blank in Hk.
  subst a. unfold build_analysis.
  cbn [JobAnalysis.required_skills JobAnalysis.preferred_skills
       JobAnalysis.tech_domains JobAnalysis.business_domains
       JobAnalysis.job_role_type JobAnalysis.primary_focus].
  split; [apply extract_skills_blank; [vm_compute; reflexivity | assumption] |].
  split; [apply extract_skills_blank; [vm_compute; reflexivity | assumption] |].
  unfold analyze_role_and_domains.
  rewrite (_classify_job_role_blank (lower job) Hk).
  change (mem "unknown" ["business_analyst"; "finance"; "project_management"])
    with false.
  change (String.eqb "unknown" "technical_it") with false. cbv iota.
  unfold _score_business_content, _score_technical_content.
  rewrite !(score_content_blank _ (lower job) Hk).
  change (0 <? 0)%nat with false. cbv iota.
  unfold _analyze_business_requirements, _analyze_technical_requirements,
         with_role, initial_analysis.
  cbn [JobAnalysis.required_skills JobAnalysis.preferred_skills
       JobAnalysis.tech_domains JobAnalysis.business_domains
       JobAnalysis.job_role_type JobAnalysis.primary_focus].
  rewrite !(analyze_domains_blank _ (lower job) _ _ Hk). auto.
Qed.

Lemma score_of_blank_analysis a s :
  JobAnalysis.required_skills a = [] ->
  JobAnalysis.preferred_skills a = [] ->
  JobAnalysis.tech_domains a = [] ->
  JobAnalysis.job_role_type a = "unknown"%string ->
  JobAnalysis.primary_focus a = "technical"%string ->
  score_of a s == 0.
Proof.
  intros Hr Hp Ht Hrole Hfocus. unfold score_of, score_skill_relevance.
  cbv zeta. unfold _score_technical_skill.
  rewrite Hr, Hp, Ht, Hrole, Hfocus. vm_compute. reflexivity.
Qed.

(** X11.  A description made of whitespace only (the empty one included)
    selects no skill from any store, whatever analyses the cache of the
    engine already holds: every stored skill scores 0.  The current and
    upcoming events are still selected. *)
Theorem blank_description_selects_no_skill :
  forall (cache0 : cache) (memory : MemoryData) (job : string)
         (max_skills max_styles : Z),
    cache_built cache0 ->
    blank job = true ->
    exists sel cache1,
      get_relevant_memories cache0 memory job max_skills max_styles
      = (Returns sel, cache1)
      /\ (forall s, score_of (Selection.job_analysis sel) s == 0)
      /\ Selection.relevant_skills sel = []
      /\ Selection.skill_scores sel = []
      /\ Selection.temporal_events sel = get_current_temporal_events memory.
Proof.
  intros cache0 memory job max_skills max_styles Hc Hb.
  destruct (selected_skills_any cache0 memory job max_skills max_styles Hc)
    as (sel & cache1 & Hsel & Hskills & Hscores & Hev).
  assert (Ha : Selection.job_analysis sel
               = fst (analyze_job_requirements cache0 job)).
  { assert (Hok : profile_ok (fst (analyze_job_requirements cache0 job)))
      by now apply analyze_job_requirements_ok.
    pose proof (score_skills_returns (skills memory) _ Hok) as Hs.
    rewrite (get_relevant_memories_returns _ _ _ _ _ _ Hs) in Hsel.
    injection Hsel as <- _. reflexivity. }
  destruct (analyze_job_requirements_built cache0 job Hc)
    as [(job' & Hk & Hbuilt) _].
  rewrite (blank_cache_key job Hb) in Hk.
  destruct (build_analysis_of_blank job' Hk) as (Hr & Hp & Ht & _ & Hrole & Hf).
  rewrite <- Hbuilt in Hr, Hp, Ht, Hrole, Hf.
  assert (Hzero : forall s,
             score_of (fst (analyze_job_requirements cache0 job)) s == 0)
    by (intros s; now apply score_of_blank_analysis).
  assert (Hq : qualifying (fst (analyze_job_requirements cache0 job))
                          (skills memory) = []).
  { unfold qualifying.
    induction (values (skills memory)) as [| s l IH]; [reflexivity |].
    cbn [filter].
    assert (E : qlt 0.1 (score_of (fst (analyze_job_requirements cache0 job)) s)
                = false).
    { apply qlt_false. rewrite (Hzero s). lra. }
    now rewrite E. }
  exists sel, cache1. split; [exact Hsel |].
  rewrite Hq in Hskills.
  assert (Hnil : Selection.relevant_skills sel = []).
  { rewrite Hskills. unfold slice_to.
    destruct (0 <=? max_skills)%Z; apply firstn_nil. }
  split; [rewrite Ha; exact Hzero |].
  split; [exact Hnil |].
  split; [rewrite Hscores, Hnil; reflexivity | exact Hev].
Qed.

(** A description of blanks and a line feed, on the store of ten skills. *)
Lemma blank_description_selects_no_skill_witness :
  let job := String " " (String (ascii_of_nat 10) " ") in
  cache_built []
  /\ blank job = true
  /\ exists sel cache1,
      get_relevant_memories [] Samples.ten_skills job 15 5 = (Returns sel, cache1)
      /\ Selection.relevant_skills sel = [].
Proof.
  intros job.
  assert (H0 : cache_built []) by (intros key x H; discriminate H).
  split; [exact H0 |]. split; [reflexivity |].
  destruct (blank_description_selects_no_skill
              [] Samples.ten_skills job 15 5 H0 eq_refl)
    as (sel & cache1 & E & _ & N & _).
  exists sel, cache1. split; [exact E | exact N].
Defined.

(** X12.  Once a description has been analysed, every description with
    the same key (the same text up to letter case and surrounding
    whitespace) is answered from the cache: it gets the analysis of the
    first description, and the cache is left as it is. *)
Theorem analysis_is_shared_by_key :
  forall (cache0 : cache) (job job' : string),
    cache_key job' = cache_key job ->
    let r := analyze_job_requirements cache0 job in
    analyze_job_requirements (snd r) job' = r.
Proof.
  intros cache0 job job' Hk. unfold analyze_job_requirements. rewrite Hk.
  destruct (dict_get (cache_key job) cache0) as [a |] eqn:E; cbn [snd].
  - now rewrite E.
  - now rewrite dict_get_set_same.
Qed.

(** The same words in capitals, with blanks around them. *)
Lemma analysis_is_shared_by_key_witness :
  let r := analyze_job_requirements [] "Network engineer" in
  cache_key "  NETWORK Engineer " = cache_key "Network engineer"
  /\ analyze_job_requirements (snd r) "  NETWORK Engineer " = r.
Proof.
  intros r.
  assert (Hk : cache_key "  NETWORK Engineer " = cache_key "Network engineer")
    by reflexivity.
  split; [exact Hk |].
  exact (analysis_is_shared_by_key [] "Network engineer" "  NETWORK Engineer " Hk).
Defined.

End Selections.


(* ================================================================== *)
(** ** The semantic similarity as a measure *)
(* ================================================================== *)

Section SimilarityMeasure.
Import MemoryCore SemanticMatcher AdvancedRelevanceEngine Notions.
Local Open Scope Q_scope.

Lemma distinct_in (x : string) (l : list string) : In x (distinct l) <-> In x l.
Proof.
  induction l as [| y l IH]; simpl; [tauto |].
  destruct (mem y l) eqn:E.
  - rewrite IH. apply mem_spec in E. split; [auto |].
    intros [<- | H]; auto.
  - simpl. rewrite IH. tauto.
Qed.

Lemma distinct_nodup (l : list string) : NoDup (distinct l).
Proof.
  induction l as [| y l IH]; simpl; [constructor |].
  destruct (mem y l) eqn:E; [exact IH |].
  constructor; [| exact IH].
  rewrite distinct_in, <- mem_spec. congruence.
Qed.

Lemma same_members_same_length (A B : list string) :
  NoDup A -> NoDup B -> (forall x, In x A <-> In x B) ->
  List.length A = List.length B.
Proof.
  intros Ha Hb H. apply Permutation_length. now apply NoDup_Permutation.
Qed.

Lemma overlap_symmetric (A B : list string) :
  NoDup A -> NoDup B ->
  List.length (filter (fun t => mem t B) A)
  = List.length (filter (fun t => mem t A) B).
Proof.
  intros Ha Hb.
  apply same_members_same_length; try now apply NoDup_filter.
  intros x. rewrite !filter_In, !mem_spec. tauto.
Qed.

Lemma union_symmetric (A B : list string) :
  List.length (distinct (A ++ B)) = List.length (distinct (B ++ A)).
Proof.
  apply same_members_same_length; try apply distinct_nodup.
  intros x. rewrite !distinct_in, !in_app_iff. tauto.
Qed.

Lemma jaccard_symmetric (A B : list string) :
  NoDup A -> NoDup B -> jaccard A B = jaccard B A.
Proof.
  intros Ha Hb. unfold jaccard.
  now rewrite (overlap_symmetric A B Ha Hb), (union_symmetric A B).
Qed.

(** The layers of the similarity, the last one by the Jaccard measure. *)
Lemma similarity_layers (skill requirement : string) :
  let s := strip (lower skill) in
  let r := strip (lower requirement) in
  calculate_semantic_similarity skill requirement
  = if String.eqb s r then 1.0
    else if String.eqb (normalized s) (normalized r) then 0.95
    else if contains s r || contains r s then 0.8
    else if match _find_cluster s, _find_cluster r with
            | Some a, Some b => String.eqb a b
            | _, _ => false
            end then 0.7
    else if qlt 0.3 (jaccard (tokens s) (tokens r))
    then jaccard (tokens s) (tokens r) * 0.6
    else 0.0.
Proof.
  intros s r. unfold calculate_semantic_similarity. fold s. fold r.
  rewrite token_layer. reflexivity.
Qed.

(** X13.  The similarity is symmetric: the skill and the requirement can
    be exchanged without changing the value. *)
Theorem semantic_similarity_symmetric :
  forall skill requirement : string,
    calculate_semantic_similarity skill requirement
    = calculate_semantic_similarity requirement skill.
Proof.
  intros skill requirement.
  rewrite (similarity_layers skill requirement),
          (similarity_layers requirement skill). cbv zeta.
  set (s := strip (lower skill)). set (r := strip (lower requirement)).
  rewrite (String.eqb_sym r s).
  destruct (String.eqb s r); [reflexivity |].
  rewrite (String.eqb_sym (normalized r) (normalized s)).
  destruct (String.eqb (normalized s) (normalized r)); [reflexivity |].
  rewrite (orb_comm (contains r s)).
  destruct (contains s r || contains r s); [reflexivity |].
  assert (E : match _find_cluster r, _find_cluster s with
              | Some a, Some b => String.eqb a b
              | _, _ => false
              end
              = match _find_cluster s, _find_cluster r with
                | Some a, Some b => String.eqb a b
                | _, _ => false
                end).
  { destruct (_find_cluster r), (_find_cluster s); try reflexivity.
    apply String.eqb_sym. }
  rewrite E.
  destruct (match _find_cluster s, _find_cluster r with
            | Some a, Some b => String.eqb a b
            | _, _ => false
            end); [reflexivity |].
  now rewrite (jaccard_symmetric (tokens s) (tokens r))
    by apply distinct_nodup.
Qed.

Lemma jaccard_range (A B : list string) : NoDup A -> 0 <= jaccard A B <= 1.
Proof.
  intros Ha. unfold jaccard.
  set (o := List.length (filter (fun t => mem t B) A)).
  set (u := List.length (distinct (A ++ B))).
  assert (Hou : (o <= u)%nat).
  { unfold o, u.
    transitivity (List.length A); [apply filter_length_le |].
    apply NoDup_incl_length; [assumption |].
    intros x Hx. apply distinct_in, in_or_app. now left. }
  destruct (0 <? u)%nat eqn:E; [| lra].
  apply Nat.ltb_lt in E.
  assert (Hu : 0 < inject_Z (Z.of_nat u)).
  { change 0 with (inject_Z 0). rewrite <- Zlt_Qlt. lia. }
  assert (Ho : 0 <= inject_Z (Z.of_nat o)).
  { change 0 with (inject_Z 0). rewrite <- Zle_Qle. lia. }
  assert (Hle : inject_Z (Z.of_nat o) <= inject_Z (Z.of_nat u)).
  { rewrite <- Zle_Qle. lia. }
  split.
  - apply Qle_shift_div_l; [assumption | lra].
  - apply Qle_shift_div_r; [assumption | lra].
Qed.

(** The values of the similarity. *)
Lemma similarity_values (skill requirement : string) :
  let v := calculate_semantic_similarity skill requirement in
  (strip (lower skill) = strip (lower requirement) /\ v = 1.0)
  \/ (strip (lower skill) <> strip (lower requirement) /\ 0 <= v <= 0.95).
Proof.
  rewrite (similarity_layers skill requirement). cbv zeta.
  set (s := strip (lower skill)). set (r := strip (lower requirement)).
  destruct (String.eqb_spec s r) as [E | Hne]; [left; auto | right].
  split; [exact Hne |].
  destruct (String.eqb (normalized s) (normalized r)); [lra |].
  destruct (contains s r || contains r s); [lra |].
  destruct (match _find_cluster s, _find_cluster r with
            | Some a, Some b => String.eqb a b
            | _, _ => false
            end); [lra |].
  pose proof (jaccard_range (tokens s) (tokens r) (distinct_nodup _)) as H.
  destruct (qlt 0.3 (jaccard (tokens s) (tokens r))); lra.
Qed.

Lemma similarity_bounds (skill requirement : string) :
  0 <= calculate_semantic_similarity skill requirement <= 1.
Proof.
  destruct (similarity_values skill requirement) as [[_ Hv] | [_ Hv]];
    cbv zeta in Hv; [rewrite Hv |]; lra.
Qed.

Lemma similarity_of_equals (skill requirement : string) :
  strip (lower skill) = strip (lower requirement) ->
  calculate_semantic_similarity skill requirement = 1.0.
Proof.
  intros E.
  destruct (similarity_values skill requirement) as [[_ Hv] | [Hne _]];
    [exact Hv | contradiction].
Qed.

(** X14.  The similarity of two terms lies between 0 and 1, and it is 1
    exactly when the two terms are equal up to letter case and
    surrounding whitespace; any other pair is rated at most 0.95. *)
Theorem semantic_similarity_range :
  forall skill requirement : string,
    let v := calculate_semantic_similarity skill requirement in
    0 <= v <= 1
    /\ (v == 1 <-> strip (lower skill) = strip (lower requirement))
    /\ (strip (lower skill) <> strip (lower requirement) -> v <= 0.95).
Proof.
  intros skill requirement v.
  destruct (similarity_values skill requirement) as [[E Hv] | [Hne Hv]];
    fold v in Hv.
  - rewrite Hv. split; [lra |]. split; [| intros H; contradiction].
    split; [intros _; exact E | intros _; reflexivity].
  - split; [lra |]. split; [| intros _; lra].
    split; [intros H; rewrite H in Hv; lra | intros E; contradiction].
Qed.

(** Two spellings of one term, and two terms of one cluster. *)
Lemma semantic_similarity_range_witness :
  calculate_semantic_similarity "  Python " "python" == 1
  /\ strip (lower "MySQL") <> strip (lower "PostgreSQL")
  /\ calculate_semantic_similarity "MySQL" "PostgreSQL" <= 0.95.
Proof.
  destruct (semantic_similarity_range "  Python " "python") as (_ & [_ H1] & _).
  split; [apply H1; reflexivity |].
  assert (Hne : strip (lower "MySQL") <> strip (lower "PostgreSQL"))
    by (vm_compute; discriminate).
  split; [exact Hne |].
  destruct (semantic_similarity_range "MySQL" "PostgreSQL") as (_ & _ & H2).
  exact (H2 Hne).
Defined.

(** *** The base score of a skill that the description requires *)

Lemma best_similarity_range name terms factor best :
  0 <= factor ->
  let v := best_similarity name terms factor best in
  best <= v
  /\ (forall bound, best <= bound -> factor <= bound -> v <= bound)
  /\ (forall term, In term terms ->
                   calculate_semantic_similarity name term * factor <= v).
Proof.
  intros Hf. unfold best_similarity. revert best.
  induction terms as [| t terms IH]; intros best; cbn [fold_left].
  - split; [lra |]. split; [intros; lra | intros term []].
  - set (x := calculate_semantic_similarity name t * factor).
    pose proof (similarity_bounds name t) as Hx.
    destruct (py_max_spec best x) as (Ha & Hb & Hc).
    destruct (IH (py_max best x)) as (H1 & H2 & H3).
    assert (Hxf : x <= factor) by (unfold x; nra).
    split; [lra |]. split.
    + intros bound Hbest Hfb. apply H2; [| assumption].
      destruct Hc as [-> | ->]; lra.
    + intros term [<- | Hin]; [fold x; lra | now apply H3].
Qed.

(** X15.  A skill whose name equals, up to letter case and surrounding
    whitespace, a skill the description requires gets the highest base
    score there is, 0.9, and with it the highest confidence, 0.95,
    whatever else the analysis holds. *)
Theorem required_skill_gets_full_base_score :
  forall (skill_data : SkillMemory) (job_analysis : JobAnalysisResult.t)
         (required_skill : string),
    In required_skill (JobAnalysisResult.required_skills job_analysis) ->
    strip (lower (skill_name skill_data)) = strip (lower required_skill) ->
    let score := score_skill skill_data job_analysis in
    SkillRelevanceScore.base_score score == 0.9
    /\ SkillRelevanceScore.confidence score = 0.95.
Proof.
  intros skill_data job_analysis required_skill Hin Heq score.
  unfold score, score_skill. cbv zeta.
  cbn [SkillRelevanceScore.base_score SkillRelevanceScore.confidence].
  set (name := lower (skill_name skill_data)).
  set (b1 := best_similarity name
               (map lower (JobAnalysisResult.required_skills job_analysis))
               0.9 0.0).
  set (b2 := best_similarity name
               (map lower (JobAnalysisResult.preferred_skills job_analysis))
               0.6 b1).
  destruct (best_similarity_range name
              (map lower (JobAnalysisResult.required_skills job_analysis))
              0.9 0.0 ltac:(lra)) as (_ & Hup1 & Hlow1).
  fold b1 in Hup1, Hlow1.
  destruct (best_similarity_range name
              (map lower (JobAnalysisResult.preferred_skills job_analysis))
              0.6 b1 ltac:(lra)) as (Hge2 & Hup2 & _).
  fold b2 in Hge2, Hup2.
  assert (Hone : calculate_semantic_similarity name (lower required_skill) == 1).
  { rewrite similarity_of_equals; [reflexivity |]. unfold name.
    rewrite !lower_idempotent. exact Heq. }
  assert (H1 : 0.9 <= b1).
  { specialize (Hlow1 (lower required_skill) (in_map lower _ _ Hin)).
    rewrite Hone in Hlow1. lra. }
  assert (H1' : b1 <= 0.9) by (apply Hup1; lra).
  assert (H2 : b2 <= 0.9) by (apply Hup2; lra).
  split; [lra |].
  unfold _calculate_confidence.
  assert (E : qlt 0.8 b2 = true) by (apply qlt_spec; lra).
  now rewrite E.
Qed.

(** "Python", required by a description and stored in capitals. *)
Lemma required_skill_gets_full_base_score_witness :
  let job_analysis :=
    AdvancedRelevanceEngine.build_analysis "Network engineer. Required: Python." in
  let score := score_skill (Samples.skill " PYTHON" "") job_analysis in
  In "python"%string (JobAnalysisResult.required_skills job_analysis)
  /\ SkillRelevanceScore.base_score score == 0.9
  /\ SkillRelevanceScore.confidence score = 0.95.
Proof.
  intros job_analysis score.
  assert (Hin : In "python"%string
                   (JobAnalysisResult.required_skills job_analysis))
    by (vm_compute; left; reflexivity).
  split; [exact Hin |].
  exact (required_skill_gets_full_base_score
           (Samples.skill " PYTHON" "") job_analysis "python" Hin eq_refl).
Defined.

End SimilarityMeasure.


(* ================================================================== *)
(** ** The winner of a classification and its confidence *)
(* ================================================================== *)

Section Winners.
Import IndustryClassifier AdvancedRelevanceEngine.

Lemma argmax_entry (d : dict nat) : forall best v,
  In (argmax d best v, Nat.max v (max_value d)) ((best, v) :: d).
Proof.
  unfold max_value, values.
  induction d as [| [k w] d IH]; intros best v; simpl.
  - left. f_equal. lia.
  - destruct (v <? w)%nat eqn:E.
    + apply Nat.ltb_lt in E. right.
      replace (Nat.max v (Nat.max w (fold_right Nat.max 0 (map snd d))))
        with (Nat.max w (fold_right Nat.max 0 (map snd d))) by lia.
      apply IH.
    + apply Nat.ltb_ge in E.
      replace (Nat.max v (Nat.max w (fold_right Nat.max 0 (map snd d))))
        with (Nat.max v (fold_right Nat.max 0 (map snd d))) by lia.
      destruct (IH best v) as [H | H]; [left | right; right]; assumption.
Qed.

(** [max(d, key=d.get)] names an entry with the greatest value. *)
Lemma max_key_entry (d : dict nat) (k : string) :
  max_key d = Some k -> In (k, max_value d) d.
Proof.
  destruct d as [| [k0 v0] d]; cbn [max_key]; [discriminate |].
  intros [= <-]. apply (argmax_entry d k0 v0).
Qed.

Lemma max_value_bounds (d : dict nat) k v :
  In (k, v) d -> v <= max_value d.
Proof.
  unfold max_value, values. induction d as [| [k' w] d IH]; simpl.
  - intros [].
  - intros [[= -> ->] | H]; [lia |]. specialize (IH H). lia.
Qed.

Lemma sum_values_from (l : list nat) : forall acc,
  fold_left Nat.add l acc = acc + fold_left Nat.add l 0.
Proof.
  induction l as [| x l IH]; intros acc; cbn [fold_left]; [lia |].
  rewrite (IH (acc + x)), (IH (0 + x)). lia.
Qed.

(** With positive values, the sum exceeds the greatest value by at least
    the number of the other entries. *)
Lemma sum_over_max (d : dict nat) :
  (forall k v, In (k, v) d -> 0 < v) ->
  d <> [] ->
  max_value d + (List.length d - 1) <= sum_values d
  /\ 0 < max_value d
  /\ (List.length d = 1 -> sum_values d = max_value d).
Proof.
  unfold sum_values, max_value, values.
  induction d as [| [k v] d IH]; [congruence |].
  intros Hpos _.
  assert (Hv : 0 < v) by (apply (Hpos k v); now left).
  change (fold_left Nat.add (map snd ((k, v) :: d)) 0)
    with (fold_left Nat.add (map snd d) (0 + v)).
  change (fold_right Nat.max 0 (map snd ((k, v) :: d)))
    with (Nat.max v (fold_right Nat.max 0 (map snd d))).
  change (List.length ((k, v) :: d)) with (S (List.length d)).
  rewrite sum_values_from.
  destruct d as [| e d].
  - simpl. lia.
  - destruct IH as (IH1 & IH2 & _); [| discriminate |].
    + intros k' v' H. apply (Hpos k' v'). now right.
    + set (m := fold_right Nat.max 0 (map snd (e :: d))) in *.
      set (t := fold_left Nat.add (map snd (e :: d)) 0) in *.
      change (List.length (e :: d)) with (S (List.length d)) in *.
      lia.
Qed.

Lemma scored_entries {C : Type} (f : C -> nat) (P : string * nat -> Prop)
      (table : dict C) :
  forall scores,
    (forall name cfg, In (name, cfg) table -> 0 < f cfg -> P (name, f cfg)) ->
    Forall P scores ->
    Forall P (fold_left
                (fun scores '(name, cfg) =>
                   let score := f cfg in
                   if (0 <? score)%nat then dict_set name score scores
                   else scores)
                table scores).
Proof.
  induction table as [| [name cfg] table IH]; intros scores Hp Hs;
    cbn [fold_left]; [assumption |].
  apply IH.
  - intros n c Hin. apply Hp. now right.
  - cbv zeta. destruct (0 <? f cfg)%nat eqn:E; [| assumption].
    apply dict_set_entries; [| assumption].
    apply Hp; [now left | now apply Nat.ltb_lt].
Qed.

Lemma ratio_range (m s : nat) :
  0 < m -> m <= s ->
  (0 < inject_Z (Z.of_nat m) / inject_Z (Z.of_nat s) <= 1)%Q
  /\ ((inject_Z (Z.of_nat m) / inject_Z (Z.of_nat s) == 1)%Q <-> m = s).
Proof.
  intros Hm Hs.
  assert (H0 : (0 < inject_Z (Z.of_nat s))%Q).
  { change 0%Q with (inject_Z 0). rewrite <- Zlt_Qlt. lia. }
  assert (H1 : (0 < inject_Z (Z.of_nat m))%Q).
  { change 0%Q with (inject_Z 0). rewrite <- Zlt_Qlt. lia. }
  assert (H2 : (inject_Z (Z.of_nat m) <= inject_Z (Z.of_nat s))%Q).
  { rewrite <- Zle_Qle. lia. }
  assert (H3 : ~ (inject_Z (Z.of_nat s) == 0)%Q)
    by (apply Qnot_eq_sym, Qlt_not_eq; exact H0).
  split; [split |].
  - apply Qlt_shift_div_l; [assumption |]. now rewrite Qmult_0_l.
  - apply Qle_shift_div_r; [assumption |]. now rewrite Qmult_1_l.
  - split.
    + intros E.
      assert (E' : (inject_Z (Z.of_nat m) == inject_Z (Z.of_nat s))%Q).
      { rewrite <- (Qmult_div_r (inject_Z (Z.of_nat m)) (inject_Z (Z.of_nat s)))
          by exact H3.
        rewrite E. ring. }
      pose proof (proj1 (inject_Z_injective _ _) E'). lia.
    + intros ->. field. exact H3.
Qed.

(** X16.  [classify_industry] either finds no industry, and then answers
    "general" with confidence 0.5 and no scores, or names an industry of
    its table that has the greatest of the recorded scores, all of which
    are positive and belong to industries of the table; the confidence is
    the share of that score in the sum of all scores, so it lies in
    (0, 1] and is 1 exactly when a single industry scored. *)
Theorem classify_industry_winner :
  forall job_description : string,
    let r := classify_industry job_description in
    let scores := IndustryAnalysis.all_scores r in
    (IndustryAnalysis.industry r = "general"
     /\ IndustryAnalysis.confidence r = 0.5%Q
     /\ scores = []
     /\ IndustryAnalysis.indicators r = [])
    \/ (In (IndustryAnalysis.industry r) (keys industry_patterns)
        /\ In (IndustryAnalysis.industry r, max_value scores) scores
        /\ (forall k v, In (k, v) scores ->
                        0 < v <= max_value scores
                        /\ In k (keys industry_patterns))
        /\ (0 < IndustryAnalysis.confidence r <= 1)%Q
        /\ (IndustryAnalysis.confidence r
            == inject_Z (Z.of_nat (max_value scores))
               / inject_Z (Z.of_nat (sum_values scores)))%Q
        /\ ((IndustryAnalysis.confidence r == 1)%Q
            <-> List.length scores = 1%nat)).
Proof.
  intros job_description r scores. subst scores r.
  unfold classify_industry. cbv zeta.
  match goal with
  | |- context [max_key ?d] => set (scores := d)
  end.
  assert (Hall : Forall (fun e => 0 < snd e /\ In (fst e) (keys industry_patterns))
                        scores).
  { unfold scores.
    apply (scored_entries (fun p => industry_score p (lower job_description))).
    - intros name cfg Hin Hpos. split; [exact Hpos |].
      apply (in_map fst) in Hin. exact Hin.
    - constructor. }
  rewrite Forall_forall in Hall.
  destruct (max_key scores) as [k |] eqn:E.
  - right. cbn [IndustryAnalysis.industry IndustryAnalysis.confidence
                IndustryAnalysis.all_scores].
    pose proof (max_key_entry scores k E) as Hk.
    assert (Hne : scores <> []) by (intros H; rewrite H in Hk; destruct Hk).
    destruct (sum_over_max scores) as (Hsum & Hmax & Hone); [| exact Hne |].
    { intros k' v' H. apply (Hall (k', v') H). }
    assert (Hpos : (0 <? sum_values scores)%nat = true)
      by (apply Nat.ltb_lt; lia).
    rewrite Hpos.
    destruct (ratio_range (max_value scores) (sum_values scores) Hmax
                          ltac:(lia)) as (Hr & Hr1).
    split; [apply (Hall (k, max_value scores) Hk) |].
    split; [exact Hk |]. split; [| split; [exact Hr | split; [reflexivity |]]].
    + intros k' v' H. split; [split |].
      * apply (Hall (k', v') H).
      * now apply (max_value_bounds scores k').
      * apply (Hall (k', v') H).
    + rewrite Hr1. split; [| exact (fun H => eq_sym (Hone H))].
      intros Heq. destruct scores as [| e1 [| e2 rest]];
        [congruence | reflexivity | cbn [List.length] in Hsum; lia].
  - left. destruct scores as [| [k0 v0] rest]; [| discriminate E].
    repeat split; reflexivity.
Qed.


End Winners.


(* ================================================================== *)
(** ** The cache of the performance monitor *)
(* ================================================================== *)

Section CacheBehaviour.
Import PerformanceCache CacheRequests.
Context {K V : Type} (K_eq_dec : forall a b : K, {a = b} + {a <> b}).

Implicit Types (c : PerformanceCache.t K V) (key : K).

Lemma lookup_keys {A : Type} (k : K) (l : list (K * A)) :
  In k (map fst l) <-> exists a, lookup K_eq_dec k l = Some a.
Proof.
  induction l as [| [k' a'] l IH]; simpl.
  - split; [tauto | intros [a H]; discriminate].
  - destruct (K_eq_dec k' k) as [-> | Hne].
    + split; [eauto | auto].
    + rewrite <- IH. split; [intros [H | H]; [contradiction | exact H] | auto].
Qed.

Lemma lookup_none {A : Type} (k : K) (l : list (K * A)) :
  lookup K_eq_dec k l = None <-> ~ In k (map fst l).
Proof.
  rewrite lookup_keys. destruct (lookup K_eq_dec k l) as [a |].
  - split; [discriminate | intros H; exfalso; apply H; eauto].
  - split; [intros _ [a H]; discriminate | reflexivity].
Qed.


Lemma lookup_assign_other {A : Type} (k k' : K) (a : A) (l : list (K * A)) :
  k' <> k -> lookup K_eq_dec k' (assign K_eq_dec k a l) = lookup K_eq_dec k' l.
Proof.
  intros Hne. induction l as [| [k0 a0] l IH]; simpl.
  - destruct (K_eq_dec k k'); congruence.
  - destruct (K_eq_dec k0 k) as [-> | H0]; simpl.
    + destruct (K_eq_dec k k'); congruence.
    + destruct (K_eq_dec k0 k'); congruence.
Qed.

Lemma keys_assign_present {A : Type} (k : K) (a : A) (l : list (K * A)) :
  In k (map fst l) -> map fst (assign K_eq_dec k a l) = map fst l.
Proof.
  induction l as [| [k' a'] l IH]; simpl; [tauto |].
  intros Hin. destruct (K_eq_dec k' k) as [-> | Hne]; simpl; [reflexivity |].
  f_equal. apply IH. destruct Hin; congruence.
Qed.

Lemma keys_assign_absent {A : Type} (k : K) (a : A) (l : list (K * A)) :
  ~ In k (map fst l) -> map fst (assign K_eq_dec k a l) = map fst l ++ [k].
Proof.
  induction l as [| [k' a'] l IH]; simpl; [reflexivity |].
  intros Hn. destruct (K_eq_dec k' k) as [-> | Hne]; simpl.
  - exfalso. auto.
  - f_equal. apply IH. auto.
Qed.

Lemma keys_assign {A : Type} (k : K) (a : A) (l : list (K * A)) :
  NoDup (map fst l) ->
  NoDup (map fst (assign K_eq_dec k a l))
  /\ (forall x, In x (map fst (assign K_eq_dec k a l)) <-> x = k \/ In x (map fst l)).
Proof.
  intros Hnd. destruct (in_dec K_eq_dec k (map fst l)) as [Hin | Hn].
  - rewrite keys_assign_present by assumption. split; [assumption |].
    intros x. split; [auto | intros [-> | H]; assumption].
  - rewrite keys_assign_absent by assumption. split.
    + apply NoDup_app; [assumption | repeat constructor; simpl; tauto |].
      intros x Hx [<- | []]. contradiction.
    + intros x. rewrite in_app_iff. simpl. intuition congruence.
Qed.

Lemma keys_remove {A : Type} (k : K) (l : list (K * A)) :
  NoDup (map fst l) ->
  NoDup (map fst (remove K_eq_dec k l))
  /\ (forall x, In x (map fst (remove K_eq_dec k l)) <-> x <> k /\ In x (map fst l))
  /\ (In k (map fst l) -> S (List.length (remove K_eq_dec k l)) = List.length l).
Proof.
  induction l as [| [k' a'] l IH]; simpl; intros Hnd.
  - split; [constructor |]. split; [tauto | tauto].
  - inversion Hnd as [| ? ? Hn Hnd']; subst.
    destruct (K_eq_dec k' k) as [-> | Hne].
    + split; [assumption |]. split; [| reflexivity].
      intros x. split.
      * intros H. split; [intros -> ; contradiction | auto].
      * intros [Hx [H | H]]; [congruence | assumption].
    + destruct (IH Hnd') as (IH1 & IH2 & IH3). simpl. split; [| split].
      * constructor; [| assumption]. rewrite IH2. tauto.
      * intros x. rewrite IH2. split.
        -- intros [<- | [Hx H]]; auto.
        -- intros [Hx [<- | H]]; auto.
      * intros [H | H]; [contradiction |]. now rewrite (IH3 H).
Qed.

Lemma length_assign {A : Type} (k : K) (a : A) (l : list (K * A)) :
  List.length (assign K_eq_dec k a l)
  = match lookup K_eq_dec k l with
    | Some _ => List.length l
    | None => S (List.length l)
    end.
Proof.
  induction l as [| [k' a'] l IH]; simpl; [reflexivity |].
  destruct (K_eq_dec k' k); simpl; [reflexivity |].
  rewrite IH. destruct (lookup K_eq_dec k l); reflexivity.
Qed.

(** The key with the earliest access, the first of them. *)
Lemma oldest_least (l : list (K * Z)) : forall best best_t,
  exists t,
    In (oldest l best best_t, t) ((best, best_t) :: l)
    /\ (t <= best_t)%Z
    /\ forall k' t', In (k', t') l -> (t <= t')%Z.
Proof.
  induction l as [| [k time] l IH]; intros best best_t; simpl.
  - exists best_t. split; [auto |]. split; [lia | tauto].
  - destruct (time <? best_t)%Z eqn:E.
    + apply Z.ltb_lt in E. destruct (IH k time) as (t & Hin & Hle & Hall).
      exists t. split; [right; exact Hin |]. split; [lia |].
      intros k' t' [[= <- <-] | H]; [assumption | now apply (Hall k')].
    + apply Z.ltb_ge in E. destruct (IH best best_t) as (t & Hin & Hle & Hall).
      exists t. split; [destruct Hin; auto |]. split; [assumption |].
      intros k' t' [[= <- <-] | H]; [lia | now apply (Hall k')].
Qed.

Lemma in_step_get key now c :
  in_step c ->
  in_step (snd (get K_eq_dec key now c))
  /\ List.length (cache (snd (get K_eq_dec key now c))) <= List.length (cache c)
  /\ max_size (snd (get K_eq_dec key now c)) = max_size c.
Proof.
  intros (Hc & Ha & Hs). unfold get.
  destruct (lookup K_eq_dec key (cache c)) as [e |] eqn:E; cbn [snd].
  - destruct (expires_at e <? now)%Z; cbn [snd].
    + destruct (keys_remove key (cache c) Hc) as (R1 & R2 & R3).
      destruct (keys_remove key (access_times c) Ha) as (T1 & T2 & _).
      assert (Hin : In key (map fst (cache c))) by (apply lookup_keys; eauto).
      unfold in_step. cbn [cache access_times max_size].
      split; [| split; [specialize (R3 Hin); lia | reflexivity]].
      split; [assumption |]. split; [assumption |].
      intros k. rewrite R2, T2, Hs. tauto.
    + assert (Hin : In key (map fst (access_times c)))
        by (apply Hs, lookup_keys; eauto).
      unfold in_step. cbn [cache access_times max_size].
      rewrite (keys_assign_present key now (access_times c) Hin).
      split; [| split; [lia | reflexivity]]. auto.
  - unfold in_step. cbn [cache access_times max_size].
    split; [| split; [lia | reflexivity]]. auto.
Qed.

Lemma in_step_evict c :
  in_step c ->
  access_times c <> [] ->
  in_step (_evict_lru K_eq_dec c)
  /\ S (List.length (cache (_evict_lru K_eq_dec c))) = List.length (cache c)
  /\ max_size (_evict_lru K_eq_dec c) = max_size c
  /\ default_ttl (_evict_lru K_eq_dec c) = default_ttl c
  /\ (forall k, In k (map fst (cache (_evict_lru K_eq_dec c))) ->
                In k (map fst (cache c))).
Proof.
  intros (Hc & Ha & Hs) Hne. unfold _evict_lru.
  destruct (access_times c) as [| [k time] r] eqn:E; [congruence |].
  set (lru_key := oldest r k time).
  assert (Hin : In lru_key (map fst (access_times c))).
  { destruct (oldest_least r k time) as (t & H & _).
    rewrite E. apply (in_map fst) in H. exact H. }
  rewrite <- E in Ha, Hs |- *.
  destruct (keys_remove lru_key (cache c) Hc) as (R1 & R2 & R3).
  destruct (keys_remove lru_key (access_times c) Ha) as (T1 & T2 & _).
  unfold in_step. cbn [cache access_times max_size default_ttl].
  split; [| split; [apply R3, Hs, Hin | split; [reflexivity | split;
                                                   [reflexivity |]]]].
  - split; [assumption |]. split; [assumption |].
    intros x. rewrite R2, T2, Hs. tauto.
  - intros x Hx. apply R2 in Hx. tauto.
Qed.

Lemma in_step_set key v ttl now c :
  in_step c ->
  1 <= max_size c ->
  List.length (cache c) <= max_size c ->
  in_step (set K_eq_dec key v ttl now c)
  /\ List.length (cache (set K_eq_dec key v ttl now c)) <= max_size c
  /\ max_size (set K_eq_dec key v ttl now c) = max_size c.
Proof.
  intros Hstep Hsize Hlen. unfold set.
  set (c1 := if (max_size c <=? List.length (cache c))%nat
             then match lookup K_eq_dec key (cache c) with
                  | None => _evict_lru K_eq_dec c
                  | Some _ => c
                  end
             else c).
  assert (H1 : in_step c1 /\ max_size c1 = max_size c
               /\ match lookup K_eq_dec key (cache c1) with
                  | Some _ => List.length (cache c1)
                  | None => S (List.length (cache c1))
                  end <= max_size c).
  { unfold c1.
    destruct (max_size c <=? List.length (cache c))%nat eqn:E.
    - apply Nat.leb_le in E.
      destruct (lookup K_eq_dec key (cache c)) as [e |] eqn:El.
      + rewrite El. split; [exact Hstep | split; [reflexivity | exact Hlen]].
      + assert (Hne : access_times c <> []).
        { intros H0. destruct Hstep as (_ & _ & Hs).
          destruct (cache c) as [| [k0 e0] rest]; [simpl in *; lia |].
          specialize (Hs k0). rewrite H0 in Hs. simpl in Hs. tauto. }
        destruct (in_step_evict c Hstep Hne) as (S1 & S2 & S3 & _ & S5).
        assert (Hl : lookup K_eq_dec key (cache (_evict_lru K_eq_dec c)) = None).
        { apply lookup_none. intros H. apply S5 in H.
          apply lookup_none in El. contradiction. }
        rewrite Hl. split; [exact S1 | split; [exact S3 | lia]].
    - apply Nat.leb_gt in E. split; [exact Hstep | split; [reflexivity |]].
      destruct (lookup K_eq_dec key (cache c)); lia. }
  destruct H1 as ((Hc1 & Ha1 & Hs1) & Hm1 & Hl1).
  cbn [cache access_times max_size]. rewrite length_assign.
  split; [| split; [exact Hl1 | exact Hm1]].
  unfold in_step. cbn [cache access_times].
  match goal with
  | |- context [PerformanceCache.assign K_eq_dec key ?e (cache c1)] =>
      destruct (keys_assign key e (cache c1) Hc1) as (A1 & A2)
  end.
  destruct (keys_assign key now (access_times c1) Ha1) as (B1 & B2).
  split; [assumption |]. split; [assumption |].
  intros x. rewrite A2, B2, Hs1. tauto.
Qed.

(** X18.  A cache created with a capacity of at least one entry never
    holds more entries than its capacity, whatever calls of [get] and
    [set] it serves, and the keys of its two dictionaries (the values and
    the access times) stay the same, without repetition; so the [del] of
    an eviction or of an expiry always finds its key. *)
Theorem cache_never_exceeds_capacity :
  forall (requests : list (request K V)) (size : nat) (ttl : Z),
    1 <= size ->
    let c := fold_left (serve K_eq_dec) requests (empty size ttl) in
    List.length (cache c) <= size
    /\ max_size c = size
    /\ in_step c.
Proof.
  intros requests size ttl Hsize c.
  assert (H : forall c0,
             in_step c0 -> max_size c0 = size ->
             List.length (cache c0) <= size ->
             let c1 := fold_left (serve K_eq_dec) requests c0 in
             List.length (cache c1) <= size /\ max_size c1 = size /\ in_step c1).
  { induction requests as [| r requests IH]; intros c0 Hs Hm Hl; cbn [fold_left].
    - auto.
    - destruct r as [key now | key v t now]; apply IH; cbn [serve].
      + apply in_step_get; assumption.
      + destruct (in_step_get key now c0 Hs) as (_ & _ & E). congruence.
      + destruct (in_step_get key now c0 Hs) as (_ & L & _). lia.
      + apply in_step_set; [assumption | lia | lia].
      + destruct (in_step_set key v t now c0 Hs) as (_ & _ & E);
          [lia | lia | congruence].
      + destruct (in_step_set key v t now c0 Hs) as (_ & L & _);
          [lia | lia | lia]. }
  apply H; [| reflexivity | simpl; lia].
  unfold in_step. simpl. split; [constructor |]. split; [constructor | tauto].
Qed.

Lemma lookup_remove_other {A : Type} (k k' : K) (l : list (K * A)) :
  k' <> k -> lookup K_eq_dec k' (remove K_eq_dec k l) = lookup K_eq_dec k' l.
Proof.
  intros Hne. induction l as [| [k0 a0] l IH]; simpl; [reflexivity |].
  destruct (K_eq_dec k0 k) as [-> | H0]; simpl.
  - destruct (K_eq_dec k k'); congruence.
  - destruct (K_eq_dec k0 k'); congruence.
Qed.

Lemma lookup_remove_same {A : Type} (k : K) (l : list (K * A)) :
  NoDup (map fst l) -> lookup K_eq_dec k (remove K_eq_dec k l) = None.
Proof.
  intros Hnd. apply lookup_none.
  destruct (keys_remove k l Hnd) as (_ & R2 & _). rewrite R2. tauto.
Qed.




(** X20.  On a cache that holds something, [_evict_lru] removes exactly
    one key from both dictionaries: a key whose recorded access is the
    earliest of all.  Every other key keeps its entry, and the eviction
    is counted. *)
Theorem evict_lru_drops_least_recent :
  forall c : PerformanceCache.t K V,
    in_step c ->
    access_times c <> [] ->
    let c' := _evict_lru K_eq_dec c in
    exists (key : K) (time : Z),
      In (key, time) (access_times c)
      /\ (forall k t, In (k, t) (access_times c) -> (time <= t)%Z)
      /\ In key (map fst (cache c))
      /\ lookup K_eq_dec key (cache c') = None
      /\ lookup K_eq_dec key (access_times c') = None
      /\ (forall k, k <> key ->
                    lookup K_eq_dec k (cache c') = lookup K_eq_dec k (cache c)
                    /\ lookup K_eq_dec k (access_times c')
                       = lookup K_eq_dec k (access_times c))
      /\ S (List.length (cache c')) = List.length (cache c)
      /\ eviction_count c' = eviction_count c + 1.
Proof.
  intros c Hs Hne c'.
  destruct (in_step_evict c Hs Hne) as (_ & Hlen & _).
  destruct Hs as (Hc & Ha & Hsame).
  subst c'. unfold _evict_lru in *.
  destruct (access_times c) as [| [k0 t0] r] eqn:E; [congruence |].
  destruct (oldest_least r k0 t0) as (time & Hin & Hle & Hall).
  set (key := oldest r k0 t0) in *.
  cbn [cache access_times eviction_count] in *. rewrite <- E in *.
  exists key, time.
  split; [exact Hin |].
  split.
  { intros k t Hkt. rewrite E in Hkt.
    destruct Hkt as [[= <- <-] | Hkt]; [exact Hle | now apply (Hall k)]. }
  split.
  { apply Hsame. apply (in_map fst) in Hin. exact Hin. }
  split; [now apply lookup_remove_same |].
  split; [now apply lookup_remove_same |].
  split; [| split; [exact Hlen | reflexivity]].
  intros k Hk. split; now apply lookup_remove_other.
Qed.

End CacheBehaviour.

(** Three keys through a cache of two entries. *)
Lemma cache_never_exceeds_capacity_witness :
  let requests := [CacheRequests.CallSet "a" 1 None 10%Z;
                   CacheRequests.CallSet "b" 2 None 20%Z;
                   CacheRequests.CallGet "a" 30%Z;
                   CacheRequests.CallSet "c" 3 None 40%Z] in
  let c := fold_left (CacheRequests.serve string_dec) requests
                     (PerformanceCache.empty 2 3600%Z) in
  1 <= 2
  /\ List.length (PerformanceCache.cache c) <= 2
  /\ map fst (PerformanceCache.cache c) = ["a"; "c"].
Proof.
  intros requests c.
  assert (H1 : 1 <= 2) by lia.
  split; [exact H1 |].
  destruct (cache_never_exceeds_capacity string_dec requests 2 3600%Z H1)
    as (Hlen & _).
  split; [exact Hlen | reflexivity].
Defined.


(** Of two keys, the one read last stays. *)
Lemma evict_lru_drops_least_recent_witness :
  let c := fold_left (CacheRequests.serve string_dec)
                     [CacheRequests.CallSet "a" 1 None 10%Z;
                      CacheRequests.CallSet "b" 2 None 20%Z;
                      CacheRequests.CallGet "a" 30%Z]
                     (PerformanceCache.empty 2 3600%Z) in
  CacheRequests.in_step c
  /\ PerformanceCache.access_times c <> []
  /\ map fst (PerformanceCache.cache (PerformanceCache._evict_lru string_dec c))
     = ["a"]
  /\ exists key time,
      In (key, time) (PerformanceCache.access_times c)
      /\ PerformanceCache.lookup string_dec key
           (PerformanceCache.cache (PerformanceCache._evict_lru string_dec c))
         = None.
Proof.
  intros c.
  assert (H0 : CacheRequests.in_step c).
  { unfold CacheRequests.in_step. simpl.
    split; [repeat constructor; simpl; intuition discriminate |].
    split; [repeat constructor; simpl; intuition discriminate | tauto]. }
  assert (H1 : PerformanceCache.access_times c <> []) by (simpl; discriminate).
  split; [exact H0 |]. split; [exact H1 |]. split; [reflexivity |].
  destruct (evict_lru_drops_least_recent string_dec c H0 H1)
    as (key & time & Hin & _ & _ & Hgone & _).
  exists key, time. split; [exact Hin | exact Hgone].
Defined.


(* ================================================================== *)
(** ** The terms extracted from a text *)
(* ================================================================== *)

Section ExtractedTerms.
Import RelevanceEngine RelevanceOps Notions Keywords.

Lemma keywords_in_spec (table : dict (list string)) (text_lower term : string) :
  In term (keywords_in table text_lower)
  <-> keyword_of table term /\ Substring term text_lower.
Proof.
  unfold keywords_in, keyword_of. rewrite in_flat_map. split.
  - intros ([domain kws] & Hin & Hf). apply filter_In in Hf.
    destruct Hf as [Hk Hc]. apply contains_spec in Hc.
    split; [now exists domain, kws | exact Hc].
  - intros ((domain & kws & Hin & Hk) & Hc). exists (domain, kws).
    split; [exact Hin |]. apply filter_In. split; [exact Hk |].
    now apply contains_spec.
Qed.

(** X21.  The terms [_extract_all_terms] finds in a text are exactly the
    keywords of the technical and the business tables that occur in the
    text once it is lower-cased, each listed once; the terms of
    [_extract_technical_terms] are those among them that are technical
    keywords. *)
Theorem extracted_terms_are_the_keywords_in_the_text :
  forall text term : string,
    (In term (_extract_all_terms text)
     <-> (keyword_of tech_domains term \/ keyword_of business_domains term)
         /\ Substring term (lower text))
    /\ (In term (_extract_technical_terms text)
        <-> keyword_of tech_domains term /\ Substring term (lower text))
    /\ NoDup (_extract_all_terms text)
    /\ NoDup (_extract_technical_terms text).
Proof.
  intros text term. unfold _extract_all_terms, _extract_technical_terms.
  cbv zeta. rewrite !distinct_in, in_app_iff, !keywords_in_spec.
  split; [tauto |]. split; [tauto |]. split; apply distinct_nodup.
Qed.

End ExtractedTerms.


(* ================================================================== *)
(** ** The numbers of the comprehensive analysis *)
(* ================================================================== *)

Section AnalysisRanges.
Import IndustryClassifier AdvancedRelevanceEngine Notions.
Local Open Scope Q_scope.










End AnalysisRanges.


(* ================================================================== *)
(** ** The status of an event as time passes *)
(* ================================================================== *)

Section EventCourse.
Import MemoryCore TemporalManager Course.
Local Open Scope Z_scope.

(** X23.  As time passes, the status computed for an event with a start
    date only moves forward: from "upcoming" to "starting_soon", to
    "current", to "recently_completed", to "completed".  Whenever a status
    is computed at two readings of the clock, the later one is not an
    earlier stage, whatever the dates are, the end date before the start
    date included; and a status is computed at every reading when
    [start - 7 days] and, if the end date is given, [end + 30 days] are
    [datetime]s. *)
Theorem event_status_never_moves_back :
  forall (event : TemporalMemory) (start : datetime)
         (end_date : option datetime) (earlier later : datetime),
    earlier <= later ->
    (forall before after,
        _calculate_event_status event (Some start) end_date earlier
        = Returns before ->
        _calculate_event_status event (Some start) end_date later
        = Returns after ->
        (stage before <= stage after)%nat)
    /\ (timedelta_days 7 <= start <= datetime_max ->
        (forall f, end_date = Some f ->
                   0 <= f /\ f + timedelta_days 30 <= datetime_max) ->
        exists before after,
          _calculate_event_status event (Some start) end_date earlier
          = Returns before
          /\ _calculate_event_status event (Some start) end_date later
             = Returns after
          /\ (stage before <= stage after)%nat).
Proof.
  intros event start end_date earlier later Hle.
  assert (Hforward :
            forall before after,
              _calculate_event_status event (Some start) end_date earlier
              = Returns before ->
              _calculate_event_status event (Some start) end_date later
              = Returns after ->
              (stage before <= stage after)%nat).
  { intros before after.
    unfold _calculate_event_status, sub, add, timedelta_days. cbv zeta.
    destruct end_date as [finish |];
      repeat match goal with
             | |- context [andb ?a ?b] => destruct (andb a b); cbn [bind]
             end;
      repeat match goal with
             | |- context [?a <? ?b] => destruct (Z.ltb_spec a b)
             end;
      intros E1 E2; try discriminate E1; try discriminate E2;
      injection E1 as <-; injection E2 as <-;
      try lia;
      match goal with
      | |- (stage ?a <= stage ?b)%nat =>
          let x := eval vm_compute in (stage a) in
          let y := eval vm_compute in (stage b) in
          change (x <= y)%nat; lia
      end. }
  split; [exact Hforward |].
  intros Hs Hf.
  destruct (status_returned event start end_date earlier Hs Hf)
    as (before & Hb & _).
  destruct (status_returned event start end_date later Hs Hf)
    as (after & Ha & _).
  exists before, after. split; [exact Hb |]. split; [exact Ha |].
  now apply Hforward.
Qed.

(** One event that starts on 2025-01-02 and ends on 2025-02-09, on the day
    before its start and on the day after its end. *)
Lemma event_status_never_moves_back_witness :
  let day := timedelta_days in
  let event := Samples.sample_event "upcoming" in
  let before :=
    _calculate_event_status event (Some (day 739252)) (Some (day 739290))
                            (day 739251) in
  let after :=
    _calculate_event_status event (Some (day 739252)) (Some (day 739290))
                            (day 739291) in
  day 739251 <= day 739291
  /\ before = Returns "starting_soon"%string
  /\ after = Returns "recently_completed"%string
  /\ (stage "starting_soon" <= stage "recently_completed")%nat.
Proof.
  intros day event before after.
  assert (H : day 739251 <= day 739291) by (vm_compute; discriminate).
  split; [exact H |]. split; [reflexivity |]. split; [reflexivity |].
  destruct (event_status_never_moves_back
              event (day 739252) (Some (day 739290)) (day 739251) (day 739291) H)
    as [Hforward _].
  apply Hforward; reflexivity.
Defined.

End EventCourse.


(* ================================================================== *)
(** ** Learning from feedback *)
(* ================================================================== *)

Section LearningCounts.
Import Learning.

Lemma concat_dict_set_new {V : Type} (k : string) (x : V) (d : dict (list V)) :
  dict_get k d = None ->
  List.concat (values (dict_set k [x] d)) = (List.concat (values d) ++ [x])%list.
Proof.
  unfold values. induction d as [| [k' l] d IH]; simpl; [reflexivity |].
  destruct (String.eqb k' k); [discriminate |].
  intros H. simpl. rewrite (IH H). now rewrite app_assoc.
Qed.

Lemma count_dict_set_old {V : Type} (p : V -> bool) (k : string) (x : V)
      (l : list V) (d : dict (list V)) :
  dict_get k d = Some l ->
  count_if p (List.concat (values (dict_set k (l ++ [x]) d)))
  = count_if p (List.concat (values d)) + count_if p [x].
Proof.
  unfold values. induction d as [| [k' l'] d IH]; simpl; [discriminate |].
  destruct (String.eqb k' k).
  - intros [= ->]. simpl. rewrite !count_if_app. simpl. lia.
  - intros H. simpl. rewrite !count_if_app, (IH H). lia.
Qed.

Lemma count_dict_append {V : Type} (p : V -> bool) (k : string) (x : V)
      (d : dict (list V)) :
  count_if p (List.concat (values (dict_append k x d)))
  = count_if p (List.concat (values d)) + count_if p [x].
Proof.
  unfold dict_append. destruct (dict_get k d) as [l |] eqn:E.
  - now apply count_dict_set_old.
  - rewrite (concat_dict_set_new k x d E). apply count_if_app.
Qed.

Lemma sum_lengths {V : Type} (d : dict (list V)) :
  fold_left Nat.add (map (fun l => List.length l) (values d)) 0
  = List.length (List.concat (values d)).
Proof.
  unfold values. induction d as [| [k l] d IH]; simpl; [reflexivity |].
  rewrite sum_values_from, IH, length_app. reflexivity.
Qed.

Lemma keys_dict_append {V : Type} (k : string) (x : V) (d : dict (list V)) :
  NoDup (keys d) ->
  NoDup (keys (dict_append k x d))
  /\ forall key, In key (keys (dict_append k x d)) <-> key = k \/ In key (keys d).
Proof.
  intros Hnd. unfold dict_append.
  destruct (dict_get k d) as [l |] eqn:E.
  - apply dict_get_in_keys in E.
    rewrite dict_set_keys_present by assumption. split; [assumption |].
    intros key. split; [auto | intros [-> | H]; assumption].
  - split; [now apply dict_set_nodup |].
    assert (Hn : ~ In k (keys d)).
    { intros H. apply in_keys_dict_get in H. destruct H as [v H]. congruence. }
    rewrite dict_set_keys_absent by assumption.
    intros key. rewrite in_app_iff. simpl. intuition congruence.
Qed.

(** The feedback recorded by a run of calls. *)
Lemma learned (calls : list call) :
  forall s,
    NoDup (keys (feedback_patterns s)) ->
    let s' := fold_left learn calls s in
    NoDup (keys (feedback_patterns s'))
    /\ (forall key, In key (keys (feedback_patterns s'))
                    <-> In key (keys (feedback_patterns s))
                        \/ In key (map (fun c => lower (call_skill c)) calls))
    /\ forall p,
        count_entries p (feedback_patterns s')
        = count_entries p (feedback_patterns s)
          + count_if (fun c => p {| skill := lower (call_skill c);
                                    job_context := lower (take 200 (call_job c));
                                    feedback_type := call_type c;
                                    user_score := call_score c;
                                    timestamp := at_first c |}) calls.
Proof.
  induction calls as [| c calls IH]; intros s Hnd; cbn [fold_left].
  - split; [exact Hnd |]. split; [simpl; tauto |].
    intros p. cbn [count_if filter List.length]. unfold count_if.
    cbn [filter List.length]. lia.
  - destruct (keys_dict_append
                (lower (call_skill c))
                {| skill := lower (call_skill c);
                   job_context := lower (take 200 (call_job c));
                   feedback_type := call_type c;
                   user_score := call_score c;
                   timestamp := at_first c |}
                (feedback_patterns s) Hnd) as (Hnd1 & Hk1).
    destruct (IH (learn s c) Hnd1) as (H1 & H2 & H3).
    split; [exact H1 |]. split.
    + intros key. rewrite H2. unfold learn at 1, learn_from_feedback.
      cbn [feedback_patterns]. rewrite Hk1. simpl. intuition congruence.
    + intros p. rewrite H3. unfold learn at 1, learn_from_feedback.
      cbn [feedback_patterns]. unfold count_entries.
      rewrite count_dict_append.
      change (c :: calls) with ([c] ++ calls)%list. rewrite count_if_app.
      unfold count_if. simpl.
      destruct (p _); simpl; lia.
Qed.

Lemma performance_counts (history : dict (list performance_entry)) :
  forall top under,
    (forall x, In x top -> 3 <= feedback_count x) ->
    (forall x, In x under -> 3 <= feedback_count x) ->
    let ranked :=
      fold_left
        (fun '(top, under) '(skill, history) =>
           if (3 <=? List.length history)%nat then
             let avg_score :=
               (fold_left Qplus (map score history) 0
                / inject_Z (Z.of_nat (List.length history)))%Q in
             let insight := {| insight_skill := skill; avg_score := avg_score;
                               feedback_count := List.length history |} in
             if qlt 0.8 avg_score then (top ++ [insight], under)
             else if qlt avg_score 0.4 then (top, under ++ [insight])
             else (top, under)
           else (top, under))
        history (top, under) in
    (forall x, In x (fst ranked) -> 3 <= feedback_count x)
    /\ (forall x, In x (snd ranked) -> 3 <= feedback_count x).
Proof.
  induction history as [| [skill h] history IH]; intros top under Ht Hu;
    cbn [fold_left].
  - auto.
  - cbv zeta. destruct (3 <=? List.length h)%nat eqn:E; [| now apply IH].
    apply Nat.leb_le in E.
    destruct (qlt 0.8 _); [| destruct (qlt _ 0.4)]; apply IH; auto;
      intros x Hx; apply in_app_or in Hx;
      (destruct Hx as [Hx | [<- | []]]; [auto | exact E]).
Qed.

(** X24.  After any run of calls of [learn_from_feedback] on a new
    engine, the insights count every call once, count the skills by their
    lower-cased names, and count the calls marked "positive" and
    "negative"; the positive ratio lies in [0, 1], and only skills with
    at least three scores are listed as top performing or
    underperforming. *)
Theorem learning_insights_count_the_feedback :
  forall calls : list call,
    let i := get_learning_insights (fold_left learn calls initial) in
    total_feedback_entries i = List.length calls
    /\ skills_with_feedback i
       = List.length (nodup string_dec
                            (map (fun c => lower (call_skill c)) calls))
    /\ total_positive (feedback_trends i)
       = count_if (fun c => String.eqb (call_type c) "positive") calls
    /\ total_negative (feedback_trends i)
       = count_if (fun c => String.eqb (call_type c) "negative") calls
    /\ (0 <= positive_ratio (feedback_trends i) <= 1)%Q
    /\ (forall x, In x (top_performing_skills i) -> 3 <= feedback_count x)
    /\ (forall x, In x (underperforming_skills i) -> 3 <= feedback_count x).
Proof.
  intros calls i. subst i.
  destruct (learned calls initial ltac:(constructor)) as (Hnd & Hkeys & Hcount).
  set (s := fold_left learn calls initial) in *.
  unfold get_learning_insights. cbv zeta.
  cbn [total_feedback_entries skills_with_feedback feedback_trends
       total_positive total_negative positive_ratio top_performing_skills
       underperforming_skills].
  rewrite sum_lengths.
  split.
  { pose proof (Hcount (fun _ => true)) as H. unfold count_entries in H.
    unfold count_if in H. rewrite !filter_all in H by reflexivity.
    simpl in H. exact H. }
  split.
  { rewrite <- (length_map fst (feedback_patterns s)).
    apply Permutation_length, NoDup_Permutation;
      [exact Hnd | apply NoDup_nodup |].
    intros key. rewrite nodup_In. fold (keys (feedback_patterns s)).
    rewrite Hkeys. simpl. tauto. }
  rewrite !Hcount. cbn [feedback_type]. unfold count_entries. simpl.
  split; [reflexivity |]. split; [reflexivity |].
  split.
  { set (pos := count_if (fun c => String.eqb (call_type c) "positive") calls).
    set (neg := count_if (fun c => String.eqb (call_type c) "negative") calls).
    destruct (0 <? pos + neg)%nat eqn:E; [| lra].
    apply Nat.ltb_lt in E.
    assert (H0 : (0 < inject_Z (Z.of_nat (pos + neg)))%Q).
    { change 0%Q with (inject_Z 0). rewrite <- Zlt_Qlt. lia. }
    assert (H1 : (0 <= inject_Z (Z.of_nat pos))%Q).
    { change 0%Q with (inject_Z 0). rewrite <- Zle_Qle. lia. }
    assert (H2 : (inject_Z (Z.of_nat pos) <= inject_Z (Z.of_nat (pos + neg)))%Q).
    { rewrite <- Zle_Qle. lia. }
    split.
    - apply Qle_shift_div_l; [assumption |]. now rewrite Qmult_0_l.
    - apply Qle_shift_div_r; [assumption |]. now rewrite Qmult_1_l. }
  apply (performance_counts (skill_performance_history s) [] []);
    intros x [].
Qed.

End LearningCounts.
